(** * tracknaliser: the k-means clustering engine

    A shallow embedding of [tracknaliser/clustering.py] (the scalar
    implementation [cluster]) and of [tracknaliser/clustering_numpy.py] (the
    vectorised implementation [cluster_numpy]), and the properties the
    specification states about them.  [Tracks.kmeans] of
    [tracknaliser/tracks.py], the caller of [cluster_numpy], is embedded
    after them, and further properties of the three files follow those of
    the specification.

    Conventions of the embedding.
    - A Python exception is the outcome [Raise e]; code that touches the
      random generator, the standard output or a local variable of [cluster]
      runs in the state and exception monad [py].  The store holds the
      caller's list of points as well, so that what a call does to it can be
      stated.
    - Numbers are taken from the interface [Arith]: the coordinates of a point
      are [num]s and a distance (the result of [sqrt]) is a [dist]; the
      comparisons the code makes ([<] in [min], [==] in [list.index]) are the
      boolean fields [flt] and [feq], which order the distances totally.
      [Arith] has no NaN, no rounding and no overflow: it is the arithmetic
      of the real numbers that the floats of the code approximate (the
      [OverflowError] that [** 2] raises in [calculate_distance] when a
      square leaves the range of the floats is outside it).  The vectorised
      code, which can create a NaN, works on [option num] where [None] is
      NaN; [clustering_numpy] is the code on tuples of floats, whose array
      is an array of floats, and [clustering_numpy_int64] is the same code on
      tuples of Python integers, whose array is an array of integers that
      truncates what is stored in it.
    - The random generators of [random] and [numpy.random] are the interface
      [Random]; their state is part of the store.
    - A [while] loop runs on fuel; [cluster] supplies it, and running out of it
      is the outcome [OutOfFuel], which the theorems exclude. *)

From Stdlib Require Import ZArith QArith Lia.
From stdpp Require Import base gmap strings list pretty.

Open Scope string_scope.
Open Scope list_scope.
Open Scope Z_scope.

(** ** Exceptions and outcomes *)

Inductive exn : Type :=
| ValueError
| IndexError
| KeyError
| ZeroDivisionError.

Inductive outcome (A : Type) : Type :=
| Ok (a : A)
| Raise (e : exn)
| OutOfFuel.

Arguments Ok {A} a.
Arguments Raise {A} e.
Arguments OutOfFuel {A}.

#[global] Instance outcome_ret : MRet outcome := fun _ a => Ok a.
#[global] Instance outcome_bind : MBind outcome := fun _ _ k m =>
  match m with
  | Ok a => k a
  | Raise e => Raise e
  | OutOfFuel => OutOfFuel
  end.
#[global] Instance outcome_fmap : FMap outcome := fun _ _ f m =>
  match m with
  | Ok a => Ok (f a)
  | Raise e => Raise e
  | OutOfFuel => OutOfFuel
  end.

(** [l[i]] on a Python list or tuple, for an index [i >= 0]. *)
Definition getitem {A : Type} (l : list A) (i : nat) : outcome A :=
  match l !! i with
  | Some x => Ok x
  | None => Raise IndexError
  end.

(** [range(n)] for a Python integer [n]: empty when [n <= 0]. *)
Definition range (n : Z) : list nat := seq 0 (Z.to_nat n).

Definition len {A : Type} (l : list A) : Z := Z.of_nat (length l).

(** ** The state and exception monad *)

Definition py (S A : Type) : Type := S → outcome A * S.

#[global] Instance py_ret {S} : MRet (py S) := fun _ a s => (Ok a, s).
#[global] Instance py_bind {S} : MBind (py S) := fun _ _ k m s =>
  match m s with
  | (Ok a, s') => k a s'
  | (Raise e, s') => (Raise e, s')
  | (OutOfFuel, s') => (OutOfFuel, s')
  end.

Definition raise {S A : Type} (e : exn) : py S A := fun s => (Raise e, s).
Definition gets {S A : Type} (f : S → A) : py S A := fun s => (Ok (f s), s).
Definition modify {S : Type} (f : S → S) : py S () := fun s => (Ok (), f s).
Definition lift {S A : Type} (o : outcome A) : py S A := fun s => (o, s).

(** [for x in l: body x]. *)
Fixpoint for_ {S B : Type} (l : list B) (body : B → py S ()) : py S () :=
  match l with
  | [] => mret ()
  | x :: l' => body x ;; for_ l' body
  end.

(** [while cond: body], on fuel. *)
Fixpoint while_ {S : Type} (fuel : nat) (cond : S → bool) (body : py S ())
  : py S () :=
  fun s =>
    if cond s then
      match fuel with
      | O => (OutOfFuel, s)
      | S fuel' => (body ;; while_ fuel' cond body) s
      end
    else (Ok (), s).

(** ** Numbers *)

Class Arith : Type := {
  num : Type;                       (* a coordinate *)
  dist : Type;                      (* a distance, the result of [sqrt] *)
  fzero : num;                      (* the literal [0] *)
  fadd : num → num → num;           (* [x + y] *)
  fsub : num → num → num;           (* [x - y] *)
  fsq : num → num;                  (* [x ** 2] *)
  fdiv : num → nat → num;           (* [x / n] for a count [n > 0] *)
  fsqrt : num → dist;               (* [sqrt(x)] *)
  flt : dist → dist → bool;         (* [x < y] *)
  feq : dist → dist → bool;         (* [x == y] *)
  flt_trans x y z : flt x y = true → flt y z = true → flt x z = true;
  flt_irrefl x : flt x x = false;
  feq_refl x : feq x x = true;
  flt_feq_total x y : flt x y = false → feq x y = false → flt y x = true;
  feq_flt_l x y z : feq x y = true → flt x z = flt y z;
  feq_flt_r x y z : feq x y = true → flt z x = flt z y
}.

(** ** Random generators *)

Class Random : Type := {
  rng_state : Type;
  (* [random.randrange(n)] for [n > 0] *)
  randrange : nat → rng_state → nat * rng_state;
  (* [numpy.random.choice(n, size=k, replace=False)] for [k <= n] *)
  choice : nat → nat → rng_state → list nat * rng_state;
  randrange_lt n g : (0 < n)%nat → (fst (randrange n g) < n)%nat;
  choice_length n k g : (k ≤ n)%nat → length (fst (choice n k g)) = k;
  choice_lt n k g i : (k ≤ n)%nat → i ∈ fst (choice n k g) → (i < n)%nat;
  choice_NoDup n k g : (k ≤ n)%nat → NoDup (fst (choice n k g))
}.

(** ** Dictionaries *)

(** The values stored in the inner dictionary of a cluster: a centre (a tuple
    or a list of coordinates) or a list of points. *)
Inductive value (X : Type) : Type :=
| VCenter (c : list X)
| VPoints (ps : list (list X)).

Arguments VCenter {X} c.
Arguments VPoints {X} ps.

(** [clusters_information]: a dictionary from cluster ids to dictionaries with
    string keys.  A Python dictionary keeps its keys in insertion order, and
    [items()] follows it: the outer one is an association list. *)
Abbreviation dic X := (gmap string (value X)).
Abbreviation dict X := (list (nat * dic X)).

(** [d[k] = v] *)
Fixpoint setitem {X : Type} (d : dict X) (k : nat) (v : dic X) : dict X :=
  match d with
  | [] => [(k, v)]
  | (k', v') :: d' =>
      if decide (k' = k) then (k, v) :: d' else (k', v') :: setitem d' k v
  end.

(** [{'center': c, 'allocated_points': ps}] *)
Definition entry {X : Type} (c : list X) (ps : list (list X)) : dic X :=
  <["allocated_points" := VPoints ps]> (<["center" := VCenter c]> ∅).

Definition center {X : Type} (d : dic X) : option (list X) :=
  match d !! "center" with
  | Some (VCenter c) => Some c
  | _ => None
  end.

Definition members {X : Type} (d : dic X) : list (list X) :=
  match d !! "allocated_points" with
  | Some (VPoints ps) => ps
  | _ => []
  end.

(** [str] of the values that [print_points] prints. *)
Class Str (X : Type) : Type := str : value X → string.

(** [len] of such a value. *)
Definition len_value {X : Type} (v : value X) : nat :=
  match v with
  | VCenter c => length c
  | VPoints ps => length ps
  end.

(** [d[k]] on the inner dictionary. *)
Definition getkey {X : Type} (d : dic X) (k : string) : outcome (value X) :=
  match d !! k with
  | Some v => Ok v
  | None => Raise KeyError
  end.

(** A loop that carries an accumulator and can raise. *)
Fixpoint foldl_m {A B : Type} (f : A → B → outcome A) (a : A) (l : list B)
  : outcome A :=
  match l with
  | [] => Ok a
  | x :: l' => a' ← f a x; foldl_m f a' l'
  end.

(** [[point for point_index, point in enumerate(points_list)
      if allocated_cluster[point_index] == cluster_id]]: the points whose entry
    of [allocated_cluster] is [cluster_id], in the order of [points_list];
    [allocated_cluster] has one entry per point. *)
Definition select {A : Type} (points_list : list A)
    (allocated_cluster : list nat) (cluster_id : nat) : list A :=
  (filter (fun pc => pc.2 = cluster_id) (zip points_list allocated_cluster)).*1.

(** * clustering.py *)

Module clustering.
Section clustering.
Context {AR : Arith} {RN : Random} {ST : Str num}.

Abbreviation vec := (list num).

(** The caller's list object, the two global resources the module uses, and
    the local variables of [cluster]. *)
Record store : Type := Store {
  points_list : list vec;
  rng : rng_state;
  stdout : list string;
  centers : list vec;
  clusters_information : dict num;
  iteration : Z
}.

Definition set_rng (g : rng_state) (s : store) : store :=
  Store (points_list s) g (stdout s) (centers s) (clusters_information s)
    (iteration s).
Definition set_stdout (o : list string) (s : store) : store :=
  Store (points_list s) (rng s) o (centers s) (clusters_information s)
    (iteration s).
Definition set_centers (c : list vec) (s : store) : store :=
  Store (points_list s) (rng s) (stdout s) c (clusters_information s)
    (iteration s).
Definition set_clusters_information (d : dict num) (s : store) : store :=
  Store (points_list s) (rng s) (stdout s) (centers s) d (iteration s).
Definition set_iteration (i : Z) (s : store) : store :=
  Store (points_list s) (rng s) (stdout s) (centers s)
    (clusters_information s) i.

(** The store in which a caller invokes [cluster]: its list of points, the
    generator and the output so far; the locals are not yet bound. *)
Definition call (points : list vec) (g : rng_state) (out : list string)
  : store :=
  Store points g out [] [] 0.

(** [calculate_distance]: the radicand is accumulated from [0], left to
    right; [point[i]] is read before [center_point[i]]. *)
Definition calculate_distance (center_point point : vec) (dimension : nat)
  : outcome dist :=
  square_distance ←
    foldl_m (fun square_distance i =>
               p ← getitem point i;
               c ← getitem center_point i;
               mret (fadd square_distance (fsq (fsub p c))))
            fzero (seq 0 dimension);
  mret (fsqrt square_distance).

(** [min(l)]: the first item is kept until a strictly smaller one comes. *)
Fixpoint min_scan (m : dist) (l : list dist) : dist :=
  match l with
  | [] => m
  | x :: l' => if flt x m then min_scan x l' else min_scan m l'
  end.

Definition py_min (l : list dist) : outcome dist :=
  match l with
  | [] => Raise ValueError
  | x :: l' => Ok (min_scan x l')
  end.

(** [l.index(m)]: the first position whose item equals [m]. *)
Fixpoint py_index (l : list dist) (m : dist) : outcome nat :=
  match l with
  | [] => Raise ValueError
  | x :: l' => if feq x m then Ok O else S <$> py_index l' m
  end.

(** [find_best_cluster]: every slot of [distance] is written by the loop
    before [min] reads the list, so the list is built slot by slot. *)
Definition find_best_cluster (clusters : Z) (point : vec)
    (centers : list vec) (dimension : nat) : outcome nat :=
  distance ←
    mapM (fun cluster_id =>
            c ← getitem centers cluster_id;
            calculate_distance c point dimension)
         (range clusters);
  m ← py_min distance;
  py_index distance m.

(** [sum(l)]: from [0], left to right. *)
Definition py_sum (l : list num) : num := fold_left fadd l fzero.

(** [mid_point] *)
Definition mid_point (points : list vec) (dimension : nat) : outcome vec :=
  mapM (fun i =>
          column ← mapM (fun point => getitem point i) points;
          if decide (length points = O) then Raise ZeroDivisionError
          else mret (fdiv (py_sum column) (length points)))
       (seq 0 dimension).

(** [rand_point]; [randrange(0)] raises [ValueError]. *)
Definition rand_point (points : list vec) : py store vec :=
  if decide (length points = O) then raise ValueError
  else
    g ← gets rng;
    let '(i, g') := randrange (length points) g in
    modify (set_rng g');;
    lift (getitem points i).

Definition print (line : string) : py store () :=
  modify (fun s => set_stdout (stdout s ++ [line]) s).

(** [print_points] *)
Definition print_points (clusters_information : dict num) : py store () :=
  for_ clusters_information (fun '(cluster, dic) =>
    center ← lift (getkey dic "centers");
    allocated_points ← lift (getkey dic "allocated_points");
    print ("Cluster " +:+ pretty cluster +:+ " is centred at " +:+ str center
           +:+ " and has " +:+ pretty (len_value allocated_points)
           +:+ " points.");;
    print (str allocated_points)).

(** [centers[cluster_id] = m] *)
Definition assign_center (cluster_id : nat) (m : vec) : py store () :=
  cs ← gets centers;
  if decide (cluster_id < length cs)%nat
  then modify (set_centers (<[cluster_id := m]> cs))
  else raise IndexError.

(** The assignment step of a pass (line 49). *)
Definition assignment (clusters : Z) (dimension : nat) : py store (list nat) :=
  points ← gets points_list;
  cs ← gets centers;
  lift (mapM (fun point => find_best_cluster clusters point cs dimension)
             points).

(** The body of the loop over the cluster ids (lines 51 to 58). *)
Definition update_cluster (Max_iterations : Z) (dimension : nat)
    (allocated_cluster : list nat) (cluster_id : nat) : py store () :=
  points ← gets points_list;
  let allocated_points := select points allocated_cluster cluster_id in
  (if decide (length allocated_points = O) then mret ()
   else
     m ← lift (mid_point allocated_points dimension);
     assign_center cluster_id m);;
  it ← gets iteration;
  if decide (it = Max_iterations - 1)
  then
    cs ← gets centers;
    c ← lift (getitem cs cluster_id);
    modify (fun s =>
      set_clusters_information
        (setitem (clusters_information s) cluster_id
                 (entry c allocated_points)) s)
  else mret ().

(** The update step of a pass (lines 50 to 58). *)
Definition update (Max_iterations clusters : Z) (dimension : nat)
    (allocated_cluster : list nat) : py store () :=
  for_ (range clusters)
       (update_cluster Max_iterations dimension allocated_cluster).

(** One pass of the [while] loop (lines 48 to 59). *)
Definition pass (Max_iterations clusters : Z) (dimension : nat) : py store () :=
  allocated_cluster ← assignment clusters dimension;
  update Max_iterations clusters dimension allocated_cluster;;
  modify (fun s => set_iteration (iteration s + 1) s).

(** Lines 39 to 44: the initial centres. *)
Definition initial_centers (clusters : Z) : py store () :=
  points ← gets points_list;
  modify (set_centers []);;
  modify (set_clusters_information []);;
  for_ (range clusters) (fun _ =>
    p ← rand_point points;
    modify (fun s => set_centers (centers s ++ [p]) s)).

(** Lines 46 to 59: the refinement loop. *)
Definition refine (Max_iterations clusters : Z) (dimension : nat)
  : py store () :=
  modify (set_iteration 0);;
  while_ (Z.to_nat Max_iterations)
         (fun s => bool_decide (iteration s < Max_iterations))
         (pass Max_iterations clusters dimension).

(** [cluster]; the result is [None] when the summary is printed. *)
Definition cluster (Max_iterations clusters : Z) (output_print : bool)
  : py store (option (dict num)) :=
  points ← gets points_list;
  if decide (clusters > len points) then raise ValueError
  else
    p0 ← lift (getitem points 0);
    let dimension := length p0 in
    initial_centers clusters;;
    refine Max_iterations clusters dimension;;
    info ← gets clusters_information;
    if output_print then print_points info;; mret None
    else mret (Some info).

End clustering.
End clustering.

(** * clustering_numpy.py *)

Module clustering_numpy.
Section clustering_numpy.
Context {AR : Arith} {RN : Random} {ST : Str (option num)}.

(** An [np.float64]: [None] is NaN.  Arithmetic propagates NaN. *)
Abbreviation float := (option num).
Abbreviation row := (list float).

Definition np_sub (x y : float) : float :=
  x' ← x; y' ← y; Some (fsub x' y').
Definition np_sq (x : float) : float := fsq <$> x.
Definition np_add (x y : float) : float :=
  x' ← x; y' ← y; Some (fadd x' y').
Definition np_sqrt (x : float) : option dist := fsqrt <$> x.

(** [add.reduce]; the terms are added in the order of the scalar code (the
    order numpy uses affects rounding only). *)
Definition np_sum (l : list float) : float := fold_left np_add l (Some fzero).

(** The caller's object, the global resources, and the locals of
    [cluster_numpy]; [points_array] is the array that line 39 binds to the
    local name [points_list]. *)
Record store : Type := Store {
  points_list : list (list num);
  rng : rng_state;
  stdout : list string;
  points_array : list row;
  centers : list row;
  clusters_information : dict float;
  iteration : Z
}.

Definition set_rng (g : rng_state) (s : store) : store :=
  Store (points_list s) g (stdout s) (points_array s) (centers s)
    (clusters_information s) (iteration s).
Definition set_stdout (o : list string) (s : store) : store :=
  Store (points_list s) (rng s) o (points_array s) (centers s)
    (clusters_information s) (iteration s).
Definition set_points_array (a : list row) (s : store) : store :=
  Store (points_list s) (rng s) (stdout s) a (centers s)
    (clusters_information s) (iteration s).
Definition set_centers (c : list row) (s : store) : store :=
  Store (points_list s) (rng s) (stdout s) (points_array s) c
    (clusters_information s) (iteration s).
Definition set_clusters_information (d : dict float) (s : store) : store :=
  Store (points_list s) (rng s) (stdout s) (points_array s) (centers s) d
    (iteration s).
Definition set_iteration (i : Z) (s : store) : store :=
  Store (points_list s) (rng s) (stdout s) (points_array s) (centers s)
    (clusters_information s) i.

Definition call (points : list (list num)) (g : rng_state)
    (out : list string) : store :=
  Store points g out [] [] [] 0.

(** A tuple of numbers as a row of an array. *)
Definition of_point (p : list num) : row := Some <$> p.

(** [np.array(points_list)]: a fresh array of shape [(N, dimension)]; rows
    of unequal length are refused. *)
Definition np_array (points : list (list num)) (dimension : nat)
  : outcome (list row) :=
  if forallb (fun p => Nat.eqb (length p) dimension) points
  then Ok (of_point <$> points)
  else Raise ValueError.

(** [np.linalg.norm] of one vector. *)
Definition norm (v : row) : option dist := np_sqrt (np_sum (np_sq <$> v)).

(** [np.argmin] of one sequence: the scan keeps the first minimum, and a NaN
    is minimal and ends the scan.  The test of the scan, [!(x >= m)], is
    [x < m] on numbers that are not NaN. *)
Fixpoint argmin_scan (m : dist) (min_ind i : nat) (l : list (option dist))
  : nat :=
  match l with
  | [] => min_ind
  | None :: _ => i
  | Some x :: l' =>
      if flt x m then argmin_scan x i (S i) l'
      else argmin_scan m min_ind (S i) l'
  end.

Definition argmin (l : list (option dist)) : outcome nat :=
  match l with
  | [] => Raise ValueError
  | None :: _ => Ok O
  | Some m :: l' => Ok (argmin_scan m 0 1 l')
  end.

(** Column [n] of a matrix given by its rows. *)
Definition column {A : Type} (n : nat) (m : list (list (option A)))
  : list (option A) :=
  (fun r : list (option A) => default None (r !! n)) <$> m.

(** [Calculate_index]: the [(K, N, D)] array of differences, its norms along
    the last axis, and [argmin] along the first. *)
Definition Calculate_index (points mean_point : list row)
  : outcome (list nat) :=
  let differences :=
    (fun c : row => (fun p : row => zip_with np_sub p c) <$> points) <$> mean_point in
  let norms := (fun plane : list row => norm <$> plane) <$> differences in
  match norms with
  | [] => Raise ValueError
  | _ => mapM (fun n => argmin (column n norms)) (seq 0 (length points))
  end.

(** [np.argwhere(alloc == i)] *)
Definition argwhere (alloc : list nat) (i : nat) : list nat :=
  (filter (fun na => na.2 = i) (imap (fun n a => (n, a)) alloc)).*1.

(** [np.mean(alloc_ps, axis=0)]: the mean of no rows is NaN in every
    coordinate (numpy warns and does not raise). *)
Definition np_mean (alloc_ps : list row) (dimension : nat) : row :=
  (fun d =>
     match alloc_ps with
     | [] => None
     | _ => (fun s => fdiv s (length alloc_ps)) <$> np_sum (column d alloc_ps)
     end) <$> seq 0 dimension.

Definition print (line : string) : py store () :=
  modify (fun s => set_stdout (stdout s ++ [line]) s).

(** The loop of [print_points] that copies [allocated_points]. *)
Definition copy_items (v : value float) : value float :=
  match v with
  | VCenter c => VCenter (fold_left (fun print_list i => (print_list ++ [i])%list) c [])
  | VPoints ps => VPoints (fold_left (fun print_list i => (print_list ++ [i])%list) ps [])
  end.

(** [print_points] *)
Definition print_points (clusters_information : dict float) : py store () :=
  for_ clusters_information (fun '(cluster, dic) =>
    center ← lift (getkey dic "centers");
    allocated_points ← lift (getkey dic "allocated_points");
    print ("Cluster " +:+ pretty cluster +:+ " is centred at " +:+ str center
           +:+ " and has " +:+ pretty (len_value allocated_points)
           +:+ " points.");;
    print (str (copy_items allocated_points))).

(** [centers[i] = new_mean] *)
Definition assign_center (i : nat) (new_mean : row) : py store () :=
  cs ← gets centers;
  if decide (i < length cs)%nat
  then modify (set_centers (<[i := new_mean]> cs))
  else raise IndexError.

(** The assignment step of a pass (line 46). *)
Definition assignment : py store (list nat) :=
  points ← gets points_array;
  cs ← gets centers;
  lift (Calculate_index points cs).

(** The body of the loop over the cluster ids (lines 49 to 57); the unit
    axis that [points_list[indices]] adds is left out. *)
Definition update_cluster (Max_iterations : Z) (dimension : nat)
    (alloc : list nat) (i : nat) : py store () :=
  points ← gets points_array;
  let indices := argwhere alloc i in
  alloc_ps ← lift (mapM (getitem points) indices);
  let new_mean := np_mean alloc_ps dimension in
  assign_center i new_mean;;
  it ← gets iteration;
  if decide (it = Max_iterations - 1)
  then
    cs ← gets centers;
    c ← lift (getitem cs i);
    modify (fun s =>
      set_clusters_information
        (setitem (clusters_information s) i (entry c alloc_ps)) s)
  else mret ().

(** The update step of a pass (lines 48 to 57). *)
Definition update (Max_iterations clusters : Z) (dimension : nat)
    (alloc : list nat) : py store () :=
  for_ (range clusters) (update_cluster Max_iterations dimension alloc).

(** One pass of the [while] loop (lines 46 to 58). *)
Definition pass (Max_iterations clusters : Z) (dimension : nat) : py store () :=
  alloc ← assignment;
  update Max_iterations clusters dimension alloc;;
  modify (fun s => set_iteration (iteration s + 1) s).

(** Lines 38 to 41: the array of the points and the initial centres.
    [np.random.choice] refuses a negative size; indexing with the drawn
    indices copies the rows.  The array that line 40 binds to [alloc] is
    never read. *)
Definition initial_centers (clusters : Z) (dimension : nat) : py store () :=
  points ← gets points_list;
  modify (set_clusters_information []);;
  a ← lift (np_array points dimension);
  modify (set_points_array a);;
  if decide (clusters < 0) then raise ValueError
  else
    g ← gets rng;
    let '(indices, g') := choice (length points) (Z.to_nat clusters) g in
    modify (set_rng g');;
    cs ← lift (mapM (getitem a) indices);
    modify (set_centers cs).

(** Lines 43 to 58: the refinement loop. *)
Definition refine (Max_iterations clusters : Z) (dimension : nat)
  : py store () :=
  modify (set_iteration 0);;
  while_ (Z.to_nat Max_iterations)
         (fun s => bool_decide (iteration s < Max_iterations))
         (pass Max_iterations clusters dimension).

(** [cluster_numpy]; the result is [None] when the summary is printed. *)
Definition cluster_numpy (Max_iterations clusters : Z) (print_output : bool)
  : py store (option (dict float)) :=
  points ← gets points_list;
  if decide (clusters > len points) then raise ValueError
  else
    p0 ← lift (getitem points 0);
    let dimension := length p0 in
    initial_centers clusters dimension;;
    refine Max_iterations clusters dimension;;
    info ← gets clusters_information;
    if print_output then print_points info;; mret None
    else mret (Some info).

End clustering_numpy.
End clustering_numpy.

(** * clustering_numpy.py on tuples of integers *)

(** [np.array] of tuples of Python integers (in the range of [int64]) is an
    array of [int64], and so is [centers], which is taken from it: what
    line 52 stores in [centers] is converted to [int64].  The distances and
    the means are floats, as they are for an array of floats. *)

(** The conversions between integers and floats. *)
Class Cast (AR : Arith) : Type := {
  of_int : Z → num;                 (* the float of an integer *)
  trunc : num → Z                   (* the integer part, towards zero *)
}.

Module clustering_numpy_int64.
Section clustering_numpy_int64.
Context {AR : Arith} {CA : Cast AR} {RN : Random} {ST : Str Z}.

Abbreviation float := (option num).

(** The arithmetic of an [int64] array wraps around. *)
Definition wrap (z : Z) : Z := (z + 2 ^ 63) mod 2 ^ 64 - 2 ^ 63.

(** [x.astype(float)] of a row *)
Definition astype_float (r : list Z) : list float :=
  (fun z => Some (of_int z)) <$> r.

(** The conversion of a [float64] that is stored in an [int64] array: the
    fraction is dropped; a NaN or a number outside the range becomes the
    least [int64] (numpy warns and does not raise). *)
Definition astype_int64 (x : float) : Z :=
  match x with
  | Some y =>
      if decide (- 2 ^ 63 ≤ trunc y < 2 ^ 63) then trunc y else - 2 ^ 63
  | None => - 2 ^ 63
  end.

Record store : Type := Store {
  points_list : list (list Z);
  rng : rng_state;
  stdout : list string;
  points_array : list (list Z);
  centers : list (list Z);
  clusters_information : dict Z;
  iteration : Z
}.

Definition set_rng (g : rng_state) (s : store) : store :=
  Store (points_list s) g (stdout s) (points_array s) (centers s)
    (clusters_information s) (iteration s).
Definition set_stdout (o : list string) (s : store) : store :=
  Store (points_list s) (rng s) o (points_array s) (centers s)
    (clusters_information s) (iteration s).
Definition set_points_array (a : list (list Z)) (s : store) : store :=
  Store (points_list s) (rng s) (stdout s) a (centers s)
    (clusters_information s) (iteration s).
Definition set_centers (c : list (list Z)) (s : store) : store :=
  Store (points_list s) (rng s) (stdout s) (points_array s) c
    (clusters_information s) (iteration s).
Definition set_clusters_information (d : dict Z) (s : store) : store :=
  Store (points_list s) (rng s) (stdout s) (points_array s) (centers s) d
    (iteration s).
Definition set_iteration (i : Z) (s : store) : store :=
  Store (points_list s) (rng s) (stdout s) (points_array s) (centers s)
    (clusters_information s) i.

Definition call (points : list (list Z)) (g : rng_state)
    (out : list string) : store :=
  Store points g out [] [] [] 0.

(** [np.array(points_list)]: rows of unequal length are refused. *)
Definition np_array (points : list (list Z)) (dimension : nat)
  : outcome (list (list Z)) :=
  if forallb (fun p => Nat.eqb (length p) dimension) points
  then Ok points
  else Raise ValueError.

(** [Calculate_index]: the differences are integers; [np.linalg.norm]
    converts them to floats before it squares them. *)
Definition Calculate_index (points mean_point : list (list Z))
  : outcome (list nat) :=
  let differences :=
    (fun c : list Z =>
       (fun p : list Z => zip_with (fun x y => wrap (x - y)) p c) <$> points)
      <$> mean_point in
  let norms :=
    (fun plane : list (list Z) =>
       (fun v => clustering_numpy.norm (astype_float v)) <$> plane)
      <$> differences in
  match norms with
  | [] => Raise ValueError
  | _ => mapM (fun n => clustering_numpy.argmin
                          (clustering_numpy.column n norms))
              (seq 0 (length points))
  end.

(** [np.mean(alloc_ps, axis=0)]: the mean of integers is a float. *)
Definition np_mean (alloc_ps : list (list Z)) (dimension : nat) : list float :=
  clustering_numpy.np_mean (astype_float <$> alloc_ps) dimension.

Definition print (line : string) : py store () :=
  modify (fun s => set_stdout (stdout s ++ [line]) s).

Definition copy_items (v : value Z) : value Z :=
  match v with
  | VCenter c => VCenter (fold_left (fun print_list i => (print_list ++ [i])%list) c [])
  | VPoints ps => VPoints (fold_left (fun print_list i => (print_list ++ [i])%list) ps [])
  end.

Definition print_points (clusters_information : dict Z) : py store () :=
  for_ clusters_information (fun '(cluster, dic) =>
    center ← lift (getkey dic "centers");
    allocated_points ← lift (getkey dic "allocated_points");
    print ("Cluster " +:+ pretty cluster +:+ " is centred at " +:+ str center
           +:+ " and has " +:+ pretty (len_value allocated_points)
           +:+ " points.");;
    print (str (copy_items allocated_points))).

(** [centers[i] = new_mean]: the floats are converted to [int64]. *)
Definition assign_center (i : nat) (new_mean : list float) : py store () :=
  cs ← gets centers;
  if decide (i < length cs)%nat
  then modify (set_centers (<[i := astype_int64 <$> new_mean]> cs))
  else raise IndexError.

Definition assignment : py store (list nat) :=
  points ← gets points_array;
  cs ← gets centers;
  lift (Calculate_index points cs).

Definition update_cluster (Max_iterations : Z) (dimension : nat)
    (alloc : list nat) (i : nat) : py store () :=
  points ← gets points_array;
  let indices := clustering_numpy.argwhere alloc i in
  alloc_ps ← lift (mapM (getitem points) indices);
  let new_mean := np_mean alloc_ps dimension in
  assign_center i new_mean;;
  it ← gets iteration;
  if decide (it = Max_iterations - 1)
  then
    cs ← gets centers;
    c ← lift (getitem cs i);
    modify (fun s =>
      set_clusters_information
        (setitem (clusters_information s) i (entry c alloc_ps)) s)
  else mret ().

Definition update (Max_iterations clusters : Z) (dimension : nat)
    (alloc : list nat) : py store () :=
  for_ (range clusters) (update_cluster Max_iterations dimension alloc).

Definition pass (Max_iterations clusters : Z) (dimension : nat) : py store () :=
  alloc ← assignment;
  update Max_iterations clusters dimension alloc;;
  modify (fun s => set_iteration (iteration s + 1) s).

Definition initial_centers (clusters : Z) (dimension : nat) : py store () :=
  points ← gets points_list;
  modify (set_clusters_information []);;
  a ← lift (np_array points dimension);
  modify (set_points_array a);;
  if decide (clusters < 0) then raise ValueError
  else
    g ← gets rng;
    let '(indices, g') := choice (length points) (Z.to_nat clusters) g in
    modify (set_rng g');;
    cs ← lift (mapM (getitem a) indices);
    modify (set_centers cs).

Definition refine (Max_iterations clusters : Z) (dimension : nat)
  : py store () :=
  modify (set_iteration 0);;
  while_ (Z.to_nat Max_iterations)
         (fun s => bool_decide (iteration s < Max_iterations))
         (pass Max_iterations clusters dimension).

(** [cluster_numpy] on tuples of integers. *)
Definition cluster_numpy (Max_iterations clusters : Z) (print_output : bool)
  : py store (option (dict Z)) :=
  points ← gets points_list;
  if decide (clusters > len points) then raise ValueError
  else
    p0 ← lift (getitem points 0);
    let dimension := length p0 in
    initial_centers clusters dimension;;
    refine Max_iterations clusters dimension;;
    info ← gets clusters_information;
    if print_output then print_points info;; mret None
    else mret (Some info).

End clustering_numpy_int64.
End clustering_numpy_int64.

(** * tracks.py: [Tracks.kmeans], the caller of [cluster_numpy] *)

Module tracks.
Section tracks.
Context {AR : Arith} {RN : Random} {ST : Str (option num)}
  {EQ : EqDecision num}.

(** A track as [kmeans] uses it: the floats that its methods [co2()],
    [time()] and [distance()] return when they are called without argument
    (they have no effect; they return floats for a track of at least two
    elevations). *)
Record SingleTrack : Type := Track {
  co2 : num;
  time : num;
  distance : num
}.

(** [(track.co2(), track.time(), track.distance())] *)
Definition features (track : SingleTrack) : list num :=
  [co2 track; time track; distance track].

(** [enumerate(l)] *)
Definition enumerate {A : Type} (l : list A) : list (nat * A) :=
  imap (fun index x => (index, x)) l.

(** [allocated_points == point], a tuple of [np.float64] against a tuple of
    floats: the same length and equal items.  On numbers [==] is the equality
    of [num]; a NaN equals nothing. *)
Definition tuple_eq (allocated_points : list (option num))
    (point : list num) : bool :=
  bool_decide (allocated_points = clustering_numpy.of_point point).

(** [clustered_tracks[key].append(index)]; the lists of [clustered_tracks]
    are distinct objects. *)
Definition append (clustered_tracks : list (list nat)) (key index : nat)
  : outcome (list (list nat)) :=
  l ← getitem clustered_tracks key;
  mret (<[key := (l ++ [index])%list]> clustered_tracks).

(** The loop over [enumerate(points)] (lines 183 to 186): the first point
    that equals [allocated_points] is recorded and ends the loop. *)
Fixpoint find_point (clustered_tracks : list (list nat)) (key : nat)
    (allocated_points : list (option num)) (enumerated : list (nat * list num))
  : outcome (list (list nat)) :=
  match enumerated with
  | [] => mret clustered_tracks
  | (index, point) :: rest =>
      if tuple_eq allocated_points point
      then append clustered_tracks key index
      else find_point clustered_tracks key allocated_points rest
  end.

(** The items of [info['allocated_points']] that the loop acts on: the points
    of a list of points (the items of a centre are numbers, and a number
    equals no tuple). *)
Definition allocated (v : value (option num)) : list (list (option num)) :=
  match v with
  | VPoints ps => ps
  | VCenter _ => []
  end.

(** [kmeans], for the generator [g] and the output [out] so far; the store
    that is returned is the one [cluster_numpy] leaves.  [cluster_numpy] is
    called without [print_output] and returns its dictionary (lemma
    [cluster_numpy_returns_dictionary] below), whose items are looped over. *)
Definition kmeans (tracks : list SingleTrack) (iterations clusters : Z)
    (g : rng_state) (out : list string)
  : outcome (list (list nat)) * clustering_numpy.store :=
  let clustered_tracks : list (list nat) := (fun _ => []) <$> range clusters in
  let points := features <$> tracks in
  (cluster_info ← clustering_numpy.cluster_numpy iterations clusters false;
   lift (foldl_m
           (fun clustered_tracks '(key, info) =>
              v ← getkey info "allocated_points";
              foldl_m
                (fun clustered_tracks allocated_points =>
                   find_point clustered_tracks key allocated_points
                     (enumerate points))
                clustered_tracks (allocated v))
           clustered_tracks (default [] cluster_info)))
    (clustering_numpy.call points g out).

End tracks.
End tracks.

(** * Exact arithmetic, and a scripted random generator *)

(** The arithmetic of the rationals, kept in lowest terms.  The square root of
    a rational is represented by its radicand: the radicands that the code
    builds are sums of squares, and on non-negative numbers the square roots
    are ordered as the radicands are. *)
Module exact.

Inductive root : Type := Sqrt (radicand : Q).

Definition radicand (r : root) : Q := let 'Sqrt q := r in q.

Definition lt (x y : root) : bool := negb (Qle_bool (radicand y) (radicand x)).
Definition eq (x y : root) : bool := Qeq_bool (radicand x) (radicand y).

Lemma lt_iff x y : lt x y = true ↔ (radicand x < radicand y)%Q.
Proof.
  unfold lt. rewrite negb_true_iff, <- not_true_iff_false, Qle_bool_iff.
  split; [apply Qnot_le_lt | apply Qlt_not_le].
Qed.

Lemma lt_false_iff x y : lt x y = false ↔ (radicand y <= radicand x)%Q.
Proof.
  unfold lt. rewrite negb_false_iff. apply Qle_bool_iff.
Qed.

Lemma eq_iff x y : eq x y = true ↔ (radicand x == radicand y)%Q.
Proof. apply Qeq_bool_iff. Qed.

Lemma lt_bool_ext a b : (a = true ↔ b = true) → a = b.
Proof. destruct a, b; intuition congruence. Qed.

#[export] Program Instance arith : Arith := {|
  num := Q;
  dist := root;
  fzero := 0%Q;
  fadd x y := Qred (x + y);
  fsub x y := Qred (x - y);
  fsq x := Qred (x * x);
  fdiv x n := Qred (x / inject_Z (Z.of_nat n));
  fsqrt := Sqrt;
  flt := lt;
  feq := eq
|}.
Next Obligation.
  intros x y z. rewrite !lt_iff. apply Qlt_trans.
Qed.
Next Obligation.
  intros x. apply lt_false_iff, Qle_refl.
Qed.
Next Obligation.
  intros x. apply eq_iff, Qeq_refl.
Qed.
Next Obligation.
  intros x y Hlt Heq. apply lt_iff. apply lt_false_iff in Hlt.
  apply Qle_lt_or_eq in Hlt as [Hlt | Hlt]; [done |].
  apply Qeq_sym, eq_iff in Hlt. congruence.
Qed.
Next Obligation.
  intros x y z Heq. apply eq_iff in Heq. apply lt_bool_ext.
  rewrite !lt_iff, Heq. done.
Qed.
Next Obligation.
  intros x y z Heq. apply eq_iff in Heq. apply lt_bool_ext.
  rewrite !lt_iff, Heq. done.
Qed.

(** A generator that replays a script of draws. *)
Definition script_randrange (n : nat) (g : list nat) : nat * list nat :=
  (hd O g `mod` n, tl g)%nat.

(** [k] distinct members of [avail], each taken at the position the script
    gives. *)
Fixpoint draw (k : nat) (avail g : list nat) : list nat * list nat :=
  match k with
  | O => ([], g)
  | S k' =>
      let i := (hd O g `mod` length avail)%nat in
      match avail !! i with
      | Some x =>
          let '(r, g') := draw k' (delete i avail) (tl g) in (x :: r, g')
      | None => ([], g)
      end
  end.

Definition script_choice (n k : nat) (g : list nat) : list nat * list nat :=
  draw k (seq 0 n) g.

Lemma draw_length k : ∀ avail g,
  (k ≤ length avail)%nat → length (draw k avail g).1 = k.
Proof.
  induction k as [|k IH]; intros avail g Hk; simpl; [done |].
  destruct (avail !! (hd O g `mod` length avail)%nat) as [x|] eqn:Hx.
  - specialize (IH (delete (hd O g `mod` length avail)%nat avail) (tl g)).
    destruct (draw k _ _) as [r g'] eqn:Hd. simpl in *. f_equal. apply IH.
    rewrite length_delete by eauto. lia.
  - apply lookup_ge_None in Hx.
    pose proof (Nat.mod_upper_bound (hd O g) (length avail)). lia.
Qed.

Lemma draw_elem_of k : ∀ avail g i, i ∈ (draw k avail g).1 → i ∈ avail.
Proof.
  induction k as [|k IH]; intros avail g i; simpl; [by intros ?%elem_of_nil |].
  destruct (avail !! (hd O g `mod` length avail)%nat) as [x|] eqn:Hx;
    [| by intros ?%elem_of_nil].
  specialize (IH (delete (hd O g `mod` length avail)%nat avail) (tl g) i).
  destruct (draw k _ _) as [r g'] eqn:Hd. simpl in *.
  intros [-> | Hi]%elem_of_cons.
  - by eapply list_elem_of_lookup_2.
  - eapply elem_of_sublist; [by apply IH | apply sublist_delete].
Qed.

Lemma draw_NoDup k : ∀ avail g, NoDup avail → NoDup (draw k avail g).1.
Proof.
  induction k as [|k IH]; intros avail g Hnd; simpl; [constructor |].
  destruct (avail !! (hd O g `mod` length avail)%nat) as [x|] eqn:Hx;
    [| constructor].
  pose proof (draw_elem_of k (delete (hd O g `mod` length avail)%nat avail)
                (tl g)) as Hin.
  specialize (IH (delete (hd O g `mod` length avail)%nat avail) (tl g)).
  destruct (draw k _ _) as [r g'] eqn:Hd. simpl in *.
  rewrite <- (take_drop_middle _ _ _ Hx) in Hnd.
  apply NoDup_app in Hnd as (Hnd1 & Hnd2 & Hnd3).
  apply NoDup_cons in Hnd3 as [Hnd3 Hnd4].
  rewrite delete_take_drop in IH, Hin.
  constructor.
  - intros [Hi | Hi]%Hin%elem_of_app; [by eapply Hnd2; [|left] | done].
  - apply IH, NoDup_app. split_and!; [done | | done].
    intros y Hy1 Hy2. eapply Hnd2; [done | by right].
Qed.

#[export] Program Instance random : Random := {|
  rng_state := list nat;
  randrange := script_randrange;
  choice := script_choice
|}.
Next Obligation.
  intros n g Hn. simpl. apply Nat.mod_upper_bound. lia.
Qed.
Next Obligation.
  intros n k g Hk. apply draw_length. by rewrite length_seq.
Qed.
Next Obligation.
  intros n k g i Hk Hi%draw_elem_of. apply elem_of_seq in Hi. lia.
Qed.
Next Obligation.
  intros n k g Hk. apply draw_NoDup, NoDup_seq.
Qed.

(** [str] of a sequence of printed items. *)
Definition str_items (items : list string) : string :=
  foldr (fun x acc => if decide (acc = "") then x else x +:+ ", " +:+ acc)
        "" items.

Definition str_Q (q : Q) : string :=
  pretty (Qnum q) +:+ "/" +:+ pretty (Zpos (Qden q)).

Definition str_tuple {X : Type} (f : X → string) (t : list X) : string :=
  "(" +:+ str_items (f <$> t) +:+ ")".

#[export] Instance str_num : Str Q := fun v =>
  match v with
  | VCenter c => str_tuple str_Q c
  | VPoints ps => "[" +:+ str_items (str_tuple str_Q <$> ps) +:+ "]"
  end.

Definition str_float (x : option Q) : string :=
  match x with
  | Some q => str_Q q
  | None => "nan"
  end.

#[export] Instance str_npfloat : Str (option Q) := fun v =>
  match v with
  | VCenter c => "[" +:+ str_items (str_float <$> c) +:+ "]"
  | VPoints ps => "[" +:+ str_items (str_tuple str_float <$> ps) +:+ "]"
  end.

(** The rational of an integer, and the integer part of a rational. *)
#[export] Instance cast : Cast arith := {|
  of_int := inject_Z;
  trunc q := Z.quot (Qnum q) (Zpos (Qden q))
|}.

#[export] Instance str_int : Str Z := fun v =>
  match v with
  | VCenter c => "[" +:+ str_items (pretty <$> c) +:+ "]"
  | VPoints ps => "[" +:+ str_items (str_tuple pretty <$> ps) +:+ "]"
  end.

End exact.

(** * Properties *)

(** ** The monad *)

Ltac py_unfold :=
  unfold mbind, mret, py_bind, py_ret, gets, modify, lift, raise in *.

Lemma bind_Ok {S A B : Type} (m : py S A) (k : A → py S B) s a s' :
  m s = (Ok a, s') → (m ≫= k) s = k a s'.
Proof. intros Hm. unfold mbind, py_bind. by rewrite Hm. Qed.

Lemma bind_Raise {S A B : Type} (m : py S A) (k : A → py S B) s e s' :
  m s = (Raise e, s') → (m ≫= k) s = (Raise e, s').
Proof. intros Hm. unfold mbind, py_bind. by rewrite Hm. Qed.

(** A computation leaves a component of the store alone, whatever its
    outcome. *)
Definition frames {S X A : Type} (proj : S → X) (m : py S A) : Prop :=
  ∀ s, proj (m s).2 = proj s.

Section frames.
Context {S X : Type} (proj : S → X).

Lemma frames_ret {A} (a : A) : frames proj (mret a : py S A).
Proof. done. Qed.

Lemma frames_raise {A} e : frames proj (raise e : py S A).
Proof. done. Qed.

Lemma frames_lift {A} (o : outcome A) : frames proj (lift o : py S A).
Proof. done. Qed.

Lemma frames_gets {A} (f : S → A) : frames proj (gets f).
Proof. done. Qed.

Lemma frames_modify (f : S → S) :
  (∀ s, proj (f s) = proj s) → frames proj (modify f).
Proof. intros Hf s. apply Hf. Qed.

Lemma frames_bind {A B} (m : py S A) (k : A → py S B) :
  frames proj m → (∀ a, frames proj (k a)) → frames proj (m ≫= k).
Proof.
  intros Hm Hk s. unfold mbind, py_bind. specialize (Hm s).
  destruct (m s) as [[a | e |] s']; simpl in *; [| done..].
  by rewrite Hk.
Qed.

Lemma frames_for {B} (l : list B) (body : B → py S ()) :
  (∀ x, frames proj (body x)) → frames proj (for_ l body).
Proof.
  intros Hbody. induction l as [|x l IH]; simpl.
  - apply frames_ret.
  - apply frames_bind; [apply Hbody | intros _; apply IH].
Qed.

Lemma frames_while fuel (cond : S → bool) (body : py S ()) :
  frames proj body → frames proj (while_ fuel cond body).
Proof.
  intros Hbody. induction fuel as [|fuel IH]; intros s; simpl.
  - by destruct (cond s).
  - destruct (cond s); [| done].
    apply (frames_bind body (fun _ => while_ fuel cond body)); [done |].
    intros _; apply IH.
Qed.
End frames.

(** A loop whose body succeeds and keeps an invariant succeeds. *)
Lemma for_invariant {S B : Type} (I : list B → S → Prop) (body : B → py S ())
    (l : list B) :
  (∀ seen x s, I seen s → ∃ s', body x s = (Ok (), s') ∧ I (seen ++ [x]) s') →
  ∀ seen s, I seen s → ∃ s', for_ l body s = (Ok (), s') ∧ I (seen ++ l) s'.
Proof.
  intros Hbody. induction l as [|x l IH]; intros seen s HI; simpl.
  - exists s. by rewrite app_nil_r.
  - destruct (Hbody seen x s HI) as (s1 & Hx & HI1).
    destruct (IH _ _ HI1) as (s2 & Hl & HI2).
    exists s2. rewrite (bind_Ok _ _ _ _ _ Hx).
    by rewrite <- app_assoc in HI2.
Qed.

Ltac frames_step :=
  lazymatch goal with
  | |- frames _ (mbind _ _) => apply frames_bind; [| intros ?]
  | |- frames _ (for_ _ _) => apply frames_for; intros ?
  | |- frames _ (while_ _ _ _) => apply frames_while
  | |- frames _ (mret _) => apply frames_ret
  | |- frames _ (raise _) => apply frames_raise
  | |- frames _ (lift _) => apply frames_lift
  | |- frames _ (gets _) => apply frames_gets
  | |- frames _ (modify _) => apply frames_modify; by intros []
  | |- frames _ (if ?b then _ else _) => destruct b
  | |- frames _ (let '(_, _) := ?p in _) => destruct p
  | |- frames _ (match ?p with (_, _) => _ end) => destruct p
  end.

(** ** The caller's list of points is only read *)

Section frame.
Context {AR : Arith} {RN : Random}.

Lemma cluster_frames_points_list {ST : Str num} Max_iterations clusters
    output_print :
  frames clustering.points_list
    (clustering.cluster Max_iterations clusters output_print).
Proof.
  unfold clustering.cluster, clustering.initial_centers, clustering.refine,
    clustering.pass, clustering.update, clustering.update_cluster,
    clustering.assignment, clustering.assign_center, clustering.rand_point,
    clustering.print_points, clustering.print.
  repeat frames_step.
Qed.

Lemma cluster_numpy_frames_points_list {ST : Str (option num)}
    Max_iterations clusters print_output :
  frames clustering_numpy.points_list
    (clustering_numpy.cluster_numpy Max_iterations clusters print_output).
Proof.
  unfold clustering_numpy.cluster_numpy, clustering_numpy.initial_centers,
    clustering_numpy.refine, clustering_numpy.pass, clustering_numpy.update,
    clustering_numpy.update_cluster, clustering_numpy.assignment,
    clustering_numpy.assign_center, clustering_numpy.print_points,
    clustering_numpy.print.
  repeat frames_step.
Qed.
End frame.

(** ** The assignment step of [clustering.py] *)

Section nearest.
Context {AR : Arith}.

(** The Euclidean distance of the first [dimension] coordinates, with the
    radicand summed from [0], left to right. *)
Definition euclid (dimension : nat) (center_point point : list num) : dist :=
  fsqrt (fold_left fadd
           (zip_with (fun p c => fsq (fsub p c))
                     (take dimension point) (take dimension center_point))
           fzero).

(** [i] is the lowest index of a centre that is nearest to [point]: no
    centre is strictly nearer, and every centre before it is strictly
    farther. *)
Definition nearest_lowest (dimension : nat) (centers : list (list num))
    (point : list num) (i : nat) : Prop :=
  ∃ c_i, centers !! i = Some c_i ∧
    ∀ j c_j, centers !! j = Some c_j →
      flt (euclid dimension c_j point) (euclid dimension c_i point) = false ∧
      ((j < i)%nat →
       flt (euclid dimension c_i point) (euclid dimension c_j point) = true).

(** The same on a list of distances. *)
Definition first_min (ds : list dist) (i : nat) : Prop :=
  ∃ x, ds !! i = Some x ∧
    ∀ j y, ds !! j = Some y →
      flt y x = false ∧ ((j < i)%nat → flt x y = true).

Lemma flt_le_trans x y z :
  flt x y = true → flt z y = false → flt x z = true.
Proof.
  intros Hxy Hzy. destruct (feq z y) eqn:Heq.
  - by rewrite (feq_flt_r _ _ _ Heq).
  - eapply flt_trans; [done |]. by apply flt_feq_total.
Qed.

End nearest.

Section scalar_assignment.
Context {AR : Arith} {RN : Random} {ST : Str num}.
Import clustering.

Lemma min_scan_spec l : ∀ m,
  min_scan m l ∈ m :: l ∧ ∀ y, y ∈ m :: l → flt y (min_scan m l) = false.
Proof.
  induction l as [|x l IH]; intros m; simpl.
  - split; [left |]. intros y ->%list_elem_of_singleton. apply flt_irrefl.
  - destruct (flt x m) eqn:Hxm.
    + destruct (IH x) as [Hin Hmin]. split; [by right |].
      intros y [-> | Hy]%elem_of_cons; [| by apply Hmin].
      destruct (flt m (min_scan x l)) eqn:Hm; [| done].
      pose proof (flt_trans _ _ _ Hxm Hm) as Hx.
      rewrite Hmin in Hx; [done | left].
    + destruct (IH m) as [Hin Hmin]. split.
      { apply elem_of_cons in Hin as [-> | Hin]; [left | right; by right]. }
      intros y [-> | [-> | Hy]%elem_of_cons]%elem_of_cons.
      * apply Hmin; left.
      * destruct (flt x (min_scan m l)) eqn:Hx; [| done].
        rewrite (flt_le_trans x (min_scan m l) m) in Hxm; [done.. |].
        apply Hmin; left.
      * apply Hmin; by right.
Qed.

Lemma py_index_spec l m :
  m ∈ l →
  ∃ i x, py_index l m = Ok i ∧ l !! i = Some x ∧ feq x m = true ∧
    ∀ j y, (j < i)%nat → l !! j = Some y → feq y m = false.
Proof.
  induction l as [|x l IH]; [by intros ?%elem_of_nil |].
  intros Hin. simpl. destruct (feq x m) eqn:Hx.
  - exists O, x. split_and!; try done. lia.
  - apply elem_of_cons in Hin as [-> | Hin]; [by rewrite feq_refl in Hx |].
    destruct (IH Hin) as (i & y & -> & Hy & Hym & Hbefore).
    exists (S i), y. split_and!; try done.
    intros [|j] z Hj; simpl; [by intros [= <-] |].
    apply Hbefore. lia.
Qed.

(** [l.index(min(l))] is the position of the first minimum. *)
Lemma index_min_first_min l :
  l ≠ [] →
  ∃ m i, py_min l = Ok m ∧ py_index l m = Ok i ∧ first_min l i.
Proof.
  destruct l as [|x l]; [done | intros _].
  destruct (min_scan_spec l x) as [Hin Hmin].
  destruct (py_index_spec _ _ Hin) as (i & y & Hi & Hy & Hym & Hbefore).
  exists (min_scan x l), i. split_and!; [done.. |].
  exists y. split; [done |]. intros j z Hz. split.
  - rewrite (feq_flt_r _ _ _ Hym). apply Hmin.
    by eapply list_elem_of_lookup_2.
  - intros Hj. rewrite (feq_flt_l _ _ _ Hym).
    apply flt_feq_total; [| by eapply Hbefore].
    apply Hmin. by eapply list_elem_of_lookup_2.
Qed.

Lemma getitem_Some {A} (l : list A) i x : l !! i = Some x → getitem l i = Ok x.
Proof. unfold getitem. by intros ->. Qed.

(** [calculate_distance] is the Euclidean distance when both tuples have
    the coordinates it reads. *)
Lemma calculate_distance_loop (point center_point : list num) :
  ∀ k n acc,
  (k + n ≤ length point)%nat → (k + n ≤ length center_point)%nat →
  foldl_m (fun square_distance i =>
             p ← getitem point i;
             c ← getitem center_point i;
             mret (fadd square_distance (fsq (fsub p c))))
          acc (seq k n)
  = Ok (fold_left fadd
          (zip_with (fun p c => fsq (fsub p c))
             (take n (drop k point)) (take n (drop k center_point)))
          acc).
Proof.
  intros k n. revert k. induction n as [|n IH]; intros k acc Hp Hc; [done |].
  destruct (lookup_lt_is_Some_2 point k) as [p Hpk]; [lia |].
  destruct (lookup_lt_is_Some_2 center_point k) as [c Hck]; [lia |].
  cbn [foldl_m seq].
  rewrite (getitem_Some _ _ _ Hpk), (getitem_Some _ _ _ Hck). simpl.
  rewrite IH by lia.
  rewrite (drop_S _ _ _ Hpk), (drop_S _ _ _ Hck). done.
Qed.

Lemma calculate_distance_euclid center_point point dimension :
  (dimension ≤ length point)%nat → (dimension ≤ length center_point)%nat →
  calculate_distance center_point point dimension
  = Ok (euclid dimension center_point point).
Proof.
  intros Hp Hc. unfold calculate_distance, euclid.
  rewrite calculate_distance_loop by lia. by rewrite !drop_0.
Qed.
End scalar_assignment.

Section scalar_assignment_step.
Context {AR : Arith} {RN : Random} {ST : Str num}.
Import clustering.

Lemma mapM_getitem_seq {A B : Type} (f : A → outcome B) (g : A → B)
    (l : list A) :
  (∀ x, x ∈ l → f x = Ok (g x)) →
  ∀ n k, (k + n ≤ length l)%nat →
  mapM (fun i => x ← getitem l i; f x) (seq k n)
  = Ok (g <$> take n (drop k l)).
Proof.
  intros Hf n. induction n as [|n IH]; intros k Hk; [done |].
  destruct (lookup_lt_is_Some_2 l k) as [x Hx]; [lia |].
  cbn [mapM seq]. rewrite (getitem_Some _ _ _ Hx). simpl.
  rewrite Hf by (by eapply list_elem_of_lookup_2). simpl.
  rewrite IH by lia. simpl. by rewrite (drop_S _ _ _ Hx).
Qed.

Lemma first_min_nearest_lowest dimension centers point i :
  first_min ((fun c => euclid dimension c point) <$> centers) i →
  nearest_lowest dimension centers point i.
Proof.
  intros (x & Hx & Hmin). rewrite list_lookup_fmap in Hx.
  destruct (centers !! i) as [c_i|] eqn:Hi; [| done].
  injection Hx as <-. exists c_i. split; [done |].
  intros j c_j Hj. apply (Hmin j). by rewrite list_lookup_fmap, Hj.
Qed.

(** [find_best_cluster] returns the lowest index of a nearest centre. *)
Lemma find_best_cluster_nearest clusters point centers dimension :
  centers ≠ [] → clusters = len centers →
  (dimension ≤ length point)%nat →
  Forall (fun c => dimension ≤ length c)%nat centers →
  ∃ i, find_best_cluster clusters point centers dimension = Ok i ∧
       (i < length centers)%nat ∧
       nearest_lowest dimension centers point i.
Proof.
  intros Hne -> Hp Hcs. unfold find_best_cluster, range, len.
  rewrite Nat2Z.id.
  rewrite (mapM_getitem_seq _ (fun c => euclid dimension c point));
    [| | done].
  2:{ intros c Hc. apply calculate_distance_euclid; [done |].
      by eapply Forall_forall in Hcs. }
  rewrite drop_0, firstn_all. simpl.
  destruct (index_min_first_min
              ((fun c => euclid dimension c point) <$> centers))
    as (m & i & -> & Hi & Hfm).
  { by destruct centers. }
  simpl. exists i. split_and!; [done | |].
  - destruct Hfm as (x & Hx & _). apply lookup_lt_Some in Hx.
    by rewrite length_fmap in Hx.
  - by apply first_min_nearest_lowest.
Qed.
End scalar_assignment_step.

Lemma mapM_Forall2 {A B : Type} (f : A → outcome B) (P : A → B → Prop)
    (l : list A) :
  (∀ x, x ∈ l → ∃ y, f x = Ok y ∧ P x y) →
  ∃ ys, mapM f l = Ok ys ∧ Forall2 P l ys.
Proof.
  induction l as [|x l IH]; intros Hf.
  - exists []. by split; [| constructor].
  - destruct (Hf x) as (y & Hy & HP); [left |].
    destruct IH as (ys & Hys & HF); [intros z Hz; apply Hf; by right |].
    exists (y :: ys). cbn [mapM]. rewrite Hy. simpl. rewrite Hys. simpl.
    split; [done | by constructor].
Qed.

(** ** The assignment step of [clustering_numpy.py] *)

Section numpy_assignment.
Context {AR : Arith} {RN : Random} {ST : Str (option num)}.
Import clustering_numpy.

Lemma argmin_scan_lt l : ∀ m min_ind i,
  (min_ind < i)%nat → (argmin_scan m min_ind i l < i + length l)%nat.
Proof.
  induction l as [|[x|] l IH]; intros m min_ind i Hlt; simpl; [lia | | lia].
  destruct (flt x m).
  - specialize (IH x i (S i)). lia.
  - specialize (IH m min_ind (S i)). lia.
Qed.

(** [argmin] of a sequence that is not empty is one of its positions, NaN
    or not. *)
Lemma argmin_lt l : l ≠ [] → ∃ i, argmin l = Ok i ∧ (i < length l)%nat.
Proof.
  destruct l as [|[m|] l]; [done | |]; intros _; simpl.
  - eexists; split; [done |].
    pose proof (argmin_scan_lt l m 0 1)%nat. lia.
  - exists O. split; [done | lia].
Qed.

Lemma argmin_scan_first_min ds : ∀ pre m min_ind,
  first_min pre min_ind → pre !! min_ind = Some m →
  first_min (pre ++ ds)
    (argmin_scan m min_ind (length pre) (Some <$> ds)).
Proof.
  induction ds as [|x ds IH]; intros pre m min_ind Hfm Hm; simpl.
  { by rewrite app_nil_r. }
  destruct Hfm as (m' & Hm' & Hmin). rewrite Hm in Hm'. injection Hm' as <-.
  pose proof (lookup_lt_Some _ _ _ Hm) as Hlt.
  replace (pre ++ x :: ds) with ((pre ++ [x]) ++ ds)
    by by rewrite <- app_assoc.
  replace (S (length pre)) with (length (pre ++ [x]))
    by (rewrite length_app; simpl; lia).
  destruct (flt x m) eqn:Hxm.
  - apply IH; [| by rewrite lookup_app_r, Nat.sub_diag].
    exists x. split; [by rewrite lookup_app_r, Nat.sub_diag |].
    intros j y Hj. apply lookup_app_Some in Hj as [Hj | [Hge Hj]].
    + destruct (Hmin j y Hj) as [Hym _]. split.
      * destruct (flt y x) eqn:Hyx; [| done].
        by rewrite (flt_trans _ _ _ Hyx Hxm) in Hym.
      * intros _. by eapply flt_le_trans.
    + destruct (j - length pre)%nat eqn:Hd; [| done].
      injection Hj as <-. split; [apply flt_irrefl | lia].
  - apply IH; [| by rewrite lookup_app_l].
    exists m. split; [by rewrite lookup_app_l |].
    intros j y Hj. apply lookup_app_Some in Hj as [Hj | [Hge Hj]].
    + by apply Hmin.
    + destruct (j - length pre)%nat eqn:Hd; [| done].
      injection Hj as <-. split; [done | lia].
Qed.

(** On distances that are not NaN, [argmin] is the position of the first
    minimum. *)
Lemma argmin_first_min ds :
  ds ≠ [] → ∃ i, argmin (Some <$> ds) = Ok i ∧ first_min ds i.
Proof.
  destruct ds as [|m ds]; [done | intros _]. simpl.
  eexists; split; [done |].
  apply (argmin_scan_first_min ds [m] m O); [| done].
  exists m. split; [done |].
  intros [|j] y; simpl; [| done].
  intros [= <-]. split; [apply flt_irrefl | lia].
Qed.

Lemma np_sum_squares (p c : list num) : ∀ acc,
  fold_left np_add (np_sq <$> zip_with np_sub (Some <$> p) (Some <$> c))
    (Some acc)
  = Some (fold_left fadd (zip_with (fun p c => fsq (fsub p c)) p c) acc).
Proof.
  revert c. induction p as [|x p IH]; intros [|y c] acc; try done.
  simpl. apply IH.
Qed.

(** [norm] of the difference of two rows without NaN is the Euclidean
    distance. *)
Lemma norm_euclid dimension (p c : list num) :
  length p = dimension → length c = dimension →
  norm (zip_with np_sub (of_point p) (of_point c))
  = Some (euclid dimension c p).
Proof.
  intros Hp Hc. unfold norm, np_sum, euclid, of_point.
  rewrite np_sum_squares. simpl.
  by rewrite !firstn_all2 by lia.
Qed.

Lemma column_fmap {A B C : Type} (f : B → A → option C) (points : list A)
    (centers : list B) n p :
  points !! n = Some p →
  column n ((fun c => f c <$> points) <$> centers)
  = (fun c => f c p) <$> centers.
Proof.
  intros Hn. unfold column. rewrite <- list_fmap_compose.
  apply list_fmap_ext. intros _ c _. simpl.
  by rewrite list_lookup_fmap, Hn.
Qed.

Lemma Calculate_index_unfold (points mean_point : list (list (option num))) :
  mean_point ≠ [] →
  Calculate_index points mean_point
  = mapM (fun n =>
            argmin (column n
              ((fun c => (fun p => norm (zip_with np_sub p c)) <$> points)
                 <$> mean_point)))
         (seq 0 (length points)).
Proof.
  intros Hne. unfold Calculate_index.
  rewrite <- list_fmap_compose.
  erewrite (list_fmap_ext _ (fun c => (fun p => norm (zip_with np_sub p c))
                                        <$> points)).
  - by destruct mean_point.
  - intros _ c _. simpl. by rewrite <- list_fmap_compose.
Qed.

(** On points and centres without NaN, [Calculate_index] gives every point
    the lowest index of a nearest centre. *)
Lemma Calculate_index_nearest dimension (points centers : list (list num)) :
  centers ≠ [] →
  Forall (fun p => length p = dimension) points →
  Forall (fun c => length c = dimension) centers →
  ∃ alloc,
    Calculate_index (of_point <$> points) (of_point <$> centers) = Ok alloc ∧
    Forall2 (nearest_lowest dimension centers) points alloc.
Proof.
  intros Hne Hps Hcs. rewrite Calculate_index_unfold by by destruct centers.
  rewrite length_fmap.
  edestruct (mapM_Forall2
               (fun n =>
                  argmin (column n
                    ((fun c => (fun p => norm (zip_with np_sub p c))
                                 <$> (of_point <$> points))
                       <$> (of_point <$> centers))))
               (fun n i => ∃ p, points !! n = Some p ∧
                                nearest_lowest dimension centers p i)
               (seq 0 (length points))) as (alloc & Halloc & HF).
  - intros n [_ Hn]%elem_of_seq.
    destruct (lookup_lt_is_Some_2 points n) as [p Hp]; [lia |].
    erewrite column_fmap by (by rewrite list_lookup_fmap, Hp).
    rewrite <- list_fmap_compose.
    erewrite (list_fmap_ext _ (fun c => Some (euclid dimension c p))).
    2:{ intros k c Hc. simpl. apply norm_euclid.
        - eapply Forall_forall in Hps; [done |].
          by eapply list_elem_of_lookup_2.
        - eapply Forall_forall in Hcs; [done |].
          by eapply list_elem_of_lookup_2. }
    rewrite (list_fmap_compose (fun c => euclid dimension c p) Some).
    destruct (argmin_first_min ((fun c => euclid dimension c p) <$> centers))
      as (i & Hi & Hfm); [by destruct centers |].
    exists i. split; [done |]. exists p. split; [done |].
    by apply first_min_nearest_lowest.
  - exists alloc. split; [done |].
    apply Forall2_same_length_lookup. split.
    { apply Forall2_length in HF. by rewrite length_seq in HF. }
    intros n p i Hp Hi.
    destruct (Forall2_lookup_r _ _ _ _ _ HF Hi) as (n' & Hn' & p' & Hp' & Hnl).
    apply lookup_seq in Hn' as [-> _]. simpl in Hp'. congruence.
Qed.
End numpy_assignment.

Lemma mapM_Ok {A B : Type} (f : A → outcome B) (g : A → B) (l : list A) :
  (∀ x, x ∈ l → f x = Ok (g x)) → mapM f l = Ok (g <$> l).
Proof.
  induction l as [|x l IH]; intros Hf; [done |].
  cbn [mapM]. rewrite Hf by left. simpl.
  rewrite IH by (intros y Hy; apply Hf; by right). done.
Qed.

(** ** The update step and the passes of [clustering.py] *)

Lemma select_elem_of {A : Type} (points : list A) alloc cid p :
  p ∈ select points alloc cid → p ∈ points.
Proof.
  unfold select. intros ([p' i] & -> & Hin)%list_elem_of_fmap.
  apply list_elem_of_filter in Hin as [_ Hin].
  apply elem_of_zip_l in Hin. done.
Qed.

Section scalar_pass.
Context {AR : Arith} {RN : Random} {ST : Str num}.
Import clustering.

(** The coordinate-wise mean of points that have [dimension] coordinates. *)
Definition centroid (points : list (list num)) (dimension : nat) : list num :=
  (fun i => fdiv (py_sum ((fun p : list num => default fzero (p !! i)) <$> points))
                 (length points)) <$> seq 0 dimension.

Lemma mid_point_centroid points dimension :
  points ≠ [] → Forall (fun p => dimension ≤ length p)%nat points →
  mid_point points dimension = Ok (centroid points dimension).
Proof.
  intros Hne Hdim. unfold mid_point, centroid.
  apply mapM_Ok. intros i [_ Hi]%elem_of_seq.
  rewrite (mapM_Ok _ (fun p : list num => default fzero (p !! i))).
  - simpl. destruct (decide (length points = 0%nat)) as [Hl|]; [| done].
    by destruct points.
  - intros p Hp. eapply Forall_forall in Hdim; [| done].
    destruct (lookup_lt_is_Some_2 p i) as [x Hx]; [lia |].
    by rewrite (getitem_Some _ _ _ Hx), Hx.
Qed.

Lemma centroid_length points dimension :
  length (centroid points dimension) = dimension.
Proof. unfold centroid. by rewrite length_fmap, length_seq. Qed.

(** The centre of [cluster_id] after the update step, [c] being the one
    before it. *)
Definition new_center (points : list (list num)) (allocated_cluster : list nat)
    (dimension cluster_id : nat) (c : list num) : list num :=
  match select points allocated_cluster cluster_id with
  | [] => c
  | allocated_points => centroid allocated_points dimension
  end.

Lemma update_cluster_eq Max_iterations dimension alloc cid pts g out cs ci it c :
  cs !! cid = Some c →
  Forall (fun p => dimension ≤ length p)%nat pts →
  update_cluster Max_iterations dimension alloc cid (Store pts g out cs ci it)
  = (Ok (),
     Store pts g out (<[cid := new_center pts alloc dimension cid c]> cs)
       (if decide (it = Max_iterations - 1)
        then setitem ci cid (entry (new_center pts alloc dimension cid c)
                                   (select pts alloc cid))
        else ci)
       it).
Proof.
  intros Hc Hdim. pose proof (lookup_lt_Some _ _ _ Hc) as Hlt.
  unfold update_cluster, new_center, assign_center.
  assert (Forall (fun p => dimension ≤ length p)%nat (select pts alloc cid))
    as Hsel.
  { apply Forall_forall. intros p Hp%select_elem_of.
    by eapply Forall_forall in Hdim. }
  py_unfold. simpl.
  destruct (select pts alloc cid) as [|p ps] eqn:Hs; simpl.
  - rewrite list_insert_id by done.
    destruct (decide (it = Max_iterations - 1)); simpl; [| done].
    by rewrite (getitem_Some _ _ _ Hc).
  - rewrite mid_point_centroid by done. simpl.
    destruct (decide (cid < length cs)%nat); [| done]. simpl.
    destruct (decide (it = Max_iterations - 1)); simpl; [| done].
    rewrite (getitem_Some _ _ (centroid (p :: ps) dimension)); [done |].
    by apply list_lookup_insert_eq.
Qed.
End scalar_pass.

(** [n] runs of [body], each after the other. *)
Fixpoint repeat_ {S : Type} (n : nat) (body : py S ()) : py S () :=
  match n with
  | O => mret ()
  | S n' => body ;; repeat_ n' body
  end.

(** The dictionary after the assignments [d[k] = v] of [items], in order. *)
Definition record {X : Type} (d items : dict X) : dict X :=
  fold_left (fun d kv => setitem d kv.1 kv.2) items d.

(** A counted loop: when the body succeeds, keeps an invariant and adds one
    to the counter, the loop to [M] is the body run for every value that is
    left, and it needs no more fuel than that. *)
Lemma while_counted {S : Type} (counter : S → Z) (M : Z) (body : py S ())
    (next : S → S) (I : S → Prop) :
  (∀ s, I s → body s = (Ok (), next s) ∧ I (next s) ∧
              counter (next s) = counter s + 1) →
  ∀ n s, I s → counter s = M - Z.of_nat n →
    while_ n (fun s => bool_decide (counter s < M)) body s
    = (Ok (), Nat.iter n next s) ∧
    repeat_ n body s = (Ok (), Nat.iter n next s) ∧
    I (Nat.iter n next s) ∧ counter (Nat.iter n next s) = M.
Proof.
  intros Hbody n. induction n as [|n IH]; intros s HI Hs.
  - change (Z.of_nat 0) with 0 in Hs.
    cbn [while_ repeat_ Nat.iter]. rewrite bool_decide_eq_false_2 by lia.
    split_and!; [done.. | simpl; lia].
  - destruct (Hbody s HI) as (Hb & HI' & Hc).
    destruct (IH (next s) HI') as (Hw & Hr & HI'' & Hc'); [lia |].
    rewrite Nat.iter_succ_r.
    cbn [while_ repeat_]. rewrite bool_decide_eq_true_2 by lia.
    rewrite !(bind_Ok _ _ _ _ _ Hb). done.
Qed.

Section scalar_loop.
Context {AR : Arith} {RN : Random} {ST : Str num}.
Import clustering.

Lemma update_loop Max_iterations dimension alloc pts g out it :
  Forall (fun p => dimension ≤ length p)%nat pts →
  ∀ suf pre ci,
  for_ (seq (length pre) (length suf))
       (update_cluster Max_iterations dimension alloc)
       (Store pts g out (pre ++ suf) ci it)
  = (Ok (),
     Store pts g out
       (pre ++ imap (fun j c =>
                       new_center pts alloc dimension (length pre + j) c) suf)
       (if decide (it = Max_iterations - 1)
        then record ci
               (imap (fun j c =>
                        (length pre + j,
                         entry (new_center pts alloc dimension (length pre + j) c)
                               (select pts alloc (length pre + j)))%nat) suf)
        else ci)
       it).
Proof.
  intros Hdim suf. induction suf as [|c suf IH]; intros pre ci.
  - simpl. rewrite app_nil_r. by destruct (decide _).
  - cbn [length seq for_].
    erewrite bind_Ok; [| apply update_cluster_eq; [| done]].
    2:{ by apply list_lookup_middle. }
    replace (<[length pre := new_center pts alloc dimension (length pre) c]>
               (pre ++ c :: suf))
      with ((pre ++ [new_center pts alloc dimension (length pre) c]) ++ suf).
    2:{ rewrite <- app_assoc. simpl.
        rewrite <- (Nat.add_0_r (length pre)) at 2.
        by rewrite insert_app_r. }
    specialize (IH (pre ++ [new_center pts alloc dimension (length pre) c])).
    rewrite length_app in IH. simpl in IH.
    replace (S (length pre)) with (length pre + 1)%nat by lia.
    rewrite IH. rewrite <- app_assoc. simpl.
    rewrite !Nat.add_0_r. do 2 f_equal.
    + do 2 f_equal. apply imap_ext. intros j x _. simpl.
      f_equal; lia.
    + destruct (decide (it = Max_iterations - 1)); [| done].
      unfold record. simpl. f_equal. apply imap_ext. intros j x _. simpl.
      replace (length pre + 1 + j)%nat with (length pre + S j)%nat by lia.
      done.
Qed.

(** The centres after the update step, and the entries that the update
    step of the final pass records. *)
Definition updated_centers (pts : list (list num)) (alloc : list nat)
    (dimension : nat) (cs : list (list num)) : list (list num) :=
  imap (fun cid c => new_center pts alloc dimension cid c) cs.

Definition recorded (pts : list (list num)) (alloc : list nat)
    (dimension : nat) (cs : list (list num)) : dict num :=
  imap (fun cid c => (cid, entry (new_center pts alloc dimension cid c)
                                 (select pts alloc cid))) cs.

Lemma update_eq Max_iterations clusters dimension alloc pts g out cs ci it :
  clusters = len cs →
  Forall (fun p => dimension ≤ length p)%nat pts →
  update Max_iterations clusters dimension alloc (Store pts g out cs ci it)
  = (Ok (),
     Store pts g out (updated_centers pts alloc dimension cs)
       (if decide (it = Max_iterations - 1)
        then record ci (recorded pts alloc dimension cs)
        else ci)
       it).
Proof.
  intros -> Hdim. unfold update, range, len. rewrite Nat2Z.id.
  apply (update_loop Max_iterations dimension alloc pts g out it Hdim cs []).
Qed.
End scalar_loop.

Section scalar_refine.
Context {AR : Arith} {RN : Random} {ST : Str num}.
Import clustering.

(** A store in which a pass cannot raise: there are [clusters] centres, at
    least one, and the points and the centres have the coordinates that the
    code reads. *)
Definition valid (clusters : Z) (dimension : nat) (s : store) : Prop :=
  clusters = len (centers s) ∧ centers s ≠ [] ∧
  Forall (fun p => dimension ≤ length p)%nat (points_list s) ∧
  Forall (fun c => dimension ≤ length c)%nat (centers s).

(** The assignment that a pass computes in the store [s]. *)
Definition allocation (clusters : Z) (dimension : nat) (s : store)
  : list nat :=
  match (assignment clusters dimension s).1 with
  | Ok allocated_cluster => allocated_cluster
  | _ => []
  end.

(** The cluster id of a point under the centres [cs]. *)
Definition assigned (clusters : Z) (dimension : nat) (cs : list (list num))
    (point : list num) (i : nat) : Prop :=
  find_best_cluster clusters point cs dimension = Ok i ∧
  (i < length cs)%nat ∧ nearest_lowest dimension cs point i.

Lemma assignment_eq clusters dimension s :
  valid clusters dimension s →
  assignment clusters dimension s = (Ok (allocation clusters dimension s), s) ∧
  Forall2 (assigned clusters dimension (centers s)) (points_list s)
          (allocation clusters dimension s).
Proof.
  intros (HK & Hne & Hps & Hcs). unfold allocation, assignment.
  py_unfold. simpl.
  destruct (mapM_Forall2
              (fun point => find_best_cluster clusters point (centers s) dimension)
              (assigned clusters dimension (centers s))
              (points_list s)) as (alloc & -> & HF); [| done].
  intros p Hp. eapply Forall_forall in Hps; [| done].
  destruct (find_best_cluster_nearest clusters p (centers s) dimension)
    as (i & Hi & Hlt & Hnl); [done.. |].
  by exists i.
Qed.

(** The store after a pass. *)
Definition next (Max_iterations clusters : Z) (dimension : nat) (s : store)
  : store :=
  let alloc := allocation clusters dimension s in
  Store (points_list s) (rng s) (stdout s)
    (updated_centers (points_list s) alloc dimension (centers s))
    (if decide (iteration s = Max_iterations - 1)
     then record (clusters_information s)
            (recorded (points_list s) alloc dimension (centers s))
     else clusters_information s)
    (iteration s + 1).

Lemma pass_next Max_iterations clusters dimension s :
  valid clusters dimension s →
  pass Max_iterations clusters dimension s
  = (Ok (), next Max_iterations clusters dimension s).
Proof.
  intros Hv. destruct (assignment_eq _ _ _ Hv) as [Ha _].
  destruct Hv as (HK & Hne & Hps & Hcs).
  unfold pass. rewrite (bind_Ok _ _ _ _ _ Ha).
  destruct s as [pts g out cs ci it]. simpl in *.
  erewrite bind_Ok; [| by apply update_eq]. done.
Qed.

Lemma new_center_length pts alloc dimension cid c :
  (dimension ≤ length c)%nat →
  (dimension ≤ length (new_center pts alloc dimension cid c))%nat.
Proof.
  intros Hc. unfold new_center. destruct (select pts alloc cid); [done |].
  by rewrite centroid_length.
Qed.

Lemma next_valid Max_iterations clusters dimension s :
  valid clusters dimension s →
  valid clusters dimension (next Max_iterations clusters dimension s).
Proof.
  intros (HK & Hne & Hps & Hcs). unfold valid, next, updated_centers, len.
  simpl. rewrite length_imap. split_and!; [done | | done |].
  - intros Hnil%(f_equal length). rewrite length_imap in Hnil.
    by destruct (centers s).
  - apply Forall_lookup. intros i c' Hi.
    apply list_lookup_imap_Some in Hi as (c & Hc & ->).
    apply new_center_length. by eapply Forall_lookup in Hcs.
Qed.

(** The refinement loop is [Max_iterations] passes, and it leaves the
    counter at [Max_iterations]. *)
Lemma refine_eq Max_iterations clusters dimension s :
  0 ≤ Max_iterations →
  valid clusters dimension s →
  let s' := Nat.iter (Z.to_nat Max_iterations)
              (next Max_iterations clusters dimension) (set_iteration 0 s) in
  refine Max_iterations clusters dimension s = (Ok (), s') ∧
  repeat_ (Z.to_nat Max_iterations) (pass Max_iterations clusters dimension)
          (set_iteration 0 s) = (Ok (), s') ∧
  valid clusters dimension s' ∧ iteration s' = Max_iterations.
Proof.
  intros HM Hv. unfold refine.
  erewrite bind_Ok by done.
  apply (while_counted iteration Max_iterations _
           (next Max_iterations clusters dimension)
           (valid clusters dimension)).
  - intros s1 Hs1. split_and!;
      [by apply pass_next | by apply next_valid | done].
  - by destruct s.
  - destruct s; simpl. lia.
Qed.
End scalar_refine.

(** ** Clusters partition the points *)

Section partition.
Context {A : Type}.
Implicit Types (pts : list A) (alloc : list nat).

Lemma filter_Forall_id {B} (P : B → Prop) `{∀ x, Decision (P x)} (l : list B) :
  Forall P l → filter P l = l.
Proof.
  induction 1 as [|x l Hx Hl IH]; [done |].
  rewrite filter_cons_True by done. by f_equal.
Qed.

Lemma filter_none {B} (P : B → Prop) `{∀ x, Decision (P x)} (l : list B) :
  (∀ x, ¬ P x) → filter P l = [].
Proof.
  intros HP. induction l as [|x l IH]; [done |].
  by rewrite filter_cons_False by apply HP.
Qed.

Lemma filter_snd_lt_S (l : list (A * nat)) K :
  filter (fun pc => pc.2 < S K)%nat l
  ≡ₚ filter (fun pc => pc.2 < K)%nat l ++ filter (fun pc => pc.2 = K) l.
Proof.
  induction l as [|[p c] l IH]; [done |].
  rewrite !filter_cons. simpl.
  destruct (decide (c < S K)%nat), (decide (c < K)%nat), (decide (c = K));
    try lia; simpl; rewrite IH; [done | | done].
  by rewrite Permutation_middle.
Qed.

Lemma select_below pts alloc K :
  concat ((fun c => select pts alloc c) <$> seq 0 K)
  ≡ₚ (filter (fun pc => pc.2 < K)%nat (zip pts alloc)).*1.
Proof.
  induction K as [|K IH].
  - simpl. rewrite filter_none; [done |]. intros ?. lia.
  - rewrite seq_S, fmap_app, concat_app, IH. simpl.
    rewrite app_nil_r, filter_snd_lt_S, fmap_app. done.
Qed.

(** The clusters hold every point as often as the list of points does. *)
Lemma select_partition pts alloc K :
  length alloc = length pts → Forall (fun c => c < K)%nat alloc →
  concat ((fun c => select pts alloc c) <$> seq 0 K) ≡ₚ pts.
Proof.
  intros Hlen Hlt. rewrite select_below.
  rewrite filter_Forall_id.
  - rewrite fst_zip; [done | lia].
  - apply Forall_forall. intros [p c] Hin%elem_of_zip_r. simpl.
    by eapply Forall_forall in Hlt.
Qed.

Lemma select_assigned (F : A → nat → Prop) pts alloc c p :
  Forall2 F pts alloc → p ∈ select pts alloc c → F p c.
Proof.
  intros HF ([p' c'] & -> & Hin)%list_elem_of_fmap.
  apply list_elem_of_filter in Hin as [Hc Hin]. simpl in *. subst c'.
  apply list_elem_of_lookup in Hin as [n Hn].
  apply lookup_zip_with_Some in Hn as (p & c' & [= <- <-] & Hp & Hc).
  by eapply Forall2_lookup_lr.
Qed.

(** No point is in two clusters when the cluster id is a function of the
    point. *)
Lemma select_disjoint (F : A → nat → Prop) pts alloc c c' p :
  (∀ p i j, F p i → F p j → i = j) →
  Forall2 F pts alloc →
  p ∈ select pts alloc c → p ∈ select pts alloc c' → c = c'.
Proof.
  intros Hfun HF Hc Hc'. eapply Hfun; by eapply select_assigned.
Qed.
End partition.

(** A result is a partition of the points into [K] clusters: its keys are the
    cluster ids [0] to [K - 1] in order, the member lists together hold every
    point exactly as often as the input does, and no point is a member under
    two keys. *)
Definition partitions {X : Type} (K : nat) (pts : list (list X))
    (info : dict X) : Prop :=
  info.*1 = seq 0 K ∧
  concat (members <$> info.*2) ≡ₚ pts ∧
  ∀ i j e e' p, info !! i = Some e → info !! j = Some e' →
    p ∈ members e.2 → p ∈ members e'.2 → i = j.

Section records.
Context {X : Type}.

Lemma members_entry (c : list X) ps : members (entry c ps) = ps.
Proof. unfold members, entry. by rewrite lookup_insert_eq. Qed.

Lemma setitem_fresh (d : dict X) k v :
  k ∉ d.*1 → setitem d k v = d ++ [(k, v)].
Proof.
  induction d as [|[k' v'] d IH]; intros Hk; simpl; [done |].
  apply not_elem_of_cons in Hk as [Hne Hk]. simpl in Hne.
  destruct (decide (k' = k)); [done |]. by rewrite IH.
Qed.

(** Assignments to keys that are new and distinct append the items. *)
Lemma record_fresh (items d : dict X) :
  NoDup (d.*1 ++ items.*1) → record d items = d ++ items.
Proof.
  revert d. induction items as [|[k v] items IH]; intros d Hnd.
  - by rewrite app_nil_r.
  - unfold record. simpl. fold (record (setitem d k v) items).
    simpl in Hnd. rewrite setitem_fresh.
    + rewrite IH; [by rewrite <- app_assoc |].
      rewrite fmap_app, <- app_assoc. done.
    + apply NoDup_app in Hnd as (_ & Hnd & _). intros Hk.
      apply (Hnd k Hk). left.
Qed.

Lemma imap_keys {B} (g : nat → B → dic X) (l : list B) :
  (imap (fun i x => (i, g i x)) l).*1 = seq 0 (length l).
Proof.
  apply list_eq. intros i.
  rewrite list_lookup_fmap, list_lookup_imap.
  destruct (l !! i) as [x|] eqn:Hx; simpl.
  - symmetry. apply lookup_seq. split; [done |]. by eapply lookup_lt_Some.
  - symmetry. apply lookup_ge_None. rewrite length_seq.
    by apply lookup_ge_None.
Qed.

Lemma imap_values {B} (g : nat → B → dic X) (h : nat → list (list X))
    (l : list B) :
  (∀ i x, members (g i x) = h i) →
  members <$> (imap (fun i x => (i, g i x)) l).*2 = h <$> seq 0 (length l).
Proof.
  intros Hg. apply list_eq. intros i.
  rewrite !list_lookup_fmap, list_lookup_imap.
  destruct (l !! i) as [x|] eqn:Hx; simpl.
  - rewrite (proj2 (lookup_seq 0 (length l) i i)); [by rewrite Hg |].
    split; [done |]. by eapply lookup_lt_Some.
  - rewrite (proj2 (lookup_ge_None (seq 0 (length l)) i)); [done |].
    rewrite length_seq. by apply lookup_ge_None.
Qed.

(** The entries recorded for an allocation under which the cluster id is a
    function of the point are a partition. *)
Lemma recorded_partitions {B} (F : list X → nat → Prop)
    (pts : list (list X)) (alloc : list nat) (cs : list B)
    (g : nat → B → list X) :
  (∀ p i j, F p i → F p j → i = j) →
  Forall2 (fun p i => F p i ∧ i < length cs)%nat pts alloc →
  partitions (length cs) pts
    (imap (fun i c => (i, entry (g i c) (select pts alloc i))) cs).
Proof.
  intros Hfun HF. split_and!.
  - apply imap_keys.
  - rewrite (imap_values _ (fun i => select pts alloc i)).
    + apply select_partition.
      * symmetry. by eapply Forall2_length.
      * eapply Forall2_Forall_r; [done |]. apply Forall_true.
        intros p i [_ Hi]. exact Hi.
    + intros. apply members_entry.
  - intros i j e e' p Hi Hj.
    apply list_lookup_imap_Some in Hi as (c & Hc & ->).
    apply list_lookup_imap_Some in Hj as (c' & Hc' & ->).
    simpl. rewrite !members_entry.
    apply (select_disjoint F); [done |].
    eapply Forall2_impl; [done |]. intros q k [Hq _]. exact Hq.
Qed.
End records.

(** ** A run of [cluster] *)

Section scalar_run.
Context {AR : Arith} {RN : Random} {ST : Str num}.
Import clustering.

Lemma rand_point_eq pts s :
  pts ≠ [] →
  ∃ p, p ∈ pts ∧
    rand_point pts s
    = (Ok p, set_rng (randrange (length pts) (rng s)).2 s).
Proof.
  intros Hne. unfold rand_point.
  destruct (decide (length pts = 0%nat)) as [Hl|Hl]; [by destruct pts |].
  py_unfold. simpl.
  pose proof (randrange_lt (length pts) (rng s)) as Hlt.
  destruct (randrange (length pts) (rng s)) as [i g'] eqn:Hr. simpl in *.
  destruct (lookup_lt_is_Some_2 pts i) as [p Hp]; [lia |].
  exists p. rewrite (getitem_Some _ _ _ Hp).
  split; [by eapply list_elem_of_lookup_2 | done].
Qed.

(** The initial centres are [clusters] of the points; nothing but the
    generator and the locals changes. *)
Lemma initial_centers_eq clusters s :
  points_list s ≠ [] →
  ∃ s0, initial_centers clusters s = (Ok (), s0) ∧
    points_list s0 = points_list s ∧ stdout s0 = stdout s ∧
    clusters_information s0 = [] ∧ iteration s0 = iteration s ∧
    length (centers s0) = Z.to_nat clusters ∧
    Forall (fun c => c ∈ points_list s) (centers s0).
Proof.
  intros Hne. unfold initial_centers.
  erewrite bind_Ok by done. do 2 (erewrite bind_Ok by done).
  destruct (for_invariant
    (fun seen s' =>
       points_list s' = points_list s ∧ stdout s' = stdout s ∧
       clusters_information s' = [] ∧ iteration s' = iteration s ∧
       length (centers s') = length seen ∧
       Forall (fun c => c ∈ points_list s) (centers s'))
    (fun _ : nat =>
       p ← rand_point (points_list s);
       modify (fun s => set_centers (centers s ++ [p]) s))
    (range clusters)) with (seen := @nil nat)
    (s := set_clusters_information [] (set_centers [] s))
    as (s0 & Hs0 & HI).
  - intros seen x s1 (H1 & H2 & H3 & H4 & H5 & H6).
    destruct (rand_point_eq (points_list s) s1 Hne) as (p & Hp & Hr).
    eexists. rewrite (bind_Ok _ _ _ _ _ Hr). split; [done |].
    destruct s1; simpl in *. split_and!; try done.
    + rewrite !length_app. simpl. lia.
    + apply Forall_app. split; [done |]. by apply Forall_singleton.
  - by destruct s.
  - exists s0. split; [done |].
    destruct HI as (H1 & H2 & H3 & H4 & H5 & H6).
    split_and!; try done. rewrite H5. simpl.
    unfold range. by rewrite length_seq.
Qed.

(** The indices that [k] calls of [randrange(n)] give, one after the other,
    and the generator after them. *)
Fixpoint draws (k n : nat) (g : rng_state) : list nat * rng_state :=
  match k with
  | O => ([], g)
  | S k' =>
      let '(i, g1) := randrange n g in
      let '(l, g2) := draws k' n g1 in
      (i :: l, g2)
  end.

Lemma draws_length k n : ∀ g, length (draws k n g).1 = k.
Proof.
  induction k as [|k IH]; intros g; [done |]. simpl.
  destruct (randrange n g) as [i g1]. specialize (IH g1).
  destruct (draws k n g1) as [l g2]. simpl in *. by rewrite IH.
Qed.

Lemma draws_lt k n : (0 < n)%nat → ∀ g,
  Forall (fun i => i < n)%nat (draws k n g).1.
Proof.
  intros Hn. induction k as [|k IH]; intros g; [constructor |]. simpl.
  pose proof (randrange_lt n g Hn) as Hi.
  destruct (randrange n g) as [i g1]. specialize (IH g1).
  destruct (draws k n g1) as [l g2]. simpl in *. by constructor.
Qed.

Lemma rand_point_draw pts s :
  pts ≠ [] →
  ∃ p, pts !! (randrange (length pts) (rng s)).1 = Some p ∧
    rand_point pts s
    = (Ok p, set_rng (randrange (length pts) (rng s)).2 s).
Proof.
  intros Hne. unfold rand_point.
  destruct (decide (length pts = 0%nat)) as [Hl|Hl]; [by destruct pts |].
  py_unfold. simpl.
  pose proof (randrange_lt (length pts) (rng s)) as Hlt.
  destruct (randrange (length pts) (rng s)) as [i g'] eqn:Hr. simpl in *.
  destruct (lookup_lt_is_Some_2 pts i) as [p Hp]; [lia |].
  exists p. by rewrite (getitem_Some _ _ _ Hp).
Qed.

(** The loop of the initialiser: one draw for every centre, each of them
    the point at the index drawn. *)
Lemma draw_loop pts :
  pts ≠ [] → ∀ (l : list nat) s,
  ∃ drawn,
    for_ l (fun _ =>
              p ← rand_point pts;
              modify (fun s => set_centers (centers s ++ [p]) s)) s
    = (Ok (),
       set_rng (draws (length l) (length pts) (rng s)).2
         (set_centers (centers s ++ drawn) s)) ∧
    Forall2 (fun i c => pts !! i = Some c)
            (draws (length l) (length pts) (rng s)).1 drawn.
Proof.
  intros Hne l. induction l as [|x l IH]; intros s.
  - exists []. split; [| constructor]. simpl.
    destruct s; simpl. by rewrite app_nil_r.
  - destruct (rand_point_draw pts s Hne) as (p & Hp & Hr).
    cbn [for_ length draws].
    destruct (randrange (length pts) (rng s)) as [i g1] eqn:Hi.
    simpl in Hp, Hr.
    rewrite (bind_Ok _ _ _ _ _
               (bind_Ok _ _ _ _ _ Hr : (p ← rand_point pts;
                  modify (fun s => set_centers (centers s ++ [p]) s)) s
                 = _)).
    destruct (IH (set_centers (centers (set_rng g1 s) ++ [p]) (set_rng g1 s)))
      as (drawn & Hloop & HF).
    replace (rng (set_centers (centers (set_rng g1 s) ++ [p]) (set_rng g1 s)))
      with g1 in Hloop, HF by by destruct s.
    destruct (draws (length l) (length pts) g1) as [ixs g2].
    exists (p :: drawn). split.
    + rewrite Hloop. f_equal.
      destruct s; simpl. by rewrite <- app_assoc.
    + simpl. by constructor.
Qed.

Lemma initial_centers_draws clusters s :
  points_list s ≠ [] →
  ∃ cs,
    initial_centers clusters s
    = (Ok (),
       set_rng
         (draws (Z.to_nat clusters) (length (points_list s)) (rng s)).2
         (set_centers cs (set_clusters_information [] s))) ∧
    Forall2 (fun i c => points_list s !! i = Some c)
            (draws (Z.to_nat clusters) (length (points_list s)) (rng s)).1 cs.
Proof.
  intros Hne. unfold initial_centers.
  erewrite bind_Ok by done. do 2 (erewrite bind_Ok by done).
  destruct (draw_loop (points_list s) Hne (range clusters)
              (set_clusters_information [] (set_centers [] s)))
    as (drawn & Hloop & HF).
  unfold range in *. rewrite length_seq in Hloop, HF.
  exists drawn. split; [| by destruct s].
  rewrite Hloop. by destruct s.
Qed.

(** Before the final pass, the passes change the centres and the counter
    only. *)
Lemma passes_before_final Max_iterations clusters dimension s :
  valid clusters dimension s → iteration s = 0 →
  ∀ k, Z.of_nat k ≤ Max_iterations - 1 →
  let s_k := Nat.iter k (next Max_iterations clusters dimension) s in
  valid clusters dimension s_k ∧ iteration s_k = Z.of_nat k ∧
  points_list s_k = points_list s ∧ rng s_k = rng s ∧
  stdout s_k = stdout s ∧
  clusters_information s_k = clusters_information s.
Proof.
  intros Hv Hit k. induction k as [|k IH]; intros Hk; [done |].
  destruct IH as (IH1 & IH2 & IH3 & IH4 & IH5 & IH6); [lia |].
  cbn [Nat.iter]. split_and!; [by apply next_valid | | done..| ].
  - simpl. lia.
  - simpl. destruct (decide _); [lia | done].
Qed.

(** A valid call of [cluster] that returns the dictionary: the store
    [s_last] before the final pass holds the centres that the final
    assignment is made with, and the result records, for every cluster id,
    the centre after the final update and the points of the final
    assignment. *)
Lemma cluster_run pts Max_iterations clusters g out p0 :
  pts !! 0%nat = Some p0 →
  1 ≤ clusters ≤ len pts → 1 ≤ Max_iterations →
  Forall (fun p => length p0 ≤ length p)%nat pts →
  ∃ s0 s_last,
    initial_centers clusters (call pts g out) = (Ok (), s0) ∧
    refine Max_iterations clusters (length p0) s0
    = repeat_ (Z.to_nat Max_iterations)
        (pass Max_iterations clusters (length p0)) (set_iteration 0 s0) ∧
    valid clusters (length p0) s_last ∧
    points_list s_last = pts ∧ stdout s_last = out ∧
    iteration s_last = Max_iterations - 1 ∧
    let s' := next Max_iterations clusters (length p0) s_last in
    refine Max_iterations clusters (length p0) s0 = (Ok (), s') ∧
    clusters_information s'
    = recorded pts (allocation clusters (length p0) s_last) (length p0)
        (centers s_last) ∧
    cluster Max_iterations clusters false (call pts g out)
    = (Ok (Some (clusters_information s')), s') ∧
    s_last = Nat.iter (Z.to_nat (Max_iterations - 1))
               (next Max_iterations clusters (length p0)) (set_iteration 0 s0).
Proof.
  intros Hp0 HK HM Hdim.
  assert (pts ≠ []) as Hne by by destruct pts.
  destruct (initial_centers_eq clusters (call pts g out) Hne)
    as (s0 & Hs0 & H1 & H2 & H3 & H4 & H5 & H6). simpl in *.
  assert (valid clusters (length p0) (set_iteration 0 s0)) as Hv.
  { unfold valid, len. destruct s0; simpl in *. subst. split_and!.
    - lia.
    - intros ->. simpl in H5. lia.
    - done.
    - eapply Forall_impl; [done |]. intros c Hc.
      by eapply Forall_forall in Hdim. }
  assert (valid clusters (length p0) s0) as Hv0 by by destruct s0.
  destruct (refine_eq Max_iterations clusters (length p0) s0)
    as (Hr & Hrep & _ & Hit); [lia | done |].
  destruct (passes_before_final Max_iterations clusters (length p0)
              (set_iteration 0 s0) Hv) with (k := Z.to_nat (Max_iterations - 1))
    as (L1 & L2 & L3 & L4 & L5 & L6); [by destruct s0 | lia |].
  assert (refine Max_iterations clusters (length p0) s0
          = repeat_ (Z.to_nat Max_iterations)
              (pass Max_iterations clusters (length p0)) (set_iteration 0 s0))
    as Heq by by rewrite Hr, Hrep.
  replace (Z.to_nat Max_iterations) with (S (Z.to_nat (Max_iterations - 1)))
    in Hr, Hit by lia.
  rewrite Nat.iter_succ in Hr, Hit.
  set (s_last := Nat.iter (Z.to_nat (Max_iterations - 1))
                   (next Max_iterations clusters (length p0))
                   (set_iteration 0 s0)) in *.
  exists s0, s_last.
  split_and!; try done.
  - rewrite L3. by destruct s0.
  - rewrite L5. by destruct s0.
  - lia.
  - simpl. rewrite decide_True by lia.
    rewrite L6, L3. replace (clusters_information (set_iteration 0 s0))
      with (@nil (nat * dic num)) by by destruct s0.
    replace (points_list (set_iteration 0 s0)) with pts by by destruct s0.
    rewrite record_fresh; [done |]. simpl.
    unfold recorded. rewrite imap_keys. apply NoDup_seq.
  - unfold cluster. erewrite bind_Ok by done. simpl.
    rewrite decide_False by lia.
    erewrite bind_Ok by (unfold lift; by rewrite (getitem_Some _ _ _ Hp0)).
    rewrite (bind_Ok _ _ _ _ _ Hs0), (bind_Ok _ _ _ _ _ Hr). done.
Qed.
End scalar_run.

(** ** The update step and the passes of [clustering_numpy.py] *)

Section numpy_pass.
Context {AR : Arith} {RN : Random} {ST : Str (option num)}.
Import clustering_numpy.

(** Indexing with [argwhere] selects the rows that [select] selects. *)
Lemma argwhere_select_from {A : Type} i : ∀ (alloc : list nat) (arr pre : list A),
  (length alloc ≤ length arr)%nat →
  mapM (getitem (pre ++ arr))
    (filter (fun na => na.2 = i)
            (imap (fun n a => (length pre + n, a)%nat) alloc)).*1
  = Ok (select arr alloc i).
Proof.
  induction alloc as [|a alloc IH]; intros arr pre Hlen; [by destruct arr |].
  destruct arr as [|r arr]; [simpl in Hlen; lia |].
  specialize (IH arr (pre ++ [r])). rewrite <- app_assoc in IH. simpl in IH.
  assert (imap ((fun n a => (length pre + n, a)%nat) ∘ S) alloc
          = imap (fun n a => (length (pre ++ [r]) + n, a)%nat) alloc) as Him.
  { apply imap_ext. intros n x _. simpl. rewrite length_app. simpl.
    f_equal. lia. }
  unfold select in *. cbn [imap zip zip_with]. rewrite !filter_cons.
  cbn [snd]. rewrite Him.
  destruct (decide (a = i)).
  - rewrite !fmap_cons. cbn [mapM fst].
    rewrite Nat.add_0_r.
    rewrite (getitem_Some _ _ r) by by apply list_lookup_middle.
    simpl. rewrite IH by (simpl in Hlen; lia). done.
  - apply IH. simpl in Hlen; lia.
Qed.

Lemma argwhere_select {A : Type} (arr : list A) alloc i :
  (length alloc ≤ length arr)%nat →
  mapM (getitem arr) (argwhere alloc i) = Ok (select arr alloc i).
Proof. apply (argwhere_select_from i alloc arr []). Qed.

(** The centre of cluster [i] after the update step. *)
Definition new_mean (arr : list (list (option num))) (alloc : list nat)
    (dimension i : nat) : list (option num) :=
  np_mean (select arr alloc i) dimension.

Lemma np_update_cluster_eq Max_iterations dimension alloc i pts g out arr cs
    ci it :
  (i < length cs)%nat → (length alloc ≤ length arr)%nat →
  update_cluster Max_iterations dimension alloc i
    (Store pts g out arr cs ci it)
  = (Ok (),
     Store pts g out arr (<[i := new_mean arr alloc dimension i]> cs)
       (if decide (it = Max_iterations - 1)
        then setitem ci i (entry (new_mean arr alloc dimension i)
                                 (select arr alloc i))
        else ci)
       it).
Proof.
  intros Hi Hlen. unfold update_cluster, assign_center, new_mean.
  py_unfold. simpl. rewrite argwhere_select by done.
  destruct (decide (i < length cs)%nat); [| done]. simpl.
  destruct (decide (it = Max_iterations - 1)); simpl; [| done].
  rewrite (getitem_Some _ _ (np_mean (select arr alloc i) dimension));
    [done |].
  by apply list_lookup_insert_eq.
Qed.

Lemma np_update_loop Max_iterations dimension alloc pts g out arr it :
  (length alloc ≤ length arr)%nat →
  ∀ suf pre ci,
  for_ (seq (length pre) (length suf))
       (update_cluster Max_iterations dimension alloc)
       (Store pts g out arr (pre ++ suf) ci it)
  = (Ok (),
     Store pts g out arr
       (pre ++ imap (fun j _ =>
                       new_mean arr alloc dimension (length pre + j)) suf)
       (if decide (it = Max_iterations - 1)
        then record ci
               (imap (fun j _ =>
                        (length pre + j,
                         entry (new_mean arr alloc dimension (length pre + j))
                               (select arr alloc (length pre + j)))%nat) suf)
        else ci)
       it).
Proof.
  intros Hlen suf. induction suf as [|c suf IH]; intros pre ci.
  - simpl. rewrite app_nil_r. by destruct (decide _).
  - cbn [length seq for_].
    erewrite bind_Ok; [| apply np_update_cluster_eq; [| done]].
    2:{ rewrite length_app. simpl. lia. }
    replace (<[length pre := new_mean arr alloc dimension (length pre)]>
               (pre ++ c :: suf))
      with ((pre ++ [new_mean arr alloc dimension (length pre)]) ++ suf).
    2:{ rewrite <- app_assoc. simpl.
        rewrite <- (Nat.add_0_r (length pre)) at 2.
        by rewrite insert_app_r. }
    specialize (IH (pre ++ [new_mean arr alloc dimension (length pre)])).
    rewrite length_app in IH. simpl in IH.
    replace (S (length pre)) with (length pre + 1)%nat by lia.
    rewrite IH. rewrite <- app_assoc. simpl.
    rewrite !Nat.add_0_r. do 2 f_equal.
    + do 2 f_equal. apply imap_ext. intros j x _. simpl.
      f_equal; lia.
    + destruct (decide (it = Max_iterations - 1)); [| done].
      unfold record. simpl. f_equal. apply imap_ext. intros j x _. simpl.
      replace (length pre + 1 + j)%nat with (length pre + S j)%nat by lia.
      done.
Qed.

Definition np_updated_centers (arr : list (list (option num)))
    (alloc : list nat) (dimension : nat) (cs : list (list (option num)))
  : list (list (option num)) :=
  imap (fun i _ => new_mean arr alloc dimension i) cs.

Definition np_recorded (arr : list (list (option num))) (alloc : list nat)
    (dimension : nat) (cs : list (list (option num))) : dict (option num) :=
  imap (fun i (_ : list (option num)) =>
          (i, entry (new_mean arr alloc dimension i) (select arr alloc i)))
       cs.

Lemma np_update_eq Max_iterations clusters dimension alloc pts g out arr cs
    ci it :
  clusters = len cs → (length alloc ≤ length arr)%nat →
  update Max_iterations clusters dimension alloc
    (Store pts g out arr cs ci it)
  = (Ok (),
     Store pts g out arr (np_updated_centers arr alloc dimension cs)
       (if decide (it = Max_iterations - 1)
        then record ci (np_recorded arr alloc dimension cs)
        else ci)
       it).
Proof.
  intros -> Hlen. unfold update, range, len. rewrite Nat2Z.id.
  apply (np_update_loop Max_iterations dimension alloc pts g out arr it Hlen
           cs []).
Qed.

(** The cluster id of a row under the centres [cs]. *)
Definition np_assigned (cs : list (list (option num)))
    (p : list (option num)) (i : nat) : Prop :=
  argmin ((fun c => norm (zip_with np_sub p c)) <$> cs) = Ok i ∧
  (i < length cs)%nat.

Lemma Calculate_index_assigned (points mean_point : list (list (option num))) :
  mean_point ≠ [] →
  ∃ alloc, Calculate_index points mean_point = Ok alloc ∧
           Forall2 (np_assigned mean_point) points alloc.
Proof.
  intros Hne. rewrite Calculate_index_unfold by done.
  edestruct (mapM_Forall2
               (fun n =>
                  argmin (column n
                    ((fun c => (fun p => norm (zip_with np_sub p c))
                                 <$> points) <$> mean_point)))
               (fun n i => ∃ p, points !! n = Some p ∧
                                np_assigned mean_point p i)
               (seq 0 (length points))) as (alloc & Halloc & HF).
  - intros n [_ Hn]%elem_of_seq.
    destruct (lookup_lt_is_Some_2 points n) as [p Hp]; [lia |].
    rewrite (column_fmap (fun c p => norm (zip_with np_sub p c)) _ _ _ _ Hp).
    destruct (argmin_lt ((fun c => norm (zip_with np_sub p c)) <$> mean_point))
      as (i & Hi & Hlt); [by destruct mean_point |].
    rewrite length_fmap in Hlt.
    exists i. split; [done |]. by exists p.
  - exists alloc. split; [done |].
    apply Forall2_same_length_lookup. split.
    { apply Forall2_length in HF. by rewrite length_seq in HF. }
    intros n p i Hp Hi.
    destruct (Forall2_lookup_r _ _ _ _ _ HF Hi) as (n' & Hn' & p' & Hp' & Hnl).
    apply lookup_seq in Hn' as [-> _]. simpl in Hp'. congruence.
Qed.

(** A store in which a pass cannot raise: there are [clusters] centres, at
    least one. *)
Definition np_valid (clusters : Z) (s : store) : Prop :=
  clusters = len (centers s) ∧ centers s ≠ [].

Definition np_allocation (s : store) : list nat :=
  match (assignment s).1 with
  | Ok alloc => alloc
  | _ => []
  end.

Lemma np_assignment_eq clusters s :
  np_valid clusters s →
  assignment s = (Ok (np_allocation s), s) ∧
  Forall2 (np_assigned (centers s)) (points_array s) (np_allocation s).
Proof.
  intros (HK & Hne). unfold np_allocation, assignment. py_unfold. simpl.
  by destruct (Calculate_index_assigned (points_array s) (centers s) Hne)
    as (alloc & -> & HF).
Qed.

(** The store after a pass. *)
Definition np_next (Max_iterations : Z) (dimension : nat) (s : store)
  : store :=
  let alloc := np_allocation s in
  Store (points_list s) (rng s) (stdout s) (points_array s)
    (np_updated_centers (points_array s) alloc dimension (centers s))
    (if decide (iteration s = Max_iterations - 1)
     then record (clusters_information s)
            (np_recorded (points_array s) alloc dimension (centers s))
     else clusters_information s)
    (iteration s + 1).

Lemma np_pass_next Max_iterations clusters dimension s :
  np_valid clusters s →
  pass Max_iterations clusters dimension s
  = (Ok (), np_next Max_iterations dimension s).
Proof.
  intros Hv. destruct (np_assignment_eq _ _ Hv) as [Ha HF].
  destruct Hv as (HK & Hne).
  unfold pass. rewrite (bind_Ok _ _ _ _ _ Ha).
  destruct s as [pts g out arr cs ci it]. simpl in *.
  erewrite bind_Ok;
    [| apply np_update_eq; [done | apply Forall2_length in HF; lia]].
  done.
Qed.

Lemma np_next_valid Max_iterations clusters dimension s :
  np_valid clusters s → np_valid clusters (np_next Max_iterations dimension s).
Proof.
  intros (HK & Hne). unfold np_valid, np_next, np_updated_centers, len.
  simpl. rewrite length_imap. split; [done |].
  intros Hnil%(f_equal length). rewrite length_imap in Hnil.
  by destruct (centers s).
Qed.

Lemma np_refine_eq Max_iterations clusters dimension s :
  0 ≤ Max_iterations →
  np_valid clusters s →
  let s' := Nat.iter (Z.to_nat Max_iterations)
              (np_next Max_iterations dimension) (set_iteration 0 s) in
  refine Max_iterations clusters dimension s = (Ok (), s') ∧
  repeat_ (Z.to_nat Max_iterations) (pass Max_iterations clusters dimension)
          (set_iteration 0 s) = (Ok (), s') ∧
  np_valid clusters s' ∧ iteration s' = Max_iterations.
Proof.
  intros HM Hv. unfold refine.
  erewrite bind_Ok by done.
  apply (while_counted iteration Max_iterations _
           (np_next Max_iterations dimension) (np_valid clusters)).
  - intros s1 Hs1. split_and!;
      [by apply np_pass_next | by apply np_next_valid | done].
  - by destruct s.
  - destruct s; simpl. lia.
Qed.

Lemma np_passes_before_final Max_iterations clusters dimension s :
  np_valid clusters s → iteration s = 0 →
  ∀ k, Z.of_nat k ≤ Max_iterations - 1 →
  let s_k := Nat.iter k (np_next Max_iterations dimension) s in
  np_valid clusters s_k ∧ iteration s_k = Z.of_nat k ∧
  points_list s_k = points_list s ∧ rng s_k = rng s ∧
  stdout s_k = stdout s ∧ points_array s_k = points_array s ∧
  clusters_information s_k = clusters_information s.
Proof.
  intros Hv Hit k. induction k as [|k IH]; intros Hk; [done |].
  destruct IH as (IH1 & IH2 & IH3 & IH4 & IH5 & IH6 & IH7); [lia |].
  cbn [Nat.iter]. split_and!; [by eapply np_next_valid | | done..| ].
  - simpl. lia.
  - simpl. destruct (decide _); [lia | done].
Qed.
End numpy_pass.

(** ** A run of [cluster_numpy] *)

Section numpy_run.
Context {AR : Arith} {RN : Random} {ST : Str (option num)}.
Import clustering_numpy.

Lemma np_array_eq pts dimension :
  Forall (fun p => length p = dimension) pts →
  np_array pts dimension = Ok (of_point <$> pts).
Proof.
  intros Hdim. unfold np_array.
  rewrite (proj2 (forallb_forall _ pts)); [done |].
  intros p Hp%list_elem_of_In. apply Nat.eqb_eq.
  by eapply Forall_forall in Hdim.
Qed.

(** The initialiser draws once, with [choice]. *)
Lemma np_initial_centers_rng clusters dimension s :
  Forall (fun p => length p = dimension) (points_list s) →
  0 ≤ clusters ≤ len (points_list s) →
  rng (initial_centers clusters dimension s).2
  = (choice (length (points_list s)) (Z.to_nat clusters) (rng s)).2.
Proof.
  intros Hdim HK. unfold initial_centers.
  erewrite bind_Ok by done. erewrite bind_Ok by done.
  erewrite bind_Ok by (unfold lift; by rewrite np_array_eq).
  erewrite bind_Ok by done.
  rewrite decide_False by lia.
  erewrite bind_Ok by done.
  destruct (choice _ _ _) as [indices g'] eqn:Hch.
  erewrite bind_Ok by done. simpl.
  unfold mbind, py_bind, lift.
  by destruct (mapM _ indices).
Qed.

(** The initial centres are the rows of the array at the indices that
    [choice] draws; nothing but the generator and the locals changes. *)
Lemma np_initial_centers_eq clusters dimension s :
  Forall (fun p => length p = dimension) (points_list s) →
  0 ≤ clusters ≤ len (points_list s) →
  ∃ s0 indices,
    initial_centers clusters dimension s = (Ok (), s0) ∧
    points_list s0 = points_list s ∧ stdout s0 = stdout s ∧
    clusters_information s0 = [] ∧ iteration s0 = iteration s ∧
    points_array s0 = of_point <$> points_list s ∧
    indices = (choice (length (points_list s)) (Z.to_nat clusters) (rng s)).1 ∧
    Forall2 (fun i c => points_array s0 !! i = Some c) indices (centers s0).
Proof.
  intros Hdim HK. unfold initial_centers, len in *.
  erewrite bind_Ok by done. erewrite bind_Ok by done.
  erewrite bind_Ok by (unfold lift; by rewrite np_array_eq).
  erewrite bind_Ok by done.
  rewrite decide_False by lia.
  erewrite bind_Ok by done.
  pose proof (choice_lt (length (points_list s)) (Z.to_nat clusters) (rng s))
    as Hlt.
  destruct (choice _ _ _) as [indices g'] eqn:Hch. simpl in Hlt.
  erewrite bind_Ok by done.
  destruct (mapM_Forall2 (getitem (of_point <$> points_list s))
              (fun i c => (of_point <$> points_list s) !! i = Some c) indices)
    as (cs & Hcs & HF).
  { intros i Hi. apply Hlt in Hi; [| lia].
    destruct (lookup_lt_is_Some_2 (of_point <$> points_list s) i) as [c Hc].
    { by rewrite length_fmap. }
    exists c. by rewrite (getitem_Some _ _ _ Hc). }
  erewrite bind_Ok by (unfold lift; by rewrite Hcs).
  eexists _, indices. split; [done |]. destruct s; simpl in *.
  split_and!; done.
Qed.

(** A valid call of [cluster_numpy] that returns the dictionary. *)
Lemma cluster_numpy_run pts Max_iterations clusters g out p0 :
  pts !! 0%nat = Some p0 →
  1 ≤ clusters ≤ len pts → 1 ≤ Max_iterations →
  Forall (fun p => length p = length p0) pts →
  ∃ s0 s_last,
    initial_centers clusters (length p0) (call pts g out) = (Ok (), s0) ∧
    refine Max_iterations clusters (length p0) s0
    = repeat_ (Z.to_nat Max_iterations)
        (pass Max_iterations clusters (length p0)) (set_iteration 0 s0) ∧
    np_valid clusters s_last ∧
    points_list s_last = pts ∧ stdout s_last = out ∧
    points_array s_last = of_point <$> pts ∧
    iteration s_last = Max_iterations - 1 ∧
    let s' := np_next Max_iterations (length p0) s_last in
    refine Max_iterations clusters (length p0) s0 = (Ok (), s') ∧
    clusters_information s'
    = np_recorded (of_point <$> pts) (np_allocation s_last) (length p0)
        (centers s_last) ∧
    cluster_numpy Max_iterations clusters false (call pts g out)
    = (Ok (Some (clusters_information s')), s') ∧
    s_last = Nat.iter (Z.to_nat (Max_iterations - 1))
               (np_next Max_iterations (length p0)) (set_iteration 0 s0).
Proof.
  intros Hp0 HK HM Hdim.
  destruct (np_initial_centers_eq clusters (length p0) (call pts g out))
    as (s0 & indices & Hs0 & H1 & H2 & H3 & H4 & H5 & H6 & H7);
    [done | simpl; lia |]. simpl in *.
  assert (np_valid clusters (set_iteration 0 s0)) as Hv.
  { unfold np_valid, len. apply Forall2_length in H7.
    pose proof (choice_length (length pts) (Z.to_nat clusters) g) as Hl.
    unfold len in HK. rewrite <- H6 in Hl.
    destruct s0; simpl in *. split; [lia |].
    intros ->. simpl in H7. lia. }
  assert (np_valid clusters s0) as Hv0 by by destruct s0.
  destruct (np_refine_eq Max_iterations clusters (length p0) s0)
    as (Hr & Hrep & _ & Hit); [lia | done |].
  destruct (np_passes_before_final Max_iterations clusters (length p0)
              (set_iteration 0 s0) Hv) with (k := Z.to_nat (Max_iterations - 1))
    as (L1 & L2 & L3 & L4 & L5 & L6 & L7); [by destruct s0 | lia |].
  assert (refine Max_iterations clusters (length p0) s0
          = repeat_ (Z.to_nat Max_iterations)
              (pass Max_iterations clusters (length p0)) (set_iteration 0 s0))
    as Heq by by rewrite Hr, Hrep.
  replace (Z.to_nat Max_iterations) with (S (Z.to_nat (Max_iterations - 1)))
    in Hr, Hit by lia.
  rewrite Nat.iter_succ in Hr, Hit.
  set (s_last := Nat.iter (Z.to_nat (Max_iterations - 1))
                   (np_next Max_iterations (length p0))
                   (set_iteration 0 s0)) in *.
  exists s0, s_last.
  split_and!; try done.
  - rewrite L3. by destruct s0.
  - rewrite L5. by destruct s0.
  - rewrite L6. by destruct s0.
  - lia.
  - simpl. rewrite decide_True by lia.
    rewrite L7, L6. replace (clusters_information (set_iteration 0 s0))
      with (@nil (nat * dic (option num))) by by destruct s0.
    replace (points_array (set_iteration 0 s0)) with (of_point <$> pts)
      by by destruct s0.
    rewrite record_fresh; [done |]. simpl.
    unfold np_recorded. rewrite imap_keys. apply NoDup_seq.
  - unfold cluster_numpy. erewrite bind_Ok by done. simpl.
    rewrite decide_False by lia.
    erewrite bind_Ok by (unfold lift; by rewrite (getitem_Some _ _ _ Hp0)).
    rewrite (bind_Ok _ _ _ _ _ Hs0), (bind_Ok _ _ _ _ _ Hr). done.
Qed.
End numpy_run.

(** * The properties of the specification *)

Section specification.
Context {AR : Arith} {RN : Random} {ST : Str num} {STN : Str (option num)}.

Lemma nearest_lowest_unique dimension centers point i j :
  nearest_lowest dimension centers point i →
  nearest_lowest dimension centers point j → i = j.
Proof.
  intros (ci & Hci & Hi) (cj & Hcj & Hj).
  destruct (Nat.lt_trichotomy i j) as [Hlt | [-> | Hlt]]; [| done |].
  - destruct (Hi j cj Hcj) as [H1 _], (Hj i ci Hci) as [_ H2].
    rewrite H2 in H1; [done | lia].
  - destruct (Hj i ci Hci) as [H1 _], (Hi j cj Hcj) as [_ H2].
    rewrite H2 in H1; [done | lia].
Qed.

(** C5. For every point and every list of [K >= 1] centres of the same
    dimension, the assignment step returns the index of a nearest centre
    under the Euclidean distance, and the lowest such index when several
    centres are equally near: no centre is strictly nearer than the one
    returned, and every centre before it is strictly farther.  This holds
    for [find_best_cluster], applied to each point as [cluster] does, and
    for [Calculate_index]; the two return the same indices. *)
Theorem assignment_nearest_lowest dimension (points centers : list (list num)) :
  centers ≠ [] →
  Forall (fun p => length p = dimension) points →
  Forall (fun c => length c = dimension) centers →
  ∃ alloc,
    Forall2 (nearest_lowest dimension centers) points alloc ∧
    mapM (fun point =>
            clustering.find_best_cluster (len centers) point centers dimension)
         points = Ok alloc ∧
    clustering_numpy.Calculate_index
      (clustering_numpy.of_point <$> points)
      (clustering_numpy.of_point <$> centers) = Ok alloc.
Proof.
  intros Hne Hps Hcs.
  destruct (Calculate_index_nearest dimension points centers Hne Hps Hcs)
    as (alloc & Hnp & HF).
  exists alloc. split_and!; [done | | done].
  destruct (mapM_Forall2
              (fun point => clustering.find_best_cluster (len centers) point
                              centers dimension)
              (nearest_lowest dimension centers) points)
    as (alloc' & Halloc' & HF').
  { intros p Hp. eapply Forall_forall in Hps; [| done].
    destruct (find_best_cluster_nearest (len centers) p centers dimension)
      as (i & Hi & _ & Hnl); [done | done | lia | |].
    - eapply Forall_impl; [done |]. intros c Hc. simpl in Hc. lia.
    - by exists i. }
  rewrite Halloc'. f_equal.
  apply list_eq_same_length with (length points).
  - symmetry. by eapply Forall2_length.
  - symmetry. by eapply Forall2_length.
  - intros n i j Hn Hi Hj.
    destruct (lookup_lt_is_Some_2 points n) as [p Hp]; [lia |].
    eapply nearest_lowest_unique.
    + eapply (Forall2_lookup_lr _ _ _ _ _ _ HF'); done.
    + eapply (Forall2_lookup_lr _ _ _ _ _ _ HF); done.
Qed.

(** C4. For every valid run ([1 <= K <= N], [M >= 1], points of one
    dimension) the result has exactly [K] entries, keyed by the cluster ids
    [0] to [K - 1], and every input point is in the member list of exactly
    one entry: together the member lists hold each point as often as the
    input does, and no point is a member under two keys.  This holds for
    [cluster] and for [cluster_numpy]. *)
Theorem cluster_result_partitions (pts : list (list num)) Max_iterations
    clusters g out p0 :
  pts !! 0%nat = Some p0 →
  Forall (fun p => length p = length p0) pts →
  1 ≤ clusters ≤ len pts → 1 ≤ Max_iterations →
  (∃ info s',
     clustering.cluster Max_iterations clusters false
       (clustering.call pts g out) = (Ok (Some info), s') ∧
     partitions (Z.to_nat clusters) pts info) ∧
  (∃ info s',
     clustering_numpy.cluster_numpy Max_iterations clusters false
       (clustering_numpy.call pts g out) = (Ok (Some info), s') ∧
     partitions (Z.to_nat clusters) (clustering_numpy.of_point <$> pts) info).
Proof.
  intros Hp0 Hdim HK HM. split.
  - destruct (cluster_run pts Max_iterations clusters g out p0)
      as (s0 & s_last & _ & _ & Hv & Hpts & _ & _ & _ & Hci & Hrun & _);
      [done.. | |].
    { eapply Forall_impl; [done |]. intros p Hp. simpl in Hp. lia. }
    eexists _, _. split; [done |]. rewrite Hci.
    destruct (assignment_eq _ _ _ Hv) as [_ HF]. rewrite Hpts in HF.
    destruct Hv as (HKc & _). unfold len in HKc.
    replace (Z.to_nat clusters) with (length (clustering.centers s_last))
      by lia.
    apply (recorded_partitions
             (fun p i => clustering.find_best_cluster clusters p
                           (clustering.centers s_last) (length p0) = Ok i)).
    + intros p i j Hi Hj. congruence.
    + eapply Forall2_impl; [done |]. intros p i (Hi & Hlt & _). done.
  - destruct (cluster_numpy_run pts Max_iterations clusters g out p0)
      as (s0 & s_last & _ & _ & Hv & _ & _ & Harr & _ & _ & Hci & Hrun & _);
      [done.. |].
    eexists _, _. split; [done |]. rewrite Hci.
    destruct (np_assignment_eq _ _ Hv) as [_ HF]. rewrite Harr in HF.
    destruct Hv as (HKc & _). unfold len in HKc.
    replace (Z.to_nat clusters)
      with (length (clustering_numpy.centers s_last)) by lia.
    apply (recorded_partitions
             (fun p i =>
                clustering_numpy.argmin
                  ((fun c => clustering_numpy.norm
                               (zip_with clustering_numpy.np_sub p c))
                     <$> clustering_numpy.centers s_last) = Ok i)).
    + intros p i j Hi Hj. congruence.
    + done.
Qed.


(** C10. Whatever [cluster] or [cluster_numpy] does, return or raise, the
    caller's list of points is the one it was before the call: the same
    points in the same order. *)
Theorem points_list_unchanged Max_iterations clusters output :
  (∀ s, clustering.points_list
          (clustering.cluster Max_iterations clusters output s).2
        = clustering.points_list s) ∧
  (∀ s, clustering_numpy.points_list
          (clustering_numpy.cluster_numpy Max_iterations clusters output s).2
        = clustering_numpy.points_list s).
Proof.
  split; intros s.
  - apply cluster_frames_points_list.
  - apply cluster_numpy_frames_points_list.
Qed.

(** C3, as the code has it.  When the cluster count exceeds the number of
    points, the call raises [ValueError] and the store is the one of the
    call: no centre has been chosen, the generator has not been drawn from,
    no pass has run and nothing has been printed.  ([K <= 0] and [M <= 0]
    are not tested for.) *)
Theorem too_many_clusters_rejected (pts : list (list num)) Max_iterations
    clusters output g out :
  clusters > len pts →
  clustering.cluster Max_iterations clusters output
    (clustering.call pts g out)
  = (Raise ValueError, clustering.call pts g out) ∧
  clustering_numpy.cluster_numpy Max_iterations clusters output
    (clustering_numpy.call pts g out)
  = (Raise ValueError, clustering_numpy.call pts g out).
Proof.
  intros HK. split.
  - unfold clustering.cluster. erewrite bind_Ok by done. simpl.
    by rewrite decide_True by done.
  - unfold clustering_numpy.cluster_numpy. erewrite bind_Ok by done. simpl.
    by rewrite decide_True by done.
Qed.

Lemma getkey_centers {X : Type} (c : list X) ps :
  getkey (entry c ps) "centers" = Raise KeyError.
Proof.
  unfold getkey, entry. by rewrite !lookup_insert_ne, lookup_empty.
Qed.

(** [print_points] raises on the first cluster, before it prints. *)
Lemma print_points_KeyError k (c : list num) ps rest s :
  clustering.print_points ((k, entry c ps) :: rest) s = (Raise KeyError, s).
Proof.
  unfold clustering.print_points. cbn [for_].
  erewrite bind_Raise; [done |].
  erewrite bind_Raise; [done |]. unfold lift. by rewrite getkey_centers.
Qed.

Lemma np_print_points_KeyError k (c : list (option num)) ps rest s :
  clustering_numpy.print_points ((k, entry c ps) :: rest) s
  = (Raise KeyError, s).
Proof.
  unfold clustering_numpy.print_points. cbn [for_].
  erewrite bind_Raise; [done |].
  erewrite bind_Raise; [done |]. unfold lift. by rewrite getkey_centers.
Qed.

(** C9, as the code has it.  For every valid run that asks for the textual
    summary, [print_points] looks up the key ['centers'] in an entry whose
    keys are ['center'] and ['allocated_points']: the call raises
    [KeyError] and no line has been printed.  This holds for [cluster] and
    for [cluster_numpy]. *)
Theorem textual_summary_raises_KeyError (pts : list (list num))
    Max_iterations clusters g out p0 :
  pts !! 0%nat = Some p0 →
  Forall (fun p => length p = length p0) pts →
  1 ≤ clusters ≤ len pts → 1 ≤ Max_iterations →
  (∃ s', clustering.cluster Max_iterations clusters true
           (clustering.call pts g out) = (Raise KeyError, s') ∧
         clustering.stdout s' = out) ∧
  (∃ s', clustering_numpy.cluster_numpy Max_iterations clusters true
           (clustering_numpy.call pts g out) = (Raise KeyError, s') ∧
         clustering_numpy.stdout s' = out).
Proof.
  intros Hp0 Hdim HK HM. split.
  - destruct (cluster_run pts Max_iterations clusters g out p0)
      as (s0 & s_last & Hs0 & _ & Hv & _ & Hout & _ & Hr & Hci & _);
      [done.. | |].
    { eapply Forall_impl; [done |]. intros p Hp. simpl in Hp. lia. }
    eexists. split.
    + unfold clustering.cluster. erewrite bind_Ok by done. simpl.
      rewrite decide_False by lia.
      erewrite bind_Ok by (unfold lift; by rewrite (getitem_Some _ _ _ Hp0)).
      rewrite (bind_Ok _ _ _ _ _ Hs0), (bind_Ok _ _ _ _ _ Hr).
      erewrite bind_Ok by done. rewrite Hci.
      destruct Hv as (_ & Hne & _).
      destruct (clustering.centers s_last) as [|c cs]; [done |].
      erewrite bind_Raise; [done |]. apply print_points_KeyError.
    + done.
  - destruct (cluster_numpy_run pts Max_iterations clusters g out p0)
      as (s0 & s_last & Hs0 & _ & Hv & _ & Hout & _ & _ & Hr & Hci & _);
      [done.. |].
    eexists. split.
    + unfold clustering_numpy.cluster_numpy. erewrite bind_Ok by done. simpl.
      rewrite decide_False by lia.
      erewrite bind_Ok by (unfold lift; by rewrite (getitem_Some _ _ _ Hp0)).
      rewrite (bind_Ok _ _ _ _ _ Hs0), (bind_Ok _ _ _ _ _ Hr).
      erewrite bind_Ok by done. rewrite Hci.
      destruct Hv as (_ & Hne).
      destruct (clustering_numpy.centers s_last) as [|c cs]; [done |].
      erewrite bind_Raise; [done |]. apply np_print_points_KeyError.
    + done.
Qed.

(** The update step of [cluster] leaves the centre of a cluster without
    points as it is. *)
Lemma update_keeps_empty_cluster Max_iterations clusters dimension s c :
  valid clusters dimension s →
  select (clustering.points_list s) (allocation clusters dimension s) c = [] →
  clustering.pass Max_iterations clusters dimension s
  = (Ok (), next Max_iterations clusters dimension s) ∧
  clustering.centers (next Max_iterations clusters dimension s) !! c
  = clustering.centers s !! c.
Proof.
  intros Hv Hsel. split; [by apply pass_next |].
  unfold next, updated_centers. simpl. rewrite list_lookup_imap.
  destruct (clustering.centers s !! c) as [x|]; [| done]. simpl.
  unfold new_center. by rewrite Hsel.
Qed.

(** C2, as the code has it.  In a pass in which a cluster receives no
    point, [cluster] leaves its centre as it is, and [cluster_numpy]
    replaces it: the mean of no rows is NaN in each of the [dimension]
    coordinates, and line 52 stores it. *)
Theorem empty_cluster_centre Max_iterations clusters dimension c s sn :
  valid clusters dimension s → np_valid clusters sn →
  (c < Z.to_nat clusters)%nat →
  select (clustering.points_list s) (allocation clusters dimension s) c = [] →
  select (clustering_numpy.points_array sn) (np_allocation sn) c = [] →
  (clustering.pass Max_iterations clusters dimension s
   = (Ok (), next Max_iterations clusters dimension s) ∧
   clustering.centers (next Max_iterations clusters dimension s) !! c
   = clustering.centers s !! c) ∧
  (clustering_numpy.pass Max_iterations clusters dimension sn
   = (Ok (), np_next Max_iterations dimension sn) ∧
   clustering_numpy.centers (np_next Max_iterations dimension sn) !! c
   = Some (replicate dimension None)).
Proof.
  intros Hv Hvn Hc Hsel Hseln. split.
  - by apply update_keeps_empty_cluster.
  - split; [by eapply np_pass_next |].
    unfold np_next, np_updated_centers. simpl. rewrite list_lookup_imap.
    destruct Hvn as (HK & _). unfold len in HK.
    destruct (lookup_lt_is_Some_2 (clustering_numpy.centers sn) c) as [x ->];
      [lia |].
    simpl. unfold new_mean. rewrite Hseln. f_equal.
    unfold clustering_numpy.np_mean.
    transitivity (replicate (length (seq 0 dimension)) (@None num));
      [| by rewrite length_seq].
    induction (seq 0 dimension) as [|i l IH]; [done |].
    simpl. by rewrite <- IH.
Qed.
(** C7, as the code has it.  For every valid input the initialiser of
    [cluster] calls [randrange(N)] once for every centre, one call after the
    other on the generator of the module, and takes the point at each index
    drawn: nothing keeps an index from being drawn twice.  The initialiser
    of [cluster_numpy] takes the points at the [K] indices of one call of
    [choice] without replacement, which are distinct.  In both the generator
    of the module is the only source of randomness: its state determines
    the centres and the state it is left in (there is no seed parameter). *)
Theorem initial_centres_are_drawn_points (pts : list (list num)) clusters g
    out p0 :
  pts !! 0%nat = Some p0 →
  Forall (fun p => length p = length p0) pts →
  1 ≤ clusters ≤ len pts →
  (∃ s0,
     clustering.initial_centers clusters (clustering.call pts g out)
     = (Ok (), s0) ∧
     clustering.rng s0 = (draws (Z.to_nat clusters) (length pts) g).2 ∧
     length (draws (Z.to_nat clusters) (length pts) g).1
     = Z.to_nat clusters ∧
     Forall (fun i => i < length pts)%nat
            (draws (Z.to_nat clusters) (length pts) g).1 ∧
     Forall2 (fun i c => pts !! i = Some c)
             (draws (Z.to_nat clusters) (length pts) g).1
             (clustering.centers s0)) ∧
  (∃ s0 indices,
     clustering_numpy.initial_centers clusters (length p0)
       (clustering_numpy.call pts g out) = (Ok (), s0) ∧
     indices = (choice (length pts) (Z.to_nat clusters) g).1 ∧
     clustering_numpy.rng s0
     = (choice (length pts) (Z.to_nat clusters) g).2 ∧
     length indices = Z.to_nat clusters ∧ NoDup indices ∧
     Forall2 (fun i c => (clustering_numpy.of_point <$> pts) !! i = Some c)
             indices (clustering_numpy.centers s0)).
Proof.
  intros Hp0 Hdim HK. unfold len in HK. split.
  - destruct (initial_centers_draws clusters (clustering.call pts g out))
      as (cs & Hs0 & HF); [by destruct pts |].
    simpl in *. eexists. split_and!; [done | done | | | done].
    + apply draws_length.
    + apply draws_lt. lia.
  - destruct (np_initial_centers_eq clusters (length p0)
                (clustering_numpy.call pts g out))
      as (s0 & indices & Hs0 & _ & _ & _ & _ & Harr & Hix & HF);
      [done | simpl; unfold len; lia |].
    pose proof (np_initial_centers_rng clusters (length p0)
                  (clustering_numpy.call pts g out)) as Hrng.
    rewrite Hs0 in Hrng. simpl in *. rewrite Harr in HF.
    exists s0, indices. split_and!; [done | done | | | | done].
    + apply Hrng; [done | unfold len; lia].
    + rewrite Hix. apply choice_length. lia.
    + rewrite Hix. apply choice_NoDup. lia.
Qed.
End specification.

(** * The example scenario, in exact arithmetic *)

Module scenario.
Import exact.

Definition points : list (list Q) := [[0; 0]; [0; 1]; [10; 10]; [10; 11]]%Q.

(** Cluster 0 is [{(0,0), (0,1)}] centred at [(0, 0.5)], cluster 1 is
    [{(10,10), (10,11)}] centred at [(10, 10.5)]. *)
Definition expected : dict Q :=
  [(0%nat, entry [0; 1 # 2]%Q [[0; 0]; [0; 1]]%Q);
   (1%nat, entry [10; 21 # 2]%Q [[10; 10]; [10; 11]]%Q)].

Definition expected_numpy : dict (option Q) :=
  [(0%nat, entry (Some <$> [0; 1 # 2]%Q)
             ((fun p : list Q => Some <$> p) <$> [[0; 0]; [0; 1]]%Q));
   (1%nat, entry (Some <$> [10; 21 # 2]%Q)
             ((fun p : list Q => Some <$> p) <$> [[10; 10]; [10; 11]]%Q))].

(** On tuples of floats, [(0.0, 0.0)], [(0.0, 1.0)], [(10.0, 10.0)] and
    [(10.0, 11.0)], with [K = 2] and [M = 5]: whenever the initialiser leaves
    the centres [(0,0)] and [(10,10)], the call returns cluster 0 with the
    members [(0,0)] and [(0,1)] and the centre [(0, 0.5)], and cluster 1 with
    the members [(10,10)] and [(10,11)] and the centre [(10, 10.5)].  This
    holds for [cluster] and for [cluster_numpy], whatever the random
    generator is. *)
Lemma example_scenario_on_floats {RN : Random} (g1 g2 : rng_state) out :
  clustering.centers
    (clustering.initial_centers 2 (clustering.call points g1 out)).2
  = [[0; 0]; [10; 10]]%Q →
  clustering_numpy.centers
    (clustering_numpy.initial_centers 2 2
       (clustering_numpy.call points g2 out)).2
  = [[Some 0; Some 0]; [Some 10; Some 10]]%Q →
  (∃ s', clustering.cluster 5 2 false (clustering.call points g1 out)
         = (Ok (Some expected), s')) ∧
  (∃ s', clustering_numpy.cluster_numpy 5 2 false
           (clustering_numpy.call points g2 out)
         = (Ok (Some expected_numpy), s')).
Proof.
  intros H1 H2. split.
  - destruct (cluster_run (AR := arith) points 5 2 g1 out [0; 0]%Q)
      as (s0 & s_last & Hs0 & _ & _ & Hpts & _ & _ & _ & Hci & Hrun & Hlast);
      [reflexivity | vm_compute; intuition discriminate | lia
      | repeat constructor |].
    change (length [0; 0]%Q) with 2%nat in *.
    destruct (initial_centers_eq 2 (clustering.call (AR := arith) points g1 out))
      as (s0' & Hs0' & E1 & E2 & E3 & E4 & _); [done |].
    rewrite Hs0 in Hs0'. injection Hs0' as <-.
    rewrite Hs0 in H1.
    destruct s0 as [pts g' out' cs ci it]. simpl in H1, E1, E2, E3, E4.
    subst pts out' cs ci it.
    eexists. rewrite Hrun, Hci. do 3 f_equal.
    assert (clustering.centers s_last = [[0; 1 # 2]; [10; 21 # 2]]%Q) as ->
      by (rewrite Hlast; vm_compute; reflexivity).
    assert (allocation 2 2 s_last = [0; 0; 1; 1]%nat) as ->
      by (rewrite Hlast; vm_compute; reflexivity).
    unfold expected, recorded. cbn [imap compose].
    repeat f_equal; vm_compute; reflexivity.
  - destruct (cluster_numpy_run (AR := arith) points 5 2 g2 out [0; 0]%Q)
      as (s0 & s_last & Hs0 & _ & _ & _ & _ & _ & _ & _ & Hci & Hrun & Hlast);
      [reflexivity | vm_compute; intuition discriminate | lia
      | repeat constructor |].
    change (length [0; 0]%Q) with 2%nat in *.
    destruct (np_initial_centers_eq 2 2
                (clustering_numpy.call (AR := arith) points g2 out))
      as (s0' & ix & Hs0' & E1 & E2 & E3 & E4 & E5 & _);
      [by repeat constructor | done |].
    rewrite Hs0 in Hs0'. injection Hs0' as <-.
    rewrite Hs0 in H2.
    destruct s0 as [pts g' out' arr cs ci it]. simpl in H2, E1, E2, E3, E4, E5.
    subst pts out' arr cs ci it.
    eexists. rewrite Hrun, Hci. do 3 f_equal.
    assert (clustering_numpy.centers s_last
            = [[Some 0; Some (1 # 2)]; [Some 10; Some (21 # 2)]]%Q) as ->
      by (rewrite Hlast; vm_compute; reflexivity).
    assert (np_allocation s_last = [0; 0; 1; 1]%nat) as ->
      by (rewrite Hlast; vm_compute; reflexivity).
    unfold expected_numpy, np_recorded. cbn [imap compose].
    repeat f_equal; vm_compute; reflexivity.
Qed.

(** What a call returned: for every key, the centre and the members. *)
Definition summary {X : Type} (info : dict X)
  : list (nat * option (list X) * list (list X)) :=
  (fun kd : nat * dic X => (kd.1, center kd.2, members kd.2)) <$> info.

Definition returned {X S : Type} (r : outcome (option (dict X)) * S)
  : option (list (nat * option (list X) * list (list X))) :=
  match r.1 with
  | Ok (Some info) => Some (summary info)
  | _ => None
  end.

(** Three points on a line, two of them equal. *)
Definition line : list (list Q) := [[0]; [0]; [3]]%Q.

Lemma cluster_result_partitions_witness :
  (∃ info s',
     clustering.cluster 5 2 false (clustering.call points [0; 2]%nat [])
     = (Ok (Some info), s') ∧
     partitions 2 points info) ∧
  (∃ info s',
     clustering_numpy.cluster_numpy 5 2 false
       (clustering_numpy.call points [0; 1]%nat []) = (Ok (Some info), s') ∧
     partitions 2 (clustering_numpy.of_point <$> points) info).
Proof.
  split.
  - apply (cluster_result_partitions (AR := arith) (RN := random) points 5 2
             [0; 2]%nat [] [0; 0]%Q);
      [reflexivity | repeat constructor | vm_compute; intuition discriminate
      | lia].
  - apply (cluster_result_partitions (AR := arith) (RN := random) points 5 2
             [0; 1]%nat [] [0; 0]%Q);
      [reflexivity | repeat constructor | vm_compute; intuition discriminate
      | lia].
Defined.

Lemma assignment_nearest_lowest_witness :
  ∃ alloc,
    Forall2 (nearest_lowest 2 [[0; 0]; [10; 10]]%Q) points alloc ∧
    mapM (fun point =>
            clustering.find_best_cluster 2 point [[0; 0]; [10; 10]]%Q 2)
         points = Ok alloc ∧
    clustering_numpy.Calculate_index
      (clustering_numpy.of_point <$> points)
      (clustering_numpy.of_point <$> [[0; 0]; [10; 10]]%Q) = Ok alloc.
Proof.
  apply (assignment_nearest_lowest (AR := arith) 2 points
           [[0; 0]; [10; 10]]%Q);
    [discriminate | repeat constructor | repeat constructor].
Defined.


Lemma textual_summary_raises_KeyError_witness :
  (∃ s', clustering.cluster 5 2 true (clustering.call points [0; 2]%nat [])
         = (Raise KeyError, s') ∧ clustering.stdout s' = []) ∧
  (∃ s', clustering_numpy.cluster_numpy 5 2 true
           (clustering_numpy.call points [0; 2]%nat [])
         = (Raise KeyError, s') ∧ clustering_numpy.stdout s' = []).
Proof.
  apply (textual_summary_raises_KeyError (AR := arith) (RN := random) points
           5 2 [0; 2]%nat [] [0; 0]%Q);
    [reflexivity | repeat constructor | vm_compute; intuition discriminate
    | lia].
Defined.

Lemma too_many_clusters_rejected_witness :
  clustering.cluster 5 4 false (clustering.call line [0; 1]%nat [])
  = (Raise ValueError, clustering.call line [0; 1]%nat []) ∧
  clustering_numpy.cluster_numpy 5 4 false
    (clustering_numpy.call line [0; 1]%nat [])
  = (Raise ValueError, clustering_numpy.call line [0; 1]%nat []).
Proof.
  apply (too_many_clusters_rejected (AR := arith) (RN := random) line 5 4
           false [0; 1]%nat []).
  reflexivity.
Defined.

(** C3 fails as it is stated.  With an iteration budget of [0], one point
    and one cluster, the configuration is one that the claim calls invalid;
    the call does not raise: it chooses a centre, drawing from the
    generator, runs no pass and returns the empty dictionary.  This holds
    for [cluster] and for [cluster_numpy]. *)
Lemma zero_iterations_not_rejected :
  (1 > len [[0%Q]] ∨ 1 ≤ 0 ∨ 0 ≤ 0) ∧
  clustering.cluster 0 1 false (clustering.call [[0%Q]] [0]%nat [])
  = (Ok (Some []), clustering.Store [[0%Q]] [] [] [[0%Q]] [] 0) ∧
  clustering_numpy.cluster_numpy 0 1 false
    (clustering_numpy.call [[0%Q]] [0]%nat [])
  = (Ok (Some []),
     clustering_numpy.Store [[0%Q]] [] [] [[Some 0%Q]] [[Some 0%Q]] [] 0).
Proof. split_and!; [right; right; lia | reflexivity | reflexivity]. Qed.

(** C7 at the draws [1], [1].  [cluster] draws each initial centre with
    [randrange], independently of the centres drawn before: when the
    generator gives the index [1] twice, the two initial centres are the same
    input point, the one at index [1], and the indices drawn are not
    distinct.  ([cluster_numpy], on the same points and the same generator,
    draws the two distinct indices [1] and [0].) *)
Lemma initial_centres_drawn_with_replacement :
  (randrange 2 [1; 1]%nat).1 = 1%nat ∧
  (randrange 2 (randrange 2 [1; 1]%nat).2).1 = 1%nat ∧
  clustering.initial_centers 2 (clustering.call [[0]; [1]]%Q [1; 1]%nat [])
  = (Ok (), clustering.Store [[0]; [1]]%Q [] [] [[1]; [1]]%Q [] 0) ∧
  clustering_numpy.initial_centers 2 1
    (clustering_numpy.call [[0]; [1]]%Q [1; 1]%nat [])
  = (Ok (),
     clustering_numpy.Store [[0]; [1]]%Q [] [] [[Some 0]; [Some 1]]%Q
       [[Some 1]; [Some 0]]%Q [] 0).
Proof. split_and!; reflexivity. Qed.

Lemma initial_centres_are_drawn_points_witness :
  (∃ s0,
     clustering.initial_centers 2
       (clustering.call [[0]; [1]]%Q [1; 1]%nat []) = (Ok (), s0) ∧
     clustering.rng s0 = [] ∧
     length [1; 1]%nat = 2%nat ∧
     Forall (fun i => i < 2)%nat [1; 1]%nat ∧
     Forall2 (fun i c => [[0]; [1]]%Q !! i = Some c) [1; 1]%nat
             (clustering.centers s0)) ∧
  (∃ s0 indices,
     clustering_numpy.initial_centers 2 1
       (clustering_numpy.call [[0]; [1]]%Q [1; 1]%nat []) = (Ok (), s0) ∧
     indices = [1; 0]%nat ∧
     clustering_numpy.rng s0 = [] ∧
     length indices = 2%nat ∧ NoDup indices ∧
     Forall2 (fun i c =>
                (clustering_numpy.of_point <$> [[0]; [1]]%Q) !! i = Some c)
             indices (clustering_numpy.centers s0)).
Proof.
  apply (initial_centres_are_drawn_points (AR := arith) (RN := random)
           [[0]; [1]]%Q 2 [1; 1]%nat [] [0]%Q);
    [reflexivity | repeat constructor | vm_compute; intuition discriminate].
Defined.

Lemma empty_cluster_centre_witness :
  (clustering.pass 1 2 1 (clustering.Store line [] [] [[0]; [0]]%Q [] 0)
   = (Ok (), next 1 2 1 (clustering.Store line [] [] [[0]; [0]]%Q [] 0)) ∧
   clustering.centers
     (next 1 2 1 (clustering.Store line [] [] [[0]; [0]]%Q [] 0)) !! 1%nat
   = clustering.centers (clustering.Store line [] [] [[0]; [0]]%Q [] 0)
       !! 1%nat) ∧
  (clustering_numpy.pass 1 2 1
     (clustering_numpy.Store line [] []
        (clustering_numpy.of_point <$> line) [[Some 0]; [Some 0]]%Q [] 0)
   = (Ok (),
      np_next 1 1
        (clustering_numpy.Store line [] []
           (clustering_numpy.of_point <$> line) [[Some 0]; [Some 0]]%Q [] 0)) ∧
   clustering_numpy.centers
     (np_next 1 1
        (clustering_numpy.Store line [] []
           (clustering_numpy.of_point <$> line) [[Some 0]; [Some 0]]%Q [] 0))
     !! 1%nat
   = Some (replicate 1 None)).
Proof.
  apply (empty_cluster_centre (AR := arith) (RN := random) 1 2 1 1).
  - split_and!; [reflexivity | discriminate | repeat constructor..].
  - split; [reflexivity | discriminate].
  - simpl. lia.
  - reflexivity.
  - reflexivity.
Defined.

(** The points of the example as the specification writes them, tuples of
    integers. *)
Definition integer_points : list (list Z) :=
  [[0; 0]; [0; 1]; [10; 10]; [10; 11]].

(** C8, as the code has it.  On the points [(0,0)], [(0,1)], [(10,10)] and
    [(10,11)] with [K = 2] and [M = 5], both implementations start from the
    centres [(0,0)] and [(10,10)] and both return the members that the
    specification gives.  [cluster] returns the centres [(0, 0.5)] and
    [(10, 10.5)] (on integers Python's arithmetic and the division of
    [mid_point] give the numbers of [Arith]).  [cluster_numpy] builds an
    array of integers from these tuples, and the means that it stores in
    [centers] are truncated: it returns the centres [[0, 0]] and [[10, 10]].
    On the same points written as floats it returns the centres [(0, 0.5)]
    and [(10, 10.5)]. *)
Theorem example_scenario_on_integers :
  clustering.centers
    (clustering.initial_centers 2 (clustering.call points [0; 2]%nat [])).2
  = [[0; 0]; [10; 10]]%Q ∧
  clustering_numpy_int64.centers
    (clustering_numpy_int64.initial_centers 2 2
       (clustering_numpy_int64.call integer_points [0; 1]%nat [])).2
  = [[0; 0]; [10; 10]] ∧
  returned (clustering.cluster 5 2 false
              (clustering.call points [0; 2]%nat []))
  = Some [(0%nat, Some [0; 1 # 2], [[0; 0]; [0; 1]]);
          (1%nat, Some [10; 21 # 2], [[10; 10]; [10; 11]])]%Q ∧
  returned (clustering_numpy_int64.cluster_numpy 5 2 false
              (clustering_numpy_int64.call integer_points [0; 1]%nat []))
  = Some [(0%nat, Some [0; 0], [[0; 0]; [0; 1]]);
          (1%nat, Some [10; 10], [[10; 10]; [10; 11]])] ∧
  returned (clustering_numpy.cluster_numpy 5 2 false
              (clustering_numpy.call points [0; 1]%nat []))
  = Some [(0%nat, Some [Some 0; Some (1 # 2)],
           [[Some 0; Some 0]; [Some 0; Some 1]]);
          (1%nat, Some [Some 10; Some (21 # 2)],
           [[Some 10; Some 10]; [Some 10; Some 11]])]%Q.
Proof. split_and!; vm_compute; reflexivity. Qed.

(** C1, as the code has it.  On the points [0], [0] and [3] with [K = 2]
    and [M = 2], both implementations start from the centres [0] and [0].
    The first pass gives every point to cluster 0; [cluster] keeps the
    centre of cluster 1 and [cluster_numpy] makes it NaN.  In the second
    pass [cluster] gives [3] to cluster 0 and the other points to cluster 1,
    and [cluster_numpy], for which NaN is the minimum, gives every point to
    cluster 1 and makes the centre of cluster 0 NaN. *)
Theorem parity_fails_after_empty_cluster :
  clustering.centers
    (clustering.initial_centers 2 (clustering.call line [0; 1]%nat [])).2
  = [[0]; [0]]%Q ∧
  clustering_numpy.centers
    (clustering_numpy.initial_centers 2 1
       (clustering_numpy.call line [0; 0]%nat [])).2
  = [[Some 0]; [Some 0]]%Q ∧
  returned (clustering.cluster 2 2 false
              (clustering.call line [0; 1]%nat []))
  = Some [(0%nat, Some [3], [[3]]);
          (1%nat, Some [0], [[0]; [0]])]%Q ∧
  returned (clustering_numpy.cluster_numpy 2 2 false
              (clustering_numpy.call line [0; 0]%nat []))
  = Some [(0%nat, Some [None], []);
          (1%nat, Some [Some 1%Q], [[Some 0]; [Some 0]; [Some 3]]%Q)].
Proof. split_and!; vm_compute; reflexivity. Qed.
End scenario.

(** * Further properties of the clustering code *)

(** ** What a computation never does *)

(** The outcome is not the exception [e]. *)
Definition not_raised {A : Type} (e : exn) (o : outcome A) : Prop := o ≠ Raise e.

Lemma not_raised_bind {A B : Type} e (o : outcome A) (k : A → outcome B) :
  not_raised e o → (∀ a, not_raised e (k a)) → not_raised e (o ≫= k).
Proof.
  unfold not_raised, mbind, outcome_bind.
  destruct o as [a | e' |]; intros Ho Hk; [apply Hk | congruence | congruence].
Qed.

Lemma not_raised_mapM {A B : Type} e (f : A → outcome B) (l : list A) :
  (∀ x, x ∈ l → not_raised e (f x)) → not_raised e (mapM f l).
Proof.
  induction l as [|x l IH]; intros Hf; [unfold not_raised; discriminate |].
  cbn [mapM]. apply not_raised_bind; [apply Hf; left |]. intros y.
  apply not_raised_bind; [apply IH; intros z Hz; apply Hf; by right |].
  intros k. unfold not_raised. discriminate.
Qed.

Lemma not_raised_getitem {A : Type} e (l : list A) i :
  e ≠ IndexError → not_raised e (getitem l i).
Proof. unfold getitem, not_raised. destruct (l !! i); congruence. Qed.

(** A computation never ends with the exception [e], and never runs out of
    fuel. *)
Definition never {S A : Type} (e : exn) (m : py S A) : Prop :=
  ∀ s, (m s).1 ≠ Raise e.
Definition fuelled {S A : Type} (m : py S A) : Prop :=
  ∀ s, (m s).1 ≠ OutOfFuel.

Section never.
Context {S : Type} (e : exn).

Lemma never_bind {A B} (m : py S A) (k : A → py S B) :
  never e m → (∀ a, never e (k a)) → never e (m ≫= k).
Proof.
  intros Hm Hk s. unfold mbind, py_bind. specialize (Hm s).
  destruct (m s) as [[a | e' |] s']; simpl in *; [apply Hk | congruence..].
Qed.

Lemma never_for {B} (l : list B) (body : B → py S ()) :
  (∀ x, never e (body x)) → never e (for_ l body).
Proof.
  intros Hbody. induction l as [|x l IH]; simpl; [intros s; discriminate |].
  apply never_bind; [apply Hbody | intros _; apply IH].
Qed.

Lemma never_while fuel (cond : S → bool) (body : py S ()) :
  never e body → never e (while_ fuel cond body).
Proof.
  intros Hbody. induction fuel as [|fuel IH]; intros s; simpl.
  - destruct (cond s); simpl; congruence.
  - destruct (cond s); [| simpl; congruence].
    apply (never_bind body (fun _ => while_ fuel cond body)); [done |].
    intros _; apply IH.
Qed.

Lemma never_lift {A} (o : outcome A) : not_raised e o → never e (lift o : py S A).
Proof. intros Ho s. apply Ho. Qed.
End never.

Section fuelled.
Context {S : Type}.

Lemma fuelled_bind {A B} (m : py S A) (k : A → py S B) :
  fuelled m → (∀ a, fuelled (k a)) → fuelled (m ≫= k).
Proof.
  intros Hm Hk s. unfold mbind, py_bind. specialize (Hm s).
  destruct (m s) as [[a | e' |] s']; simpl in *; [apply Hk | congruence..].
Qed.

Lemma fuelled_for {B} (l : list B) (body : B → py S ()) :
  (∀ x, fuelled (body x)) → fuelled (for_ l body).
Proof.
  intros Hbody. induction l as [|x l IH]; simpl; [intros s; discriminate |].
  apply fuelled_bind; [apply Hbody | intros _; apply IH].
Qed.

(** A loop whose body adds one to a counter each time it succeeds ends
    within the fuel that is the distance of the counter to the bound. *)
Lemma fuelled_while (counter : S → Z) (M : Z) (body : py S ()) :
  fuelled body →
  (∀ s s', body s = (Ok (), s') → counter s' = counter s + 1) →
  ∀ fuel s, M - counter s ≤ Z.of_nat fuel →
    (while_ fuel (fun s => bool_decide (counter s < M)) body s).1 ≠ OutOfFuel.
Proof.
  intros Hf Hstep fuel. induction fuel as [|fuel IH]; intros s Hs; simpl.
  - rewrite bool_decide_eq_false_2 by lia. simpl. congruence.
  - destruct (bool_decide (counter s < M)); [| simpl; congruence].
    unfold mbind, py_bind. specialize (Hf s). specialize (Hstep s).
    destruct (body s) as [[[] | e' |] s']; simpl in *; [| congruence..].
    apply IH. rewrite (Hstep s' eq_refl). lia.
Qed.
End fuelled.

Lemma outcome_of_lift {S A : Type} (o : outcome A) :
  o ≠ OutOfFuel → fuelled (lift o : py S A).
Proof. intros Ho s. apply Ho. Qed.

Lemma bind_not_fuel {A B : Type} (o : outcome A) (k : A → outcome B) :
  o ≠ OutOfFuel → (∀ a, k a ≠ OutOfFuel) → o ≫= k ≠ OutOfFuel.
Proof.
  unfold mbind, outcome_bind.
  destruct o as [a | e' |]; intros Ho Hk; [apply Hk | congruence | congruence].
Qed.

Lemma mapM_not_fuel {A B : Type} (f : A → outcome B) (l : list A) :
  (∀ x, f x ≠ OutOfFuel) → mapM f l ≠ OutOfFuel.
Proof.
  intros Hf. induction l as [|x l IH]; [discriminate |].
  cbn [mapM]. apply bind_not_fuel; [done |]. intros y.
  apply bind_not_fuel; [done |]. intros k. discriminate.
Qed.

Lemma foldl_m_not_fuel {A B : Type} (f : A → B → outcome A) (l : list B) :
  (∀ a x, f a x ≠ OutOfFuel) → ∀ a, foldl_m f a l ≠ OutOfFuel.
Proof.
  intros Hf. induction l as [|x l IH]; intros a; [discriminate |].
  simpl. apply bind_not_fuel; [done | done].
Qed.

Lemma getitem_not_fuel {A : Type} (l : list A) i : getitem l i ≠ OutOfFuel.
Proof. unfold getitem. destruct (l !! i); congruence. Qed.

Lemma not_raised_foldl_m {A B : Type} e (f : A → B → outcome A) (l : list B) :
  (∀ a x, not_raised e (f a x)) → ∀ a, not_raised e (foldl_m f a l).
Proof.
  intros Hf. induction l as [|x l IH]; intros a; [unfold not_raised; discriminate |].
  simpl. apply not_raised_bind; [done | done].
Qed.

Ltac never_step :=
  lazymatch goal with
  | |- never _ (mbind _ _) => apply never_bind; [| intros ?]
  | |- never _ (for_ _ _) => apply never_for; intros ?
  | |- never _ (while_ _ _ _) => apply never_while
  | |- never _ (mret _) => intros ?; discriminate
  | |- never _ (raise _) => intros ?; simpl; congruence
  | |- never _ (gets _) => intros ?; discriminate
  | |- never _ (modify _) => intros ?; discriminate
  | |- never _ (lift _) => apply never_lift
  | |- never _ (if ?b then _ else _) => destruct b
  | |- never _ (let '(_, _) := ?p in _) => destruct p
  | |- never _ (match ?p with (_, _) => _ end) => destruct p
  end.

Ltac fuelled_step :=
  lazymatch goal with
  | |- fuelled (mbind _ _) => apply fuelled_bind; [| intros ?]
  | |- fuelled (for_ _ _) => apply fuelled_for; intros ?
  | |- fuelled (mret _) => intros ?; discriminate
  | |- fuelled (raise _) => intros ?; discriminate
  | |- fuelled (gets _) => intros ?; discriminate
  | |- fuelled (modify _) => intros ?; discriminate
  | |- fuelled (lift _) => apply outcome_of_lift
  | |- fuelled (if ?b then _ else _) => destruct b
  | |- fuelled (let '(_, _) := ?p in _) => destruct p
  | |- fuelled (match ?p with (_, _) => _ end) => destruct p
  end.

(** ** The exceptions of [cluster] *)

Section scalar_exceptions.
Context {AR : Arith} {RN : Random} {ST : Str num}.
Import clustering.

Lemma calculate_distance_raises e c p dimension :
  e ≠ IndexError → not_raised e (calculate_distance c p dimension).
Proof.
  intros He. unfold calculate_distance.
  apply not_raised_bind; [| intros ?; unfold not_raised; discriminate].
  apply not_raised_foldl_m. intros a i.
  apply not_raised_bind; [by apply not_raised_getitem |]. intros x.
  apply not_raised_bind; [by apply not_raised_getitem |]. intros y.
  unfold not_raised; discriminate.
Qed.

Lemma py_index_raises e l m : e ≠ ValueError → not_raised e (py_index l m).
Proof.
  intros He. unfold not_raised.
  induction l as [|x l IH]; simpl; [congruence |].
  destruct (feq x m); [discriminate |].
  destruct (py_index l m); simpl; congruence.
Qed.

Lemma find_best_cluster_raises e clusters point cs dimension :
  e ≠ IndexError → e ≠ ValueError →
  not_raised e (find_best_cluster clusters point cs dimension).
Proof.
  intros He1 He2. unfold find_best_cluster.
  apply not_raised_bind.
  - apply not_raised_mapM. intros i _.
    apply not_raised_bind; [by apply not_raised_getitem |]. intros c.
    by apply calculate_distance_raises.
  - intros distance. apply not_raised_bind.
    + unfold py_min, not_raised. destruct distance; congruence.
    + intros m. by apply py_index_raises.
Qed.

(** [mid_point] divides by the number of points: it raises
    [ZeroDivisionError] for no points only. *)
Lemma mid_point_raises e points dimension :
  e ≠ IndexError → (e = ZeroDivisionError → points ≠ []) →
  not_raised e (mid_point points dimension).
Proof.
  intros He1 He2. unfold mid_point.
  apply not_raised_mapM. intros i _.
  apply not_raised_bind.
  - apply not_raised_mapM. intros p _. by apply not_raised_getitem.
  - intros column. unfold not_raised.
    destruct (decide (length points = 0%nat)) as [Hl|Hl]; [| discriminate].
    intros [= <-]. apply He2; [done |]. by destruct points.
Qed.

Lemma cluster_never e Max_iterations clusters output_print :
  e ≠ IndexError → e ≠ ValueError → (e = KeyError → output_print = false) →
  never e (cluster Max_iterations clusters output_print).
Proof.
  intros He1 He2 He3.
  unfold cluster, initial_centers, refine, pass, update, update_cluster,
    assignment, assign_center, rand_point.
  repeat never_step.
  all: try by apply not_raised_getitem.
  - apply not_raised_mapM. intros p _. by apply find_best_cluster_raises.
  - apply mid_point_raises; [done |]. intros _ Hnil.
    match goal with H : length _ ≠ 0%nat |- _ => apply H end.
    by rewrite Hnil.
  - assert (e ≠ KeyError) as Hne by (intros ->; by specialize (He3 eq_refl)).
    unfold print_points, print. repeat never_step.
    all: unfold getkey, not_raised; destruct (_ !! _); congruence.
Qed.
End scalar_exceptions.

Lemma bind_Ok_inv {S A B : Type} (m : py S A) (k : A → py S B) s b s' :
  (m ≫= k) s = (Ok b, s') → ∃ a s1, m s = (Ok a, s1) ∧ k a s1 = (Ok b, s').
Proof.
  unfold mbind, py_bind. destruct (m s) as [[a | e |] s1]; [| done | done].
  intros Hk. by exists a, s1.
Qed.

Section scalar_termination.
Context {AR : Arith} {RN : Random} {ST : Str num}.
Import clustering.

Lemma calculate_distance_not_fuel c p dimension :
  calculate_distance c p dimension ≠ OutOfFuel.
Proof.
  unfold calculate_distance. apply bind_not_fuel; [| discriminate].
  apply foldl_m_not_fuel. intros a i.
  apply bind_not_fuel; [apply getitem_not_fuel |]. intros x.
  apply bind_not_fuel; [apply getitem_not_fuel |]. discriminate.
Qed.

Lemma find_best_cluster_not_fuel clusters point cs dimension :
  find_best_cluster clusters point cs dimension ≠ OutOfFuel.
Proof.
  unfold find_best_cluster. apply bind_not_fuel.
  - apply mapM_not_fuel. intros i.
    apply bind_not_fuel; [apply getitem_not_fuel |]. intros c.
    apply calculate_distance_not_fuel.
  - intros distance. apply bind_not_fuel.
    + unfold py_min. destruct distance; discriminate.
    + intros m. induction distance as [|x l IH]; simpl; [discriminate |].
      destruct (feq x m); [discriminate |].
      destruct (py_index l m); simpl; congruence.
Qed.

Lemma mid_point_not_fuel points dimension :
  mid_point points dimension ≠ OutOfFuel.
Proof.
  unfold mid_point. apply mapM_not_fuel. intros i.
  apply bind_not_fuel.
  - apply mapM_not_fuel. intros p. apply getitem_not_fuel.
  - intros column. destruct (decide _); discriminate.
Qed.

Lemma pass_fuelled Max_iterations clusters dimension :
  fuelled (pass Max_iterations clusters dimension).
Proof.
  unfold pass, update, update_cluster, assignment, assign_center.
  repeat fuelled_step.
  all: try apply getitem_not_fuel.
  - apply mapM_not_fuel. intros p. apply find_best_cluster_not_fuel.
  - apply mid_point_not_fuel.
Qed.

(** A pass that succeeds adds one to the counter. *)
Lemma pass_counts Max_iterations clusters dimension s s' :
  pass Max_iterations clusters dimension s = (Ok (), s') →
  iteration s' = iteration s + 1.
Proof.
  unfold pass. intros (alloc & s1 & Ha & Hk)%bind_Ok_inv.
  apply bind_Ok_inv in Hk as ([] & s2 & Hu & Hm).
  injection Hm as <-.
  assert (frames iteration (assignment clusters dimension)) as F1.
  { unfold assignment. repeat frames_step. }
  assert (frames iteration
            (update Max_iterations clusters dimension alloc)) as F2.
  { unfold update, update_cluster, assign_center. repeat frames_step. }
  specialize (F1 s). specialize (F2 s1). rewrite Ha in F1. rewrite Hu in F2.
  simpl in *. destruct s2; simpl in *. lia.
Qed.

Lemma refine_fuelled Max_iterations clusters dimension :
  fuelled (refine Max_iterations clusters dimension).
Proof.
  intros s. unfold refine. erewrite bind_Ok by done.
  apply (fuelled_while iteration Max_iterations).
  - apply pass_fuelled.
  - apply pass_counts.
  - destruct s; simpl. lia.
Qed.

Lemma cluster_fuelled Max_iterations clusters output_print :
  fuelled (cluster Max_iterations clusters output_print).
Proof.
  unfold cluster. repeat fuelled_step.
  - apply getitem_not_fuel.
  - unfold initial_centers, rand_point. repeat fuelled_step.
    apply getitem_not_fuel.
  - apply refine_fuelled.
  - unfold print_points, print. repeat fuelled_step.
    all: unfold getkey; destruct (_ !! _); discriminate.
Qed.
End scalar_termination.

Section numpy_exceptions.
Context {AR : Arith} {RN : Random} {ST : Str (option num)}.
Import clustering_numpy.

Lemma argmin_raises e l : e ≠ ValueError → not_raised e (argmin l).
Proof. intros He. unfold not_raised. destruct l as [|[x|] l]; simpl; congruence. Qed.

Lemma Calculate_index_raises e points cs :
  e ≠ ValueError → not_raised e (Calculate_index points cs).
Proof.
  intros He. unfold Calculate_index.
  match goal with
  | |- context [match ?x with [] => _ | _ :: _ => _ end] => destruct x
  end; [unfold not_raised; congruence |].
  apply not_raised_mapM. intros n _. by apply argmin_raises.
Qed.

Lemma Calculate_index_not_fuel points cs :
  Calculate_index points cs ≠ OutOfFuel.
Proof.
  unfold Calculate_index.
  match goal with
  | |- context [match ?x with [] => _ | _ :: _ => _ end] => destruct x
  end; [discriminate |].
  apply mapM_not_fuel. intros n. unfold argmin.
  destruct (column n _) as [|[x|] k]; discriminate.
Qed.

Lemma np_array_raises e points dimension :
  e ≠ ValueError → not_raised e (np_array points dimension).
Proof.
  intros He. unfold np_array, not_raised. destruct (forallb _ _); congruence.
Qed.

Lemma cluster_numpy_never e Max_iterations clusters print_output :
  e ≠ IndexError → e ≠ ValueError → (e = KeyError → print_output = false) →
  never e (cluster_numpy Max_iterations clusters print_output).
Proof.
  intros He1 He2 He3.
  unfold cluster_numpy, initial_centers, refine, pass, update,
    update_cluster, assignment, assign_center.
  repeat never_step.
  all: try by apply not_raised_getitem.
  all: try by apply np_array_raises.
  all: try by apply Calculate_index_raises.
  all: try (apply not_raised_mapM; intros ? _; by apply not_raised_getitem).
  assert (e ≠ KeyError) as Hne by (intros ->; by specialize (He3 eq_refl)).
  unfold print_points, print. repeat never_step.
  all: unfold getkey, not_raised; destruct (_ !! _); congruence.
Qed.

Lemma np_pass_fuelled Max_iterations clusters dimension :
  fuelled (pass Max_iterations clusters dimension).
Proof.
  unfold pass, update, update_cluster, assignment, assign_center.
  repeat fuelled_step.
  all: try apply getitem_not_fuel.
  - apply Calculate_index_not_fuel.
  - apply mapM_not_fuel. intros i. apply getitem_not_fuel.
Qed.

Lemma np_pass_counts Max_iterations clusters dimension s s' :
  pass Max_iterations clusters dimension s = (Ok (), s') →
  iteration s' = iteration s + 1.
Proof.
  unfold pass. intros (alloc & s1 & Ha & Hk)%bind_Ok_inv.
  apply bind_Ok_inv in Hk as ([] & s2 & Hu & Hm).
  injection Hm as <-.
  assert (frames iteration assignment) as F1.
  { unfold assignment. repeat frames_step. }
  assert (frames iteration
            (update Max_iterations clusters dimension alloc)) as F2.
  { unfold update, update_cluster, assign_center. repeat frames_step. }
  specialize (F1 s). specialize (F2 s1). rewrite Ha in F1. rewrite Hu in F2.
  simpl in *. destruct s2; simpl in *. lia.
Qed.

Lemma np_refine_fuelled Max_iterations clusters dimension :
  fuelled (refine Max_iterations clusters dimension).
Proof.
  intros s. unfold refine. erewrite bind_Ok by done.
  apply (fuelled_while iteration Max_iterations).
  - apply np_pass_fuelled.
  - apply np_pass_counts.
  - destruct s; simpl. lia.
Qed.

Lemma cluster_numpy_fuelled Max_iterations clusters print_output :
  fuelled (cluster_numpy Max_iterations clusters print_output).
Proof.
  unfold cluster_numpy. repeat fuelled_step.
  - apply getitem_not_fuel.
  - unfold initial_centers. repeat fuelled_step.
    + unfold np_array. destruct (forallb _ _); discriminate.
    + apply mapM_not_fuel. intros i. apply getitem_not_fuel.
  - apply np_refine_fuelled.
  - unfold print_points, print. repeat fuelled_step.
    all: unfold getkey; destruct (_ !! _); discriminate.
Qed.
End numpy_exceptions.

(** The outcomes that a call can have: a result, or one of the exceptions
    [ValueError], [IndexError] and, when the summary is asked for,
    [KeyError]. *)
Definition possible_outcome {A : Type} (output : bool) (o : outcome A) : Prop :=
  match o with
  | Ok _ => True
  | Raise e => e = ValueError ∨ e = IndexError ∨ (e = KeyError ∧ output = true)
  | OutOfFuel => False
  end.

Section outcomes.
Context {AR : Arith} {RN : Random} {ST : Str num} {STN : Str (option num)}.

(** X1. In the arithmetic of the model, that is on points of floats and
    apart from the [OverflowError] of a square that leaves the range of the
    floats in [calculate_distance]: whatever the arguments and the store, a
    call of [cluster] or of [cluster_numpy] ends (the loop stops after the
    passes that the budget allows), and it returns, or it raises
    [ValueError] or [IndexError], or, only when the summary is asked for,
    [KeyError].  In particular [cluster] never raises the
    [ZeroDivisionError] that its docstring lists: [mid_point] is not called
    for a cluster without points. *)
Theorem cluster_outcomes Max_iterations clusters output s sn :
  possible_outcome output
    (clustering.cluster Max_iterations clusters output s).1 ∧
  possible_outcome output
    (clustering_numpy.cluster_numpy Max_iterations clusters output sn).1.
Proof.
  split.
  - pose proof (cluster_fuelled Max_iterations clusters output s) as Hf.
    pose proof (fun e H1 H2 H3 =>
                  cluster_never e Max_iterations clusters output H1 H2 H3 s)
      as Hn.
    destruct (clustering.cluster Max_iterations clusters output s).1
      as [r | e |]; simpl; [done | | done].
    destruct e; [by left | by right; left | | ].
    + right; right. split; [done |]. destruct output; [done |].
      exfalso. by apply (Hn KeyError).
    + exfalso. by apply (Hn ZeroDivisionError).
  - pose proof (cluster_numpy_fuelled Max_iterations clusters output sn)
      as Hf.
    pose proof (fun e H1 H2 H3 =>
                  cluster_numpy_never e Max_iterations clusters output
                    H1 H2 H3 sn) as Hn.
    destruct (clustering_numpy.cluster_numpy Max_iterations clusters output
                sn).1 as [r | e |]; simpl; [done | | done].
    destruct e; [by left | by right; left | | ].
    + right; right. split; [done |]. destruct output; [done |].
      exfalso. by apply (Hn KeyError).
    + exfalso. by apply (Hn ZeroDivisionError).
Qed.
End outcomes.

(** ** Configurations at the edge *)

Section edges.
Context {AR : Arith} {RN : Random} {ST : Str num} {STN : Str (option num)}.

Lemma refine_no_budget Max_iterations clusters dimension s :
  Max_iterations ≤ 0 →
  clustering.refine Max_iterations clusters dimension s
  = (Ok (), clustering.set_iteration 0 s).
Proof.
  intros HM. unfold clustering.refine. erewrite bind_Ok by done.
  replace (Z.to_nat Max_iterations) with O by lia. cbn [while_].
  rewrite bool_decide_eq_false_2; [done |]. destruct s; simpl. lia.
Qed.

Lemma np_refine_no_budget Max_iterations clusters dimension s :
  Max_iterations ≤ 0 →
  clustering_numpy.refine Max_iterations clusters dimension s
  = (Ok (), clustering_numpy.set_iteration 0 s).
Proof.
  intros HM. unfold clustering_numpy.refine. erewrite bind_Ok by done.
  replace (Z.to_nat Max_iterations) with O by lia. cbn [while_].
  rewrite bool_decide_eq_false_2; [done |]. destruct s; simpl. lia.
Qed.

Lemma cluster_numpy_no_budget (pts : list (list num)) Max_iterations
    clusters output g out p0 :
  pts !! 0%nat = Some p0 →
  Forall (fun p => length p = length p0) pts →
  0 ≤ clusters ≤ len pts → Max_iterations ≤ 0 →
  ∃ s', clustering_numpy.cluster_numpy Max_iterations clusters output
          (clustering_numpy.call pts g out)
        = (Ok (if output then None else Some []), s') ∧
        length (clustering_numpy.centers s') = Z.to_nat clusters ∧
        clustering_numpy.iteration s' = 0 ∧
        clustering_numpy.stdout s' = out.
Proof.
  intros Hp0 Hdim HK HM.
  destruct (np_initial_centers_eq clusters (length p0)
              (clustering_numpy.call pts g out))
    as (s0 & ix & Hs0 & E1 & E2 & E3 & E4 & E5 & E6 & E7);
    [done | simpl; lia |].
  exists (clustering_numpy.set_iteration 0 s0). split.
  + unfold clustering_numpy.cluster_numpy. erewrite bind_Ok by done. simpl.
    rewrite decide_False by lia.
    erewrite bind_Ok by (unfold lift; by rewrite (getitem_Some _ _ _ Hp0)).
    rewrite (bind_Ok _ _ _ _ _ Hs0).
    erewrite bind_Ok by by apply np_refine_no_budget.
    erewrite bind_Ok by done.
    replace (clustering_numpy.clusters_information
               (clustering_numpy.set_iteration 0 s0))
      with (@nil (nat * dic (option num))) by by destruct s0.
    by destruct output.
  + apply Forall2_length in E7. simpl in E6. unfold len in HK.
    pose proof (choice_length (length pts) (Z.to_nat clusters) g) as Hl.
    rewrite <- E6 in Hl. destruct s0; simpl in *.
    split_and!; [lia | done | done].
Qed.

(** X2. With an iteration budget [M <= 0] and [0 <= K <= N] clusters on
    points of one dimension, the call does not fail: it chooses [K] centres,
    runs no pass and returns the empty dictionary, or, when the summary is
    asked for, returns nothing and prints nothing.  This holds for
    [cluster] and for [cluster_numpy]. *)
Theorem no_budget_empty_result (pts : list (list num)) Max_iterations
    clusters output g out p0 :
  pts !! 0%nat = Some p0 →
  Forall (fun p => length p = length p0) pts →
  0 ≤ clusters ≤ len pts → Max_iterations ≤ 0 →
  (∃ s', clustering.cluster Max_iterations clusters output
           (clustering.call pts g out)
         = (Ok (if output then None else Some []), s') ∧
         length (clustering.centers s') = Z.to_nat clusters ∧
         clustering.iteration s' = 0 ∧ clustering.stdout s' = out) ∧
  (∃ s', clustering_numpy.cluster_numpy Max_iterations clusters output
           (clustering_numpy.call pts g out)
         = (Ok (if output then None else Some []), s') ∧
         length (clustering_numpy.centers s') = Z.to_nat clusters ∧
         clustering_numpy.iteration s' = 0 ∧
         clustering_numpy.stdout s' = out).
Proof.
  intros Hp0 Hdim HK HM. split.
  - destruct (initial_centers_eq clusters (clustering.call pts g out))
      as (s0 & Hs0 & E1 & E2 & E3 & E4 & E5 & _); [by destruct pts |].
    exists (clustering.set_iteration 0 s0). split.
    + unfold clustering.cluster. erewrite bind_Ok by done. simpl.
      rewrite decide_False by lia.
      erewrite bind_Ok by (unfold lift; by rewrite (getitem_Some _ _ _ Hp0)).
      rewrite (bind_Ok _ _ _ _ _ Hs0).
      erewrite bind_Ok by by apply refine_no_budget.
      erewrite bind_Ok by done.
      replace (clustering.clusters_information (clustering.set_iteration 0 s0))
        with (@nil (nat * dic num)) by by destruct s0.
      by destruct output.
    + by destruct s0.
  - by eapply cluster_numpy_no_budget.
Qed.

Lemma cluster_numpy_no_clusters (pts : list (list num)) Max_iterations
    clusters output g out :
  pts ≠ [] → clusters ≤ 0 → 1 ≤ Max_iterations ∨ clusters < 0 →
  (clustering_numpy.cluster_numpy Max_iterations clusters output
     (clustering_numpy.call pts g out)).1 = Raise ValueError.
Proof.
  intros Hne HK HM. destruct pts as [|p0 pts]; [done |].
  unfold clustering_numpy.cluster_numpy. erewrite bind_Ok by done. simpl.
  rewrite decide_False by (unfold len; simpl; lia).
  erewrite bind_Ok by done.
  unfold clustering_numpy.initial_centers. py_unfold. simpl.
  destruct (clustering_numpy.np_array (p0 :: pts) (length p0))
    as [arr | e |] eqn:Harr; simpl.
  + destruct (decide (clusters < 0)) as [Hneg | Hzero]; [done |].
    assert (1 ≤ Max_iterations) as HM' by lia.
    replace (Z.to_nat clusters) with O by lia.
    pose proof (choice_length (S (length pts)) 0 g) as Hl.
    destruct (choice (S (length pts)) 0 g) as [ix g'] eqn:Hch. simpl in *.
    destruct ix; [| specialize (Hl ltac:(lia)); done]. simpl.
    unfold clustering_numpy.refine.
    replace (Z.to_nat Max_iterations)
      with (S (Z.to_nat (Max_iterations - 1))) by lia.
    py_unfold. simpl. rewrite bool_decide_eq_true_2 by lia.
    unfold clustering_numpy.pass, clustering_numpy.assignment,
      clustering_numpy.Calculate_index.
    py_unfold. simpl. rewrite Hch. simpl. done.
  + unfold clustering_numpy.np_array in Harr.
    destruct (forallb _ _); congruence.
  + unfold clustering_numpy.np_array in Harr.
    destruct (forallb _ _); congruence.
Qed.

(** X3. With [K <= 0] clusters, a budget [M >= 1] and at least one point,
    the call raises [ValueError].  In [cluster] it is raised by [min] of no
    distances in the first pass: no centre has been chosen and the
    generator has not been drawn from. *)
Theorem no_clusters_ValueError (pts : list (list num)) Max_iterations
    clusters output g out :
  pts ≠ [] → clusters ≤ 0 → 1 ≤ Max_iterations →
  clustering.cluster Max_iterations clusters output
    (clustering.call pts g out)
  = (Raise ValueError, clustering.call pts g out) ∧
  (clustering_numpy.cluster_numpy Max_iterations clusters output
     (clustering_numpy.call pts g out)).1 = Raise ValueError.
Proof.
  intros Hne HK HM. destruct pts as [|p0 pts]; [done |]. split.
  - unfold clustering.cluster. erewrite bind_Ok by done. simpl.
    rewrite decide_False by (unfold len; simpl; lia).
    erewrite bind_Ok by done.
    unfold clustering.initial_centers, range.
    replace (Z.to_nat clusters) with O by lia. simpl.
    unfold clustering.refine.
    replace (Z.to_nat Max_iterations) with (S (Z.to_nat (Max_iterations - 1)))
      by lia.
    py_unfold. simpl. rewrite bool_decide_eq_true_2 by lia.
    unfold clustering.pass, clustering.assignment. py_unfold. simpl.
    unfold clustering.find_best_cluster, range.
    replace (Z.to_nat clusters) with O by lia. done.
  - apply cluster_numpy_no_clusters; [done | done | by left].
Qed.

(** X4. On an empty list of points with [K <= 0], the call raises
    [IndexError], from [points_list[0]], and the store is the one of the
    call. *)
Theorem no_points_IndexError Max_iterations clusters output g out :
  clusters ≤ 0 →
  clustering.cluster Max_iterations clusters output
    (clustering.call (@nil (list num)) g out)
  = (Raise IndexError, clustering.call [] g out) ∧
  clustering_numpy.cluster_numpy Max_iterations clusters output
    (clustering_numpy.call (@nil (list num)) g out)
  = (Raise IndexError, clustering_numpy.call [] g out).
Proof.
  intros HK. split.
  - unfold clustering.cluster. erewrite bind_Ok by done. simpl.
    rewrite decide_False by (unfold len; simpl; lia). done.
  - unfold clustering_numpy.cluster_numpy. erewrite bind_Ok by done. simpl.
    rewrite decide_False by (unfold len; simpl; lia). done.
Qed.
End edges.

(** ** What a call leaves alone *)

Section silence.
Context {AR : Arith} {RN : Random} {ST : Str num} {STN : Str (option num)}.

(** X5. A call that returns the dictionary (the print flag is off) writes
    nothing to the output, whatever its arguments and however it ends.
    This holds for [cluster] and for [cluster_numpy]. *)
Theorem silent_without_print_flag Max_iterations clusters s sn :
  clustering.stdout (clustering.cluster Max_iterations clusters false s).2
  = clustering.stdout s ∧
  clustering_numpy.stdout
    (clustering_numpy.cluster_numpy Max_iterations clusters false sn).2
  = clustering_numpy.stdout sn.
Proof.
  split.
  - revert s. change (frames clustering.stdout
                        (clustering.cluster Max_iterations clusters false)).
    unfold clustering.cluster, clustering.initial_centers, clustering.refine,
      clustering.pass, clustering.update, clustering.update_cluster,
      clustering.assignment, clustering.assign_center, clustering.rand_point.
    repeat frames_step.
  - revert sn. change (frames clustering_numpy.stdout
                         (clustering_numpy.cluster_numpy Max_iterations
                            clusters false)).
    unfold clustering_numpy.cluster_numpy, clustering_numpy.initial_centers,
      clustering_numpy.refine, clustering_numpy.pass, clustering_numpy.update,
      clustering_numpy.update_cluster, clustering_numpy.assignment,
      clustering_numpy.assign_center.
    repeat frames_step.
Qed.

(** X6. The refinement loop draws nothing from the random generator: the
    state of the generator after the loop is the one before it, however
    the loop ends.  This holds for [cluster] and for [cluster_numpy]. *)
Theorem refinement_draws_nothing Max_iterations clusters dimension s sn :
  clustering.rng (clustering.refine Max_iterations clusters dimension s).2
  = clustering.rng s ∧
  clustering_numpy.rng
    (clustering_numpy.refine Max_iterations clusters dimension sn).2
  = clustering_numpy.rng sn.
Proof.
  split.
  - revert s. change (frames clustering.rng
                        (clustering.refine Max_iterations clusters dimension)).
    unfold clustering.refine, clustering.pass, clustering.update,
      clustering.update_cluster, clustering.assignment,
      clustering.assign_center.
    repeat frames_step.
  - revert sn. change (frames clustering_numpy.rng
                         (clustering_numpy.refine Max_iterations clusters
                            dimension)).
    unfold clustering_numpy.refine, clustering_numpy.pass,
      clustering_numpy.update, clustering_numpy.update_cluster,
      clustering_numpy.assignment, clustering_numpy.assign_center.
    repeat frames_step.
Qed.
End silence.

(** ** The entries of the result *)

Lemma select_sublist {A : Type} (pts : list A) : ∀ alloc c,
  select pts alloc c `sublist_of` pts.
Proof.
  unfold select. induction pts as [|p pts IH]; intros [|a alloc] c; simpl;
    try apply sublist_nil_l.
  rewrite filter_cons. simpl. destruct (decide (a = c)); simpl.
  - apply sublist_skip, IH.
  - apply sublist_cons, IH.
Qed.

Lemma center_of_entry {X : Type} (c : list X) ps : center (entry c ps) = Some c.
Proof.
  unfold center, entry.
  rewrite lookup_insert_ne by done. by rewrite lookup_insert_eq.
Qed.

Section entries.
Context {AR : Arith} {RN : Random} {ST : Str num} {STN : Str (option num)}.

(** X7. In the result of a valid run on points of floats, the centre
    recorded for a cluster is the centre that the store holds for it after
    the final update, and it is the coordinate-wise mean of the members
    recorded for that cluster: in [cluster] whenever the cluster has a
    member, in [cluster_numpy] always (the mean of no members being NaN).
    (On points of integers [cluster_numpy] records the truncated mean: see
    C8.) *)
Theorem centre_is_mean_of_members (pts : list (list num)) Max_iterations
    clusters g out p0 :
  pts !! 0%nat = Some p0 →
  Forall (fun p => length p = length p0) pts →
  1 ≤ clusters ≤ len pts → 1 ≤ Max_iterations →
  (∃ info s',
     clustering.cluster Max_iterations clusters false
       (clustering.call pts g out) = (Ok (Some info), s') ∧
     ∀ k d, (k, d) ∈ info →
       center d = clustering.centers s' !! k ∧
       (members d ≠ [] →
        center d = Some (centroid (members d) (length p0)))) ∧
  (∃ info s',
     clustering_numpy.cluster_numpy Max_iterations clusters false
       (clustering_numpy.call pts g out) = (Ok (Some info), s') ∧
     ∀ k d, (k, d) ∈ info →
       center d = clustering_numpy.centers s' !! k ∧
       center d = Some (clustering_numpy.np_mean (members d) (length p0))).
Proof.
  intros Hp0 Hdim HK HM. split.
  - destruct (cluster_run pts Max_iterations clusters g out p0)
      as (s0 & s_last & _ & _ & Hv & Hpts & _ & _ & _ & Hci & Hrun & _);
      [done.. | |].
    { eapply Forall_impl; [done |]. intros p Hp. simpl in Hp. lia. }
    eexists _, _. split; [done |]. rewrite Hci.
    intros k d Hin. apply list_elem_of_lookup in Hin as [i Hi].
    apply list_lookup_imap_Some in Hi as (c & Hc & [= <- ->]).
    rewrite center_of_entry, members_entry. split.
    + simpl. unfold updated_centers. rewrite list_lookup_imap, Hc.
      simpl. by rewrite Hpts.
    + intros Hne. unfold new_center.
      by destruct (select pts _ k).
  - destruct (cluster_numpy_run pts Max_iterations clusters g out p0)
      as (s0 & s_last & _ & _ & Hv & _ & _ & Harr & _ & _ & Hci & Hrun & _);
      [done.. |].
    eexists _, _. split; [done |]. rewrite Hci.
    intros k d Hin. apply list_elem_of_lookup in Hin as [i Hi].
    apply list_lookup_imap_Some in Hi as (c & Hc & [= <- ->]).
    rewrite center_of_entry, members_entry. split; [| done].
    simpl. unfold np_updated_centers. rewrite list_lookup_imap, Hc.
    simpl. by rewrite Harr.
Qed.

(** X8. In the result of a valid run, the members of every cluster are in
    the order in which the input lists them: each member list is a
    sublist of the input ([cluster]), or of its rows ([cluster_numpy]). *)
Theorem members_keep_input_order (pts : list (list num)) Max_iterations
    clusters g out p0 :
  pts !! 0%nat = Some p0 →
  Forall (fun p => length p = length p0) pts →
  1 ≤ clusters ≤ len pts → 1 ≤ Max_iterations →
  (∃ info s',
     clustering.cluster Max_iterations clusters false
       (clustering.call pts g out) = (Ok (Some info), s') ∧
     ∀ k d, (k, d) ∈ info → members d `sublist_of` pts) ∧
  (∃ info s',
     clustering_numpy.cluster_numpy Max_iterations clusters false
       (clustering_numpy.call pts g out) = (Ok (Some info), s') ∧
     ∀ k d, (k, d) ∈ info →
       members d `sublist_of` (clustering_numpy.of_point <$> pts)).
Proof.
  intros Hp0 Hdim HK HM. split.
  - destruct (cluster_run pts Max_iterations clusters g out p0)
      as (s0 & s_last & _ & _ & _ & _ & _ & _ & _ & Hci & Hrun & _);
      [done.. | |].
    { eapply Forall_impl; [done |]. intros p Hp. simpl in Hp. lia. }
    eexists _, _. split; [done |]. rewrite Hci.
    intros k d Hin. apply list_elem_of_lookup in Hin as [i Hi].
    apply list_lookup_imap_Some in Hi as (c & Hc & [= <- ->]).
    rewrite members_entry. apply select_sublist.
  - destruct (cluster_numpy_run pts Max_iterations clusters g out p0)
      as (s0 & s_last & _ & _ & _ & _ & _ & _ & _ & _ & Hci & Hrun & _);
      [done.. |].
    eexists _, _. split; [done |]. rewrite Hci.
    intros k d Hin. apply list_elem_of_lookup in Hin as [i Hi].
    apply list_lookup_imap_Some in Hi as (c & Hc & [= <- ->]).
    rewrite members_entry. apply select_sublist.
Qed.
End entries.

(** ** NaN centres in [clustering_numpy.py] *)

Section nan.
Context {AR : Arith} {RN : Random} {ST : Str (option num)}.
Import clustering_numpy.

Lemma argmin_scan_nan (ds : list dist) rest : ∀ m min_ind i,
  argmin_scan m min_ind i ((Some <$> ds) ++ None :: rest) = (i + length ds)%nat.
Proof.
  induction ds as [|x ds IH]; intros m min_ind i; simpl; [lia |].
  destruct (flt x m); rewrite IH; lia.
Qed.

(** [argmin] of a sequence with a NaN is the position of the first NaN. *)
Lemma argmin_first_nan (ds : list dist) rest :
  argmin ((Some <$> ds) ++ None :: rest) = Ok (length ds).
Proof.
  destruct ds as [|m ds]; [done |]. simpl. by rewrite argmin_scan_nan.
Qed.

Lemma np_sum_from_nan (l : list (option num)) : fold_left np_add l None = None.
Proof. induction l as [|x l IH]; [done |]. simpl. apply IH. Qed.

Lemma np_sum_with_nan (l : list (option num)) acc :
  None ∈ l → fold_left np_add l acc = None.
Proof.
  revert acc. induction l as [|x l IH]; intros acc Hin.
  - by apply elem_of_nil in Hin.
  - simpl. apply elem_of_cons in Hin as [<- | Hin].
    + replace (np_add acc None) with (@None num) by by destruct acc.
      apply np_sum_from_nan.
    + by apply IH.
Qed.

(** The distance to a centre with a NaN coordinate is NaN. *)
Lemma norm_nan (p : list num) (c : list (option num)) :
  length c = length p → None ∈ c →
  norm (zip_with np_sub (of_point p) c) = None.
Proof.
  intros Hlen Hin. unfold norm, np_sum. rewrite np_sum_with_nan; [done |].
  apply list_elem_of_lookup in Hin as [i Hi].
  destruct (lookup_lt_is_Some_2 p i) as [x Hx].
  { rewrite <- Hlen. by eapply lookup_lt_Some. }
  apply list_elem_of_lookup. exists i.
  rewrite list_lookup_fmap, lookup_zip_with. unfold of_point.
  rewrite list_lookup_fmap, Hx, Hi. done.
Qed.

(** For a point, the distances to the centres are numbers up to the first
    centre with a NaN coordinate, whose distance is NaN: [argmin] gives
    that centre. *)
Lemma argmin_first_nan_centre dimension (p : list num)
    (before : list (list num)) (c : list (option num))
    (after : list (list (option num))) :
  length p = dimension →
  Forall (fun b => length b = dimension) before →
  length c = dimension → None ∈ c →
  argmin ((fun c' => norm (zip_with np_sub (of_point p) c'))
            <$> ((of_point <$> before) ++ c :: after))
  = Ok (length before).
Proof.
  intros Hpl Hbs Hc Hnan. rewrite fmap_app, fmap_cons.
  rewrite norm_nan by (done || lia).
  rewrite <- list_fmap_compose.
  erewrite (list_fmap_ext _ (fun b => Some (euclid dimension b p))).
  2:{ intros k b Hb. simpl. apply norm_euclid; [done |].
      eapply Forall_forall in Hbs; [done |].
      by eapply list_elem_of_lookup_2. }
  rewrite (list_fmap_compose (fun b => euclid dimension b p) Some).
  rewrite argmin_first_nan. by rewrite length_fmap.
Qed.

(** X9. When one of the centres has a NaN coordinate and the centres before
    it have none, [Calculate_index] gives every point to that centre,
    wherever the points are: for [argmin] a NaN distance is the minimum. *)
Theorem nan_centre_takes_every_point dimension (points before : list (list num))
    (c : list (option num)) (after : list (list (option num))) :
  Forall (fun p => length p = dimension) points →
  Forall (fun b => length b = dimension) before →
  length c = dimension → None ∈ c →
  Calculate_index (of_point <$> points)
    ((of_point <$> before) ++ c :: after)
  = Ok (replicate (length points) (length before)).
Proof.
  intros Hps Hbs Hc Hnan.
  rewrite Calculate_index_unfold by by destruct before.
  rewrite length_fmap.
  rewrite (mapM_Ok _ (fun _ => length before)).
  - f_equal.
    transitivity (replicate (length (seq 0 (length points))) (length before));
      [| by rewrite length_seq].
    induction (seq 0 (length points)) as [|i l IH]; [done |].
    simpl. f_equal. apply IH.
  - intros n [_ Hn]%elem_of_seq.
    destruct (lookup_lt_is_Some_2 points n) as [p Hp]; [lia |].
    erewrite column_fmap by (by rewrite list_lookup_fmap, Hp).
    apply (argmin_first_nan_centre dimension); [| done..].
    eapply Forall_forall in Hps; [done |]. by eapply list_elem_of_lookup_2.
Qed.
End nan.

(** ** Passes after the assignment has settled *)

Section settled.
Context {AR : Arith} {RN : Random} {ST : Str num} {STN : Str (option num)}.

Lemma allocation_ext clusters dimension s s' :
  clustering.points_list s = clustering.points_list s' →
  clustering.centers s = clustering.centers s' →
  allocation clusters dimension s = allocation clusters dimension s'.
Proof.
  intros Hp Hc. unfold allocation, clustering.assignment. py_unfold. simpl.
  by rewrite Hp, Hc.
Qed.

Lemma np_allocation_ext s s' :
  clustering_numpy.points_array s = clustering_numpy.points_array s' →
  clustering_numpy.centers s = clustering_numpy.centers s' →
  np_allocation s = np_allocation s'.
Proof.
  intros Hp Hc. unfold np_allocation, clustering_numpy.assignment.
  py_unfold. simpl. by rewrite Hp, Hc.
Qed.

Lemma new_center_idem pts alloc dimension cid c :
  new_center pts alloc dimension cid (new_center pts alloc dimension cid c)
  = new_center pts alloc dimension cid c.
Proof. unfold new_center. by destruct (select pts alloc cid). Qed.

Lemma repeat_next Max_iterations clusters dimension n : ∀ s,
  valid clusters dimension s →
  repeat_ n (clustering.pass Max_iterations clusters dimension) s
  = (Ok (), Nat.iter n (next Max_iterations clusters dimension) s).
Proof.
  induction n as [|n IH]; intros s Hv; [done |].
  cbn [repeat_]. rewrite (bind_Ok _ _ _ _ _ (pass_next _ _ _ _ Hv)).
  rewrite IH by by apply next_valid. by rewrite Nat.iter_succ_r.
Qed.

Lemma np_repeat_next Max_iterations clusters dimension n : ∀ s,
  np_valid clusters s →
  repeat_ n (clustering_numpy.pass Max_iterations clusters dimension) s
  = (Ok (), Nat.iter n (np_next Max_iterations dimension) s).
Proof.
  induction n as [|n IH]; intros s Hv; [done |].
  cbn [repeat_]. rewrite (bind_Ok _ _ _ _ _ (np_pass_next _ _ dimension _ Hv)).
  rewrite IH by by eapply np_next_valid. by rewrite Nat.iter_succ_r.
Qed.

Lemma updated_centers_idem pts alloc dimension cs :
  updated_centers pts alloc dimension (updated_centers pts alloc dimension cs)
  = updated_centers pts alloc dimension cs.
Proof.
  unfold updated_centers. apply list_eq. intros i.
  rewrite !list_lookup_imap.
  destruct (cs !! i) as [c|]; simpl; [| done].
  by rewrite new_center_idem.
Qed.

Lemma np_updated_centers_idem arr alloc dimension cs :
  np_updated_centers arr alloc dimension
    (np_updated_centers arr alloc dimension cs)
  = np_updated_centers arr alloc dimension cs.
Proof.
  unfold np_updated_centers. apply list_eq. intros i.
  rewrite !list_lookup_imap. by destruct (cs !! i) as [c|].
Qed.

Lemma settled_iter Max_iterations clusters dimension s n :
  let s1 := next Max_iterations clusters dimension s in
  allocation clusters dimension s1 = allocation clusters dimension s →
  let s' := Nat.iter n (next Max_iterations clusters dimension) s1 in
  clustering.points_list s' = clustering.points_list s1 ∧
  clustering.centers s' = clustering.centers s1.
Proof.
  intros s1 Hsame. induction n as [|n [IHp IHc]]; [done |].
  cbn [Nat.iter]. split; [by rewrite <- IHp |].
  set (s' := Nat.iter n _ s1) in *.
  change (updated_centers (clustering.points_list s')
            (allocation clusters dimension s') dimension
            (clustering.centers s') = clustering.centers s1).
  rewrite (allocation_ext _ _ s' s1 IHp IHc), IHp, IHc, Hsame.
  apply updated_centers_idem.
Qed.

Lemma np_settled_iter Max_iterations dimension s n :
  let s1 := np_next Max_iterations dimension s in
  np_allocation s1 = np_allocation s →
  let s' := Nat.iter n (np_next Max_iterations dimension) s1 in
  clustering_numpy.points_array s' = clustering_numpy.points_array s1 ∧
  clustering_numpy.centers s' = clustering_numpy.centers s1.
Proof.
  intros s1 Hsame. induction n as [|n [IHp IHc]]; [done |].
  cbn [Nat.iter]. split; [by rewrite <- IHp |].
  set (s' := Nat.iter n _ s1) in *.
  change (np_updated_centers (clustering_numpy.points_array s')
            (np_allocation s') dimension
            (clustering_numpy.centers s') = clustering_numpy.centers s1).
  rewrite (np_allocation_ext s' s1 IHp IHc), IHp, IHc, Hsame.
  apply np_updated_centers_idem.
Qed.

(** X10. When the assignment of the points after a pass is the one the
    pass started from, the centres have settled: every further pass
    succeeds and leaves every centre as it is.  (The loop has no test for
    this and runs the remaining passes.)  This holds for [cluster] and for
    [cluster_numpy]. *)
Theorem settled_assignment_fixes_centres Max_iterations clusters dimension
    s sn n :
  valid clusters dimension s → np_valid clusters sn →
  allocation clusters dimension (next Max_iterations clusters dimension s)
  = allocation clusters dimension s →
  np_allocation (np_next Max_iterations dimension sn) = np_allocation sn →
  (∃ s1 s',
     clustering.pass Max_iterations clusters dimension s = (Ok (), s1) ∧
     repeat_ n (clustering.pass Max_iterations clusters dimension) s1
     = (Ok (), s') ∧
     clustering.centers s' = clustering.centers s1) ∧
  (∃ s1 s',
     clustering_numpy.pass Max_iterations clusters dimension sn
     = (Ok (), s1) ∧
     repeat_ n (clustering_numpy.pass Max_iterations clusters dimension) s1
     = (Ok (), s') ∧
     clustering_numpy.centers s' = clustering_numpy.centers s1).
Proof.
  intros Hv Hvn Hsame Hsamen. split.
  - eexists _, _. split_and!.
    + by apply pass_next.
    + apply repeat_next. by apply next_valid.
    + by apply settled_iter.
  - eexists _, _. split_and!.
    + by eapply np_pass_next.
    + apply np_repeat_next. by eapply np_next_valid.
    + by apply np_settled_iter.
Qed.
End settled.

(** ** The helper functions of [clustering.py] on every input *)

(** A loop all of whose failures are the exception [e], and which has an item
    on which its body fails, raises [e]. *)
Lemma mapM_Raise {A B : Type} (f : A → outcome B) (l : list A) e :
  (∀ x, x ∈ l → (∃ y, f x = Ok y) ∨ f x = Raise e) →
  (∃ x, x ∈ l ∧ f x = Raise e) →
  mapM f l = Raise e.
Proof.
  induction l as [|x l IH]; intros Hall (z & Hz & Hfz).
  - by apply elem_of_nil in Hz.
  - cbn [mapM]. destruct (Hall x) as [[y Hy] | Hx]; [left | | by rewrite Hx].
    rewrite Hy. simpl. rewrite IH; [done | |].
    + intros w Hw. apply Hall. by right.
    + apply elem_of_cons in Hz as [-> | Hz]; [congruence |]. by exists z.
Qed.

Lemma foldl_m_Raise {A B : Type} (f : A → B → outcome A) (l : list B) e :
  (∀ a x, x ∈ l → (∃ b, f a x = Ok b) ∨ f a x = Raise e) →
  (∃ x, x ∈ l ∧ ∀ a, f a x = Raise e) →
  ∀ a, foldl_m f a l = Raise e.
Proof.
  induction l as [|x l IH]; intros Hall (z & Hz & Hfz) a.
  - by apply elem_of_nil in Hz.
  - simpl. destruct (Hall a x) as [[b Hb] | Hx]; [left | | by rewrite Hx].
    rewrite Hb. simpl. apply IH.
    + intros a' w Hw. apply Hall. by right.
    + apply elem_of_cons in Hz as [-> | Hz]; [| by exists z].
      rewrite Hfz in Hb. discriminate.
Qed.

Lemma getitem_cases {A : Type} (l : list A) i :
  (∃ x, getitem l i = Ok x) ∨ getitem l i = Raise IndexError.
Proof. unfold getitem. destruct (l !! i); [left; by eexists | by right]. Qed.

Lemma getitem_None {A : Type} (l : list A) i :
  (length l ≤ i)%nat → getitem l i = Raise IndexError.
Proof. intros Hi. unfold getitem. by rewrite lookup_ge_None_2. Qed.

Section helpers.
Context {AR : Arith} {RN : Random} {ST : Str num}.
Import clustering.

Lemma calculate_distance_short (center_point point : list num)
    (dimension : nat) :
  ¬ (dimension ≤ length point ∧ dimension ≤ length center_point)%nat →
  calculate_distance center_point point dimension = Raise IndexError.
Proof.
  intros Hshort. unfold calculate_distance.
  rewrite (foldl_m_Raise _ _ IndexError); [done | |].
  - intros a i _.
    destruct (getitem_cases point i) as [[p ->] | ->]; [| by right].
    destruct (getitem_cases center_point i) as [[c ->] | ->]; [| by right].
    left. by eexists.
  - exists (length point `min` length center_point)%nat. split.
    + apply elem_of_seq. lia.
    + intros a.
      destruct (decide (length point ≤ length center_point)%nat).
      * rewrite (getitem_None point) by lia. done.
      * destruct (getitem_cases point
                    (length point `min` length center_point)%nat)
          as [[p ->] | ->]; [| done].
        rewrite (getitem_None center_point) by lia. done.
Qed.

(** X11. In the arithmetic of the model, that is as long as no square
    leaves the range of the floats (Python then raises [OverflowError]):
    [calculate_distance] reads the first [dimension] coordinates of both
    tuples and nothing else; it returns their Euclidean distance when both
    have that many coordinates, and raises [IndexError] when one of them is
    shorter. *)
Theorem calculate_distance_cases (center_point point : list num)
    (dimension : nat) :
  calculate_distance center_point point dimension
  = if decide (dimension ≤ length point ∧ dimension ≤ length center_point)%nat
    then Ok (euclid dimension (take dimension center_point)
               (take dimension point))
    else Raise IndexError.
Proof.
  destruct (decide _) as [[Hp Hc] | Hshort].
  - rewrite calculate_distance_euclid by done.
    unfold euclid. by rewrite !take_take, !Nat.min_id.
  - by apply calculate_distance_short.
Qed.
End helpers.

Section helpers_on_lists.
Context {AR : Arith} {RN : Random} {ST : Str num}.
Import clustering.

(** X12. [mid_point] on every input: no coordinate is asked for gives the
    empty tuple; an empty list of points is a division by zero; a point with
    fewer than [dimension] coordinates is an [IndexError]; otherwise the
    result is the coordinate-wise mean, a tuple of [dimension] numbers. *)
Theorem mid_point_cases (points : list (list num)) (dimension : nat) :
  mid_point points dimension
  = if decide (dimension = 0%nat) then Ok []
    else if decide (points = []) then Raise ZeroDivisionError
    else if decide (Forall (fun p => dimension ≤ length p)%nat points)
    then Ok (centroid points dimension)
    else Raise IndexError.
Proof.
  destruct (decide (dimension = 0%nat)) as [-> | Hd]; [done |].
  destruct (decide (points = [])) as [-> | Hne].
  { unfold mid_point. destruct dimension as [|d]; [done |]. done. }
  destruct (decide _) as [Hall | Hshort].
  { by apply mid_point_centroid. }
  apply not_Forall_Exists in Hshort; [| intros p; apply _].
  apply Exists_exists in Hshort as (p & Hp & Hlen). simpl in Hlen.
  unfold mid_point. apply mapM_Raise.
  - intros i _.
    destruct (decide (Forall (fun p : list num => i < length p)%nat points))
      as [Hi | Hi].
    + left. rewrite (mapM_Ok _ (fun p : list num => default fzero (p !! i))).
      * simpl. destruct (decide (length points = 0%nat)) as [Hl|].
        -- by destruct points.
        -- by eexists.
      * intros q Hq. eapply Forall_forall in Hi; [| done].
        destruct (lookup_lt_is_Some_2 q i) as [x Hx]; [done |].
        by rewrite (getitem_Some _ _ _ Hx), Hx.
    + right. apply not_Forall_Exists in Hi; [| intros q; apply _].
      apply Exists_exists in Hi as (q & Hq & Hlq). simpl in Hlq.
      rewrite (mapM_Raise _ _ IndexError); [done | |].
      * intros r _. apply getitem_cases.
      * exists q. split; [done |]. apply getitem_None. lia.
  - exists (length p). split; [apply elem_of_seq; lia |].
    rewrite (mapM_Raise _ _ IndexError); [done | |].
    + intros r _. apply getitem_cases.
    + exists p. split; [done |]. by apply getitem_None.
Qed.

Lemma find_best_cluster_take clusters point centers dimension :
  find_best_cluster clusters point centers dimension
  = find_best_cluster clusters point (take (Z.to_nat clusters) centers)
      dimension.
Proof.
  unfold find_best_cluster. f_equal. unfold range.
  assert (∀ l, Forall (fun i => i < Z.to_nat clusters)%nat l →
            mapM (fun cluster_id =>
                    c ← getitem centers cluster_id;
                    calculate_distance c point dimension) l
            = mapM (fun cluster_id =>
                      c ← getitem (take (Z.to_nat clusters) centers) cluster_id;
                      calculate_distance c point dimension) l) as Hext.
  { induction l as [|i l IH]; intros Hl; [done |].
    apply Forall_cons in Hl as [Hi Hl]. cbn [mapM].
    rewrite IH by done.
    replace (getitem (take (Z.to_nat clusters) centers) i)
      with (getitem centers i); [done |].
    unfold getitem. by rewrite lookup_take_lt. }
  apply Hext. apply Forall_forall. intros i Hi%elem_of_seq. lia.
Qed.

(** The tuples that [find_best_cluster] reads have the coordinates it asks
    for. *)
Definition readable (clusters : Z) (point : list num)
    (centers : list (list num)) (dimension : nat) : Prop :=
  (dimension ≤ length point)%nat ∧ clusters ≤ len centers ∧
  Forall (fun c => dimension ≤ length c)%nat (take (Z.to_nat clusters) centers).

Lemma find_best_cluster_unreadable clusters (point : list num)
    (centers : list (list num)) (dimension : nat) :
  1 ≤ clusters → ¬ readable clusters point centers dimension →
  find_best_cluster clusters point centers dimension = Raise IndexError.
Proof.
  intros HK Hno. unfold find_best_cluster.
  rewrite (mapM_Raise _ _ IndexError); [done | |].
  - intros i _. destruct (getitem_cases centers i) as [[c ->] | ->];
      [| by right]. simpl.
    destruct (decide (dimension ≤ length point ∧ dimension ≤ length c)%nat)
      as [[Hp Hc] | Hshort].
    + left. rewrite calculate_distance_euclid by done. by eexists.
    + right. by apply calculate_distance_short.
  - unfold range.
    destruct (decide (dimension ≤ length point)%nat) as [Hp | Hp].
    + destruct (decide (clusters ≤ len centers)) as [Hlen | Hlen].
      * assert (¬ Forall (fun c : list num => dimension ≤ length c)%nat
                    (take (Z.to_nat clusters) centers)) as Hcs
          by (intros ?; by apply Hno).
        apply not_Forall_Exists in Hcs; [| intros c; apply _].
        apply Exists_exists in Hcs as (c & Hc & Hlc). simpl in Hlc.
        apply list_elem_of_lookup in Hc as [i Hi].
        apply lookup_take_Some in Hi as [Hi Hlt].
        exists i. split; [apply elem_of_seq; lia |].
        rewrite (getitem_Some _ _ _ Hi). simpl.
        apply calculate_distance_short. lia.
      * exists (length centers).
        split; [apply elem_of_seq; unfold len in *; lia |].
        by rewrite getitem_None.
    + exists 0%nat. split; [apply elem_of_seq; lia |].
      destruct (getitem_cases centers 0) as [[c ->] | ->]; [| done].
      simpl. apply calculate_distance_short. lia.
Qed.

Lemma find_best_cluster_readable clusters (point : list num)
    (centers : list (list num)) (dimension : nat) :
  1 ≤ clusters → readable clusters point centers dimension →
  ∃ i, find_best_cluster clusters point centers dimension = Ok i ∧
       Z.of_nat i < clusters ∧
       nearest_lowest dimension (take (Z.to_nat clusters) centers) point i.
Proof.
  intros HK (Hp & Hlen & Hcs). rewrite find_best_cluster_take.
  destruct (find_best_cluster_nearest clusters point
              (take (Z.to_nat clusters) centers) dimension)
    as (i & -> & Hi & Hnear); [| | done | done |].
  - unfold len in Hlen. destruct centers; simpl in *; [lia |].
    destruct (Z.to_nat clusters) eqn:E; [lia | done].
  - unfold len in *. rewrite length_take. lia.
  - rewrite length_take in Hi. exists i. split_and!; [done | lia | done].
Qed.

(** X13. [find_best_cluster] in the arithmetic of the model, that is as
    long as no square leaves the range of the floats in
    [calculate_distance] (Python then raises [OverflowError]).  It looks at
    the first [clusters] centres only.  When it returns, there is at least
    one cluster, every tuple it reads has [dimension] coordinates, and the
    result is the lowest index of a nearest one of these centres.  It raises
    [ValueError] exactly when [clusters <= 0] (the [min] of an empty list)
    and [IndexError] exactly when [clusters >= 1] and a centre or a
    coordinate is missing. *)
Theorem find_best_cluster_cases clusters (point : list num)
    (centers : list (list num)) (dimension : nat) :
  match find_best_cluster clusters point centers dimension with
  | Ok i =>
      1 ≤ clusters ∧ readable clusters point centers dimension ∧
      (Z.of_nat i < clusters) ∧
      nearest_lowest dimension (take (Z.to_nat clusters) centers) point i
  | Raise e =>
      (e = ValueError ∧ clusters ≤ 0) ∨
      (e = IndexError ∧ 1 ≤ clusters ∧
       ¬ readable clusters point centers dimension)
  | OutOfFuel => False
  end.
Proof.
  destruct (decide (clusters ≤ 0)) as [HK | HK].
  { unfold find_best_cluster, range.
    replace (Z.to_nat clusters) with 0%nat by lia. simpl. by left. }
  destruct (decide (readable clusters point centers dimension))
    as [Hyes | Hno].
  - destruct (find_best_cluster_readable clusters point centers dimension)
      as (i & -> & Hi & Hnear); [lia | done |].
    split_and!; [lia | done | done | done].
  - rewrite find_best_cluster_unreadable by (done || lia).
    right. split_and!; [done | lia | done].
Qed.

(** X19. A point with fewer coordinates than the first point makes a call of
    [cluster] with [1 <= clusters <= N] and at least one iteration raise
    [IndexError] in the assignment step of the first pass: nothing has been
    printed and no cluster has been recorded. *)
Theorem short_point_IndexError (pts : list (list num)) Max_iterations
    clusters output g out p0 p :
  pts !! 0%nat = Some p0 → p ∈ pts → (length p < length p0)%nat →
  1 ≤ clusters ≤ len pts → 1 ≤ Max_iterations →
  ∃ s', cluster Max_iterations clusters output (call pts g out)
        = (Raise IndexError, s') ∧
        stdout s' = out ∧ clusters_information s' = [] ∧ iteration s' = 0.
Proof.
  intros Hp0 Hp Hshort HK HM.
  destruct (initial_centers_eq clusters (call pts g out))
    as (s0 & Hs0 & E1 & E2 & E3 & _); [by destruct pts |].
  destruct s0 as [pts' g' out' cs ci it]. simpl in E1, E2, E3. subst.
  eexists. split.
  - unfold cluster. erewrite bind_Ok by done. simpl.
    rewrite decide_False by lia.
    erewrite bind_Ok by (unfold lift; by rewrite (getitem_Some _ _ _ Hp0)).
    rewrite (bind_Ok _ _ _ _ _ Hs0).
    erewrite bind_Raise; [reflexivity |].
    unfold refine. erewrite bind_Ok by done.
    replace (Z.to_nat Max_iterations) with (S (Z.to_nat (Max_iterations - 1)))
      by lia.
    cbn [while_]. rewrite bool_decide_eq_true_2 by (simpl; lia).
    erewrite bind_Raise; [reflexivity |].
    unfold pass. erewrite bind_Raise; [reflexivity |].
    unfold assignment. erewrite bind_Ok by done. erewrite bind_Ok by done.
    unfold lift. simpl. f_equal.
    apply mapM_Raise.
    + intros point _.
      destruct (decide (readable clusters point cs (length p0))) as [Hr | Hr].
      * left. destruct (find_best_cluster_readable clusters point cs
                          (length p0)) as (i & Hi & _); [lia | done |].
        by exists i.
      * right. apply find_best_cluster_unreadable; [lia | done].
    + exists p. split; [done |].
      apply find_best_cluster_unreadable; [lia |].
      intros (Hlen & _). lia.
  - done.
Qed.
End helpers_on_lists.

(** ** The groups that [kmeans] returns *)

Section kmeans.
Context {AR : Arith} {RN : Random} {ST : Str (option num)}
  {EQ : EqDecision num}.
Import clustering_numpy.

Lemma cluster_numpy_returns_dictionary Max_iterations clusters s r s' :
  cluster_numpy Max_iterations clusters false s = (Ok r, s') →
  r = Some (clusters_information s').
Proof.
  unfold cluster_numpy. intros (pts & s1 & [= <- <-] & H)%bind_Ok_inv.
  destruct (decide _); [done |].
  apply bind_Ok_inv in H as (p0 & s2 & _ & H).
  apply bind_Ok_inv in H as ([] & s3 & _ & H).
  apply bind_Ok_inv in H as ([] & s4 & _ & H).
  apply bind_Ok_inv in H as (info & s5 & [= <- <-] & H).
  by injection H as <- <-.
Qed.

(** The index of the first point that equals [a]. *)
Definition index_of (points : list (list num)) (a : list (option num))
  : option nat :=
  fst <$> list_find (fun p => a = of_point p) points.

Lemma find_point_imap groups key a : ∀ (points : list (list num))
    (j : nat → nat),
  tracks.find_point groups key a
    (imap (fun index (x : list num) => (j index, x)) points)
  = match list_find (fun p => a = of_point p) points with
    | Some (index, _) => tracks.append groups key (j index)
    | None => Ok groups
    end.
Proof.
  induction points as [|p points IH]; intros j; [done |].
  cbn [imap tracks.find_point list_find]. unfold tracks.tuple_eq.
  destruct (decide (a = of_point p)) as [Heq | Hne].
  - by rewrite bool_decide_eq_true_2.
  - rewrite bool_decide_eq_false_2 by done.
    specialize (IH (j ∘ S)). unfold compose in *. rewrite IH.
    by destruct (list_find _ points) as [[i q]|].
Qed.

Lemma find_point_eq groups key a (points : list (list num)) :
  tracks.find_point groups key a (tracks.enumerate points)
  = match index_of points a with
    | Some index => tracks.append groups key index
    | None => Ok groups
    end.
Proof.
  unfold tracks.enumerate, index_of.
  rewrite (find_point_imap groups key a points (fun i => i)).
  by destruct (list_find _ points) as [[i q]|].
Qed.

Lemma members_loop points key : ∀ ms groups l,
  groups !! key = Some l →
  foldl_m (fun clustered_tracks allocated_points =>
             tracks.find_point clustered_tracks key allocated_points
               (tracks.enumerate points))
          groups ms
  = Ok (<[key := l ++ omap (index_of points) ms]> groups).
Proof.
  induction ms as [|a ms IH]; intros groups l Hl.
  - simpl. by rewrite app_nil_r, list_insert_id.
  - cbn [foldl_m]. rewrite find_point_eq.
    assert (omap (index_of points) (a :: ms)
            = option_list (index_of points a) ++ omap (index_of points) ms)
      as -> by (simpl; by destruct (index_of points a)).
    destruct (index_of points a) as [index|].
    + unfold tracks.append. rewrite (getitem_Some _ _ _ Hl). simpl.
      rewrite (IH _ (l ++ [index])).
      * rewrite list_insert_insert_eq, <- app_assoc. done.
      * apply list_lookup_insert_eq. by eapply lookup_lt_Some.
    + simpl. by apply IH.
Qed.

Lemma getkey_allocated_points {X : Type} (c : list X) ps :
  getkey (entry c ps) "allocated_points" = Ok (VPoints ps).
Proof. unfold getkey, entry. by rewrite lookup_insert_eq. Qed.

Lemma outcome_bind_Ok {A B : Type} (a : A) (k : A → outcome B) :
  Ok a ≫= k = k a.
Proof. done. Qed.

Lemma items_loop points (c : nat → list (option num))
    (m : nat → list (list (option num))) : ∀ n j,
  foldl_m
    (fun clustered_tracks '(key, info) =>
       v ← getkey info "allocated_points";
       foldl_m
         (fun clustered_tracks allocated_points =>
            tracks.find_point clustered_tracks key allocated_points
              (tracks.enumerate points))
         clustered_tracks (tracks.allocated v))
    (((fun k => omap (index_of points) (m k)) <$> seq 0 j) ++ replicate n [])
    ((fun k => (k, entry (c k) (m k))) <$> seq j n)
  = Ok ((fun k => omap (index_of points) (m k)) <$> seq 0 (j + n)).
Proof.
  induction n as [|n IH]; intros j.
  - simpl. by rewrite app_nil_r, Nat.add_0_r.
  - cbn [seq]. rewrite fmap_cons. cbn [foldl_m].
    rewrite getkey_allocated_points, outcome_bind_Ok.
    cbn [tracks.allocated].
    erewrite members_loop.
    2:{ rewrite lookup_app_r by by rewrite length_fmap, length_seq.
        rewrite length_fmap, length_seq, Nat.sub_diag. done. }
    rewrite outcome_bind_Ok.
    rewrite insert_app_r_alt by by rewrite length_fmap, length_seq.
    rewrite length_fmap, length_seq, Nat.sub_diag.
    cbn [replicate insert list_insert app].
    replace (((fun k => omap (index_of points) (m k)) <$> seq 0 j) ++
             omap (index_of points) (m j) :: replicate n [])
      with (((fun k => omap (index_of points) (m k)) <$> seq 0 (S j)) ++
            replicate n []).
    + rewrite IH. by rewrite Nat.add_succ_r.
    + rewrite seq_S, fmap_app, <- app_assoc. done.
Qed.

Lemma no_groups (n : nat) :
  (fun _ : nat => @nil nat) <$> seq 0 n = replicate n [].
Proof.
  apply list_eq. intros i. rewrite list_lookup_fmap.
  destruct (decide (i < n)%nat).
  - rewrite lookup_seq_lt by done. simpl. symmetry.
    by apply lookup_replicate_2.
  - rewrite lookup_seq_ge by lia. simpl. symmetry.
    apply lookup_ge_None. rewrite length_replicate. lia.
Qed.

Lemma imap_index {A B : Type} (f : nat → B) (l : list A) :
  imap (fun i _ => f i) l = f <$> seq 0 (length l).
Proof.
  apply list_eq. intros i. rewrite list_lookup_imap, list_lookup_fmap.
  destruct (l !! i) as [x|] eqn:Hx; simpl.
  - rewrite lookup_seq_lt by by eapply lookup_lt_Some. done.
  - rewrite lookup_seq_ge by by apply lookup_ge_None. done.
Qed.

Lemma features_points (ts : list tracks.SingleTrack) p0 :
  (tracks.features <$> ts) !! 0%nat = Some p0 →
  Forall (fun p => length p = length p0) (tracks.features <$> ts).
Proof.
  intros H0. apply Forall_forall. intros p Hp.
  apply list_elem_of_fmap in Hp as (t & -> & _).
  apply list_lookup_fmap_Some in H0 as (t0 & -> & _). done.
Qed.

(** A valid call of [kmeans]: the groups in closed form. *)
Lemma kmeans_run (ts : list tracks.SingleTrack) iterations clusters g out :
  1 ≤ clusters ≤ len ts → 1 ≤ iterations →
  let points := tracks.features <$> ts in
  ∃ alloc s',
    tracks.kmeans ts iterations clusters g out
    = (Ok ((fun k => omap (index_of points)
                       (select (of_point <$> points) alloc k))
             <$> seq 0 (Z.to_nat clusters)), s') ∧
    length alloc = length ts ∧
    Forall (fun k => k < Z.to_nat clusters)%nat alloc ∧
    clusters_information s'
    = (fun k => (k, entry (new_mean (of_point <$> points) alloc 3 k)
                      (select (of_point <$> points) alloc k)))
      <$> seq 0 (Z.to_nat clusters).
Proof.
  intros HK HM points.
  destruct (points !! 0%nat) as [p0|] eqn:Hp0.
  2:{ apply lookup_ge_None in Hp0. unfold points, len in *.
      rewrite length_fmap in Hp0. lia. }
  destruct (cluster_numpy_run points iterations clusters g out p0)
    as (s0 & s_last & _ & _ & Hv & _ & _ & Harr & _ & _ & Hci & Hrun & _);
    [done | by unfold points, len in *; rewrite length_fmap | done
    | by apply features_points |].
  assert (length p0 = 3%nat) as Hdim.
  { apply list_lookup_fmap_Some in Hp0 as (t0 & -> & _). done. }
  rewrite Hdim in *.
  destruct (np_assignment_eq _ _ Hv) as [_ HF]. rewrite Harr in HF.
  destruct Hv as [HKc Hne]. unfold len in HKc.
  exists (np_allocation s_last), (np_next iterations 3 s_last).
  assert (clusters_information (np_next iterations 3 s_last)
          = (fun k => (k, entry (new_mean (of_point <$> points)
                                   (np_allocation s_last) 3 k)
                            (select (of_point <$> points)
                               (np_allocation s_last) k)))
            <$> seq 0 (Z.to_nat clusters)) as Hinfo.
  { rewrite Hci. unfold np_recorded.
    rewrite (imap_index (fun i => (i, entry (new_mean (of_point <$> points)
                                               (np_allocation s_last) 3 i)
                                        (select (of_point <$> points)
                                           (np_allocation s_last) i)))).
    do 2 f_equal. lia. }
  split_and!; [| | | done].
  - unfold tracks.kmeans. fold points.
    rewrite (bind_Ok _ _ _ _ _ Hrun). cbn [default from_option id].
    unfold lift. f_equal. rewrite Hinfo. unfold range.
    pose proof (items_loop points
                  (fun k => new_mean (of_point <$> points)
                              (np_allocation s_last) 3 k)
                  (fun k => select (of_point <$> points)
                              (np_allocation s_last) k)
                  (Z.to_nat clusters) 0) as Hloop.
    simpl in Hloop. rewrite <- Hloop. f_equal. apply no_groups.
  - apply Forall2_length in HF. rewrite <- HF. unfold points.
    by rewrite !length_fmap.
  - apply Forall_forall. intros k Hk.
    apply list_elem_of_lookup in Hk as [i Hi].
    destruct (Forall2_lookup_r _ _ _ _ _ HF Hi) as (p & _ & _ & Hlt). lia.
Qed.
End kmeans.

Lemma select_fmap {A B : Type} (f : A → B) (pts : list A) k : ∀ alloc,
  select (f <$> pts) alloc k = f <$> select pts alloc k.
Proof.
  unfold select. induction pts as [|p pts IH]; intros [|a alloc]; try done.
  simpl. rewrite !filter_cons. simpl.
  destruct (decide (a = k)); simpl; by rewrite IH.
Qed.

Lemma select_Forall2 {A B : Type} (R : A → B → Prop) (l1 : list A)
    (l2 : list B) k :
  Forall2 R l1 l2 → ∀ alloc,
  Forall2 R (select l1 alloc k) (select l2 alloc k).
Proof.
  unfold select. induction 1 as [|x y l1 l2 Hxy HF IH]; intros [|a alloc];
    simpl; try constructor.
  rewrite !filter_cons. simpl. destruct (decide (a = k)); simpl.
  - constructor; [done | apply IH].
  - apply IH.
Qed.

Lemma omap_Forall2 {A B : Type} (f : A → option B) (xs : list A)
    (ys : list B) :
  Forall2 (fun x y => f x = Some y) xs ys → omap f xs = ys.
Proof.
  induction 1 as [|x y xs ys Hxy HF IH]; [done |].
  simpl. rewrite Hxy. by f_equal.
Qed.

Section kmeans_groups.
Context {AR : Arith} {RN : Random} {ST : Str (option num)}
  {EQ : EqDecision num}.
Import clustering_numpy.

Lemma of_point_inj (p q : list num) : of_point p = of_point q → p = q.
Proof.
  unfold of_point. revert q. induction p as [|x p IH]; intros [|y q];
    simpl; try done.
  intros [= -> Hpq]. f_equal. by apply IH.
Qed.

(** [index_of] gives the first index of an equal point. *)
Lemma index_of_Some (points : list (list num)) a index :
  index_of points a = Some index →
  (index < length points)%nat ∧
  points !! index = (fun p => p) <$> points !! index ∧
  (∃ p, points !! index = Some p ∧ a = of_point p) ∧
  ∀ j q, (j < index)%nat → points !! j = Some q → a ≠ of_point q.
Proof.
  unfold index_of. intros ([i p] & Hfind & [= <-])%fmap_Some.
  apply list_find_Some in Hfind as (Hp & Ha & Hfirst).
  split_and!.
  - by eapply lookup_lt_Some.
  - by rewrite option_fmap_id.
  - by exists p.
  - intros j q Hj Hq. by eapply Hfirst.
Qed.

Lemma index_of_point (points : list (list num)) i p :
  points !! i = Some p → is_Some (index_of points (of_point p)).
Proof.
  intros Hp. unfold index_of.
  destruct (list_find (fun q => of_point p = of_point q) points)
    as [[j q]|] eqn:Hfind; [by eexists |].
  eapply list_find_None, Forall_forall in Hfind.
  - by exfalso.
  - by eapply list_elem_of_lookup_2.
Qed.

Lemma index_of_NoDup (points : list (list num)) i p :
  NoDup points → points !! i = Some p →
  index_of points (of_point p) = Some i.
Proof.
  intros Hnd Hp. destruct (index_of_point points i p Hp) as [j Hj].
  rewrite Hj. f_equal.
  apply index_of_Some in Hj as (_ & _ & (q & Hq & Heq%of_point_inj) & _).
  subst q. by eapply NoDup_lookup.
Qed.

(** X15. When no two tracks have the same three features, a valid call of
    [kmeans] ([1 <= clusters <=] the number of tracks, at least one
    iteration) returns [clusters] groups in which every track index occurs
    exactly once, and the group of a cluster lists, in order, the indices of
    the tracks whose points are the members of that cluster in the dictionary
    of [cluster_numpy]. *)
Theorem kmeans_groups_every_track_once (ts : list tracks.SingleTrack)
    iterations clusters g out :
  1 ≤ clusters ≤ len ts → 1 ≤ iterations →
  NoDup (tracks.features <$> ts) →
  ∃ groups s',
    tracks.kmeans ts iterations clusters g out = (Ok groups, s') ∧
    length groups = Z.to_nat clusters ∧
    concat groups ≡ₚ seq 0 (length ts) ∧
    ∀ key group, groups !! key = Some group →
      ∃ info, clusters_information s' !! key = Some (key, info) ∧
        Forall2 (fun index p =>
                   of_point <$> (tracks.features <$> ts) !! index = Some p)
                group (members info).
Proof.
  intros HK HM Hnd.
  destruct (kmeans_run ts iterations clusters g out HK HM)
    as (alloc & s' & Hrun & Hlen & Hlt & Hinfo).
  set (points := tracks.features <$> ts) in *.
  assert (Forall2 (fun index p => points !! index = Some p)
            (seq 0 (length ts)) points) as Hseq.
  { apply Forall2_same_length_lookup. split.
    - unfold points. by rewrite length_seq, length_fmap.
    - intros i j p Hj Hp. apply lookup_seq in Hj as [-> _]. done. }
  assert (∀ k, omap (index_of points) (select (of_point <$> points) alloc k)
               = select (seq 0 (length ts)) alloc k) as Hgroup.
  { intros k. apply omap_Forall2.
    apply Forall2_flip. apply select_Forall2.
    apply Forall2_fmap_r. eapply Forall2_impl; [done |].
    intros i p Hp. simpl. by apply index_of_NoDup. }
  eexists _, s'. split_and!; [done | | |].
  - by rewrite length_fmap, length_seq.
  - erewrite list_fmap_ext; [| intros i k _; apply Hgroup].
    apply select_partition; [by rewrite length_seq |  done].
  - intros key group Hkey.
    apply list_lookup_fmap_Some in Hkey as (k & -> & Hk).
    apply lookup_seq in Hk as [-> Hk]. simpl in Hk.
    rewrite Hinfo, list_lookup_fmap, lookup_seq_lt by done. simpl.
    eexists. split; [done |]. rewrite members_entry, Hgroup.
    apply select_Forall2. apply Forall2_fmap_r.
    eapply Forall2_impl; [done |]. intros i p Hp. simpl in *.
    by rewrite Hp.
Qed.

Lemma concat_fmap_fmap {A B : Type} (f : A → B) (F : nat → list A)
    (l : list nat) :
  concat ((fun k => f <$> F k) <$> l) = f <$> concat (F <$> l).
Proof.
  induction l as [|k l IH]; [done |].
  rewrite !fmap_cons. cbn [concat]. by rewrite fmap_app, IH.
Qed.

Lemma omap_fmap_Some {A B : Type} (f : A → option B) (g : A → B)
    (l : list A) :
  Forall (fun x => f x = Some (g x)) l → omap f l = g <$> l.
Proof.
  induction 1 as [|x l Hx _ IH]; [done |].
  simpl. rewrite Hx. f_equal. apply IH.
Qed.

(** X16. A valid call of [kmeans] lists one index for every track: the index
    of the first track that has the features of that track.  So a track
    whose three features are those of an earlier track is listed under the
    index of the earlier one, and its own index is in no group. *)
Theorem kmeans_lists_first_of_equal_tracks (ts : list tracks.SingleTrack)
    iterations clusters g out :
  1 ≤ clusters ≤ len ts → 1 ≤ iterations →
  ∃ groups firsts s',
    tracks.kmeans ts iterations clusters g out = (Ok groups, s') ∧
    concat groups ≡ₚ firsts ∧
    Forall2 (fun track index =>
               (∃ first, ts !! index = Some first ∧
                         tracks.features first = tracks.features track) ∧
               ∀ j earlier, (j < index)%nat → ts !! j = Some earlier →
                 tracks.features earlier ≠ tracks.features track)
            ts firsts.
Proof.
  intros HK HM.
  destruct (kmeans_run ts iterations clusters g out HK HM)
    as (alloc & s' & Hrun & Hlen & Hlt & Hinfo).
  set (points := tracks.features <$> ts) in *.
  set (first_of := fun p : list num =>
                     default 0%nat (index_of points (of_point p))).
  assert (∀ p, p ∈ points →
               index_of points (of_point p) = Some (first_of p)) as Hfirst.
  { intros p Hp. apply list_elem_of_lookup in Hp as [i Hi].
    unfold first_of. by destruct (index_of_point points i p Hi) as [j ->]. }
  exists ((fun k => omap (index_of points)
                      (select (of_point <$> points) alloc k))
            <$> seq 0 (Z.to_nat clusters)),
         (first_of <$> points), s'.
  split_and!; [done | |].
  - erewrite list_fmap_ext.
    2:{ intros i k _. rewrite select_fmap.
        rewrite (omap_fmap_Some _ (fun a => default 0%nat (index_of points a))).
        - rewrite <- list_fmap_compose. reflexivity.
        - apply Forall_forall. intros a Ha.
          apply list_elem_of_fmap in Ha as (p & -> & Hp%select_elem_of).
          rewrite (Hfirst p Hp). done. }
    rewrite (concat_fmap_fmap _ (fun k => select points alloc k)).
    apply fmap_Permutation. apply select_partition; [| done].
    unfold points. by rewrite length_fmap.
  - unfold points. rewrite <- list_fmap_compose.
    apply Forall2_fmap_r. apply Forall_Forall2_diag.
    apply Forall_forall. intros track Htrack. simpl.
    assert (tracks.features track ∈ points) as Hp
      by (by apply list_elem_of_fmap_2).
    specialize (Hfirst _ Hp).
    apply index_of_Some in Hfirst as (_ & _ & (q & Hq & Heq) & Hno).
    apply of_point_inj in Heq.
    unfold points in Hq.
    apply list_lookup_fmap_Some in Hq as (first & -> & Hfirst).
    split; [by exists first |].
    intros j earlier Hj Hearlier Hsame.
    apply (Hno j (tracks.features earlier)); [done | |].
    + unfold points. by rewrite list_lookup_fmap, Hearlier.
    + by rewrite Hsame.
Qed.

Lemma kmeans_Raise (ts : list tracks.SingleTrack) iterations clusters g out
    e s' :
  cluster_numpy iterations clusters false
    (call (tracks.features <$> ts) g out) = (Raise e, s') →
  tracks.kmeans ts iterations clusters g out = (Raise e, s').
Proof.
  intros Hrun. unfold tracks.kmeans. by rewrite (bind_Raise _ _ _ _ _ Hrun).
Qed.

(** X14. The outcome of [kmeans] on tracks whose methods [co2()], [time()]
    and [distance()] return floats (a method that raises ends the call
    before [cluster_numpy] is reached, which is outside this model), for
    every number of clusters and of iterations.  It returns exactly when
    there is a track, [0 <= clusters <=] the number of tracks, and there is
    a cluster or no iteration; it then returns [clusters] groups, all of them
    empty when [iterations <= 0].  It raises [IndexError] exactly when there
    is no track and [clusters <= 0], and [ValueError] otherwise: more
    clusters than tracks (the default of 3 clusters on fewer than 3 tracks),
    a negative number of clusters, or no cluster and at least one
    iteration. *)
Theorem kmeans_outcome (ts : list tracks.SingleTrack) iterations clusters
    g out :
  match (tracks.kmeans ts iterations clusters g out).1 with
  | Ok groups =>
      ts ≠ [] ∧ 0 ≤ clusters ≤ len ts ∧ (1 ≤ clusters ∨ iterations ≤ 0) ∧
      length groups = Z.to_nat clusters ∧
      (iterations ≤ 0 → groups = replicate (Z.to_nat clusters) [])
  | Raise e =>
      (e = IndexError ∧ ts = [] ∧ clusters ≤ 0) ∨
      (e = ValueError ∧
       (len ts < clusters ∨
        (ts ≠ [] ∧ (clusters < 0 ∨ (clusters = 0 ∧ 1 ≤ iterations)))))
  | OutOfFuel => False
  end.
Proof.
  destruct (decide (len ts < clusters)) as [Hmany | Hfew].
  { erewrite kmeans_Raise.
    - simpl. right. split; [done |]. by left.
    - unfold cluster_numpy. erewrite bind_Ok by done. simpl.
      rewrite decide_True; [done |].
      unfold len in *. rewrite length_fmap. lia. }
  destruct ts as [|t0 ts].
  { erewrite kmeans_Raise.
    - simpl. left. unfold len in Hfew. simpl in Hfew.
      split_and!; [done.. | lia].
    - unfold cluster_numpy. erewrite bind_Ok by done. simpl.
      rewrite decide_False; [done |]. unfold len in *. simpl in *. lia. }
  destruct (decide (clusters < 0 ∨ (clusters = 0 ∧ 1 ≤ iterations)))
    as [Hnone | Hsome].
  { pose proof (cluster_numpy_no_clusters (tracks.features <$> t0 :: ts)
                  iterations clusters false g out) as Hraise.
    destruct (cluster_numpy iterations clusters false
                (call (tracks.features <$> t0 :: ts) g out))
      as [o s'] eqn:Hrun.
    simpl in Hraise. rewrite Hraise in Hrun; [| done | lia | lia].
    rewrite (kmeans_Raise _ _ _ _ _ _ _ Hrun). simpl.
    right. split; [done |]. right. split; [done | lia]. }
  destruct (decide (iterations ≤ 0)) as [Hzero | Hpos].
  - destruct (cluster_numpy_no_budget (tracks.features <$> t0 :: ts)
                iterations clusters false g out (tracks.features t0))
      as (s' & Hrun & _); [done | by apply features_points | | done |].
    { unfold len in *. rewrite length_fmap. lia. }
    unfold tracks.kmeans. rewrite (bind_Ok _ _ _ _ _ Hrun).
    cbn [default from_option id foldl_m lift fst]. unfold range.
    rewrite length_fmap, length_seq.
    split_and!; [done | lia | lia | by right | done |].
    intros _. apply no_groups.
  - destruct (kmeans_run (t0 :: ts) iterations clusters g out)
      as (alloc & s' & -> & _); [lia | lia |].
    cbn [fst]. rewrite length_fmap, length_seq.
    split_and!; [done | lia | lia | left; lia | done | lia].
Qed.
End kmeans_groups.

(** ** The two implementations side by side *)

Section parity.
Context {AR : Arith} {RN : Random} {ST : Str num} {STN : Str (option num)}.
Import clustering_numpy.

Lemma np_sum_numbers (xs : list num) : ∀ acc,
  fold_left np_add (Some <$> xs) (Some acc) = Some (fold_left fadd xs acc).
Proof. induction xs as [|x xs IH]; intros acc; [done |]. simpl. apply IH. Qed.

Lemma np_mean_rows (alloc_ps : list (list (option num))) dimension :
  alloc_ps ≠ [] →
  np_mean alloc_ps dimension
  = (fun d => (fun s => fdiv s (length alloc_ps))
                <$> np_sum (column d alloc_ps)) <$> seq 0 dimension.
Proof. intros Hne. unfold np_mean. by destruct alloc_ps. Qed.

Lemma column_numbers (ms : list (list num)) i :
  Forall (fun p => i < length p)%nat ms →
  column i (of_point <$> ms)
  = Some <$> ((fun p : list num => default fzero (p !! i)) <$> ms).
Proof.
  intros Hdim. unfold column, of_point. rewrite <- !list_fmap_compose.
  apply list_fmap_ext. intros _ p Hp%list_elem_of_lookup_2. simpl.
  eapply Forall_forall in Hdim; [| done].
  destruct (lookup_lt_is_Some_2 p i) as [x Hx]; [done |].
  by rewrite list_lookup_fmap, Hx.
Qed.

(** The mean that numpy takes of rows without NaN is the mean that
    [mid_point] takes, when there is a row. *)
Lemma np_mean_centroid (ms : list (list num)) dimension :
  ms ≠ [] → Forall (fun p => dimension ≤ length p)%nat ms →
  np_mean (of_point <$> ms) dimension = of_point (centroid ms dimension).
Proof.
  intros Hne Hdim. rewrite np_mean_rows by by destruct ms.
  unfold centroid. unfold of_point at 3.
  rewrite <- list_fmap_compose. apply list_fmap_ext.
  intros i d [-> Hd]%lookup_seq. simpl in *.
  rewrite column_numbers.
  - unfold np_sum. rewrite np_sum_numbers. simpl. by rewrite length_fmap.
  - eapply Forall_impl; [done |]. intros p Hp. simpl in Hp. lia.
Qed.

(** The store of [cluster_numpy] holds the points and the centres of the
    store of [cluster]. *)
Definition agree (s : clustering.store) (sn : store) : Prop :=
  points_array sn = of_point <$> clustering.points_list s ∧
  centers sn = of_point <$> clustering.centers s.

(** Every tuple of the store has [dimension] coordinates. *)
Definition uniform (dimension : nat) (s : clustering.store) : Prop :=
  Forall (fun p => length p = dimension) (clustering.points_list s) ∧
  Forall (fun c => length c = dimension) (clustering.centers s).

Lemma uniform_valid clusters dimension s :
  uniform dimension s → clusters = len (clustering.centers s) →
  clustering.centers s ≠ [] → valid clusters dimension s.
Proof.
  intros [Hps Hcs] HK Hne. split_and!; [done | done | |].
  - eapply Forall_impl; [done |]. intros p Hp. simpl in Hp. lia.
  - eapply Forall_impl; [done |]. intros p Hp. simpl in Hp. lia.
Qed.

Lemma allocation_agree clusters dimension s sn :
  valid clusters dimension s → uniform dimension s → agree s sn →
  np_allocation sn = allocation clusters dimension s.
Proof.
  intros Hv [Hps Hcs] [Harr Hcsn].
  destruct (assignment_eq _ _ _ Hv) as [_ HF].
  destruct Hv as (HK & Hne & _).
  destruct (Calculate_index_nearest dimension (clustering.points_list s)
              (clustering.centers s) Hne Hps Hcs) as (alloc & Halloc & HFn).
  assert (np_allocation sn = alloc) as ->.
  { unfold np_allocation, assignment. py_unfold. simpl.
    by rewrite Harr, Hcsn, Halloc. }
  apply list_eq_same_length with (length (clustering.points_list s)).
  - symmetry. by eapply Forall2_length.
  - symmetry. by eapply Forall2_length.
  - intros n i j Hn Hi Hj.
    destruct (lookup_lt_is_Some_2 (clustering.points_list s) n) as [p Hp];
      [lia |].
    eapply nearest_lowest_unique.
    + eapply (Forall2_lookup_lr _ _ _ _ _ _ HFn); done.
    + by destruct (Forall2_lookup_lr _ _ _ _ _ _ HF Hp Hj) as (_ & _ & ?).
Qed.

(** No cluster is left without a point by the assignment in [s]. *)
Definition populated (clusters : Z) (dimension : nat) (s : clustering.store)
  : Prop :=
  ∀ cid, (cid < Z.to_nat clusters)%nat →
    select (clustering.points_list s) (allocation clusters dimension s) cid
    ≠ [].

Lemma new_mean_new_center (pts : list (list num)) alloc dimension cid c :
  select pts alloc cid ≠ [] →
  Forall (fun p => length p = dimension) pts →
  new_mean (of_point <$> pts) alloc dimension cid
  = of_point (new_center pts alloc dimension cid c).
Proof.
  intros Hne Hps. unfold new_mean, new_center.
  rewrite select_fmap, np_mean_centroid; [by destruct (select pts alloc cid) | done |].
  apply Forall_forall. intros p Hp%select_elem_of.
  eapply Forall_forall in Hps; [| done]. simpl in Hps. lia.
Qed.

Lemma next_agree Max_iterations clusters dimension s sn :
  valid clusters dimension s → uniform dimension s → agree s sn →
  populated clusters dimension s →
  uniform dimension (next Max_iterations clusters dimension s) ∧
  agree (next Max_iterations clusters dimension s)
        (np_next Max_iterations dimension sn).
Proof.
  intros Hv Hu Ha Hpop.
  pose proof (allocation_agree _ _ _ _ Hv Hu Ha) as Halloc.
  destruct Hu as [Hps Hcs]. destruct Ha as [Harr Hcsn].
  destruct Hv as (HK & Hne & _). unfold len in HK.
  split; split; simpl.
  - done.
  - unfold updated_centers. apply Forall_lookup. intros i c' Hi.
    apply list_lookup_imap_Some in Hi as (c & Hc & ->).
    unfold new_center.
    destruct (select (clustering.points_list s) _ i) eqn:Hsel.
    + by eapply Forall_lookup in Hcs.
    + apply centroid_length.
  - done.
  - unfold np_updated_centers, updated_centers.
    rewrite Halloc, Harr, Hcsn. apply list_eq. intros i.
    rewrite list_lookup_fmap, !list_lookup_imap, list_lookup_fmap.
    destruct (clustering.centers s !! i) as [c|] eqn:Hc; [| done]. simpl.
    f_equal. apply new_mean_new_center; [| done].
    apply Hpop. apply lookup_lt_Some in Hc. lia.
Qed.

Lemma passes_agree Max_iterations clusters dimension s sn :
  valid clusters dimension s → uniform dimension s → agree s sn →
  ∀ k,
  (∀ j, (j < k)%nat →
     populated clusters dimension
       (Nat.iter j (next Max_iterations clusters dimension) s)) →
  valid clusters dimension
    (Nat.iter k (next Max_iterations clusters dimension) s) ∧
  uniform dimension (Nat.iter k (next Max_iterations clusters dimension) s) ∧
  agree (Nat.iter k (next Max_iterations clusters dimension) s)
        (Nat.iter k (np_next Max_iterations dimension) sn).
Proof.
  intros Hv Hu Ha k. induction k as [|k IH]; intros Hpop; [done |].
  destruct IH as (IHv & IHu & IHa); [intros j Hj; apply Hpop; lia |].
  cbn [Nat.iter]. split; [by apply next_valid |].
  apply next_agree; [done.. |]. apply Hpop. lia.
Qed.

(** X17. The two implementations agree as long as no cluster is left without
    a point.  On a valid input, when the initialisers leave the same centres
    and every pass of [cluster] gives every cluster a point, [cluster] and
    [cluster_numpy] return the same keys in the same order with the same
    centre and the same members under every key, and end with the same
    centres. *)
Theorem parity_while_clusters_populated (pts : list (list num))
    Max_iterations clusters g1 g2 out p0 :
  pts !! 0%nat = Some p0 →
  Forall (fun p => length p = length p0) pts →
  1 ≤ clusters ≤ len pts → 1 ≤ Max_iterations →
  let s0 := (clustering.initial_centers clusters
               (clustering.call pts g1 out)).2 in
  let sn0 := (initial_centers clusters (length p0) (call pts g2 out)).2 in
  centers sn0 = of_point <$> clustering.centers s0 →
  (∀ k, (k < Z.to_nat Max_iterations)%nat →
     populated clusters (length p0)
       (Nat.iter k (next Max_iterations clusters (length p0))
          (clustering.set_iteration 0 s0))) →
  ∃ info info_np s' sn',
    clustering.cluster Max_iterations clusters false
      (clustering.call pts g1 out) = (Ok (Some info), s') ∧
    cluster_numpy Max_iterations clusters false (call pts g2 out)
    = (Ok (Some info_np), sn') ∧
    centers sn' = of_point <$> clustering.centers s' ∧
    Forall2 (fun kd kdn =>
               kdn.1 = kd.1 ∧
               center kdn.2 = of_point <$> center kd.2 ∧
               members kdn.2 = of_point <$> members kd.2)
            info info_np.
Proof.
  intros Hp0 Hdim HK HM s0 sn0 Hcs Hpop.
  destruct (cluster_run pts Max_iterations clusters g1 out p0)
    as (s0' & s_last & Hs0 & _ & _ & Hpts & _ & _ & _ & Hci & Hrun & Hlast);
    [done.. | |].
  { eapply Forall_impl; [done |]. intros p Hp. simpl in Hp. lia. }
  destruct (cluster_numpy_run pts Max_iterations clusters g2 out p0)
    as (sn0' & sn_last & Hsn0 & _ & _ & _ & _ & Harr & _ & _ & Hcin & Hrunn
        & Hlastn); [done.. |].
  assert (s0' = s0) as -> by (unfold s0; by rewrite Hs0).
  assert (sn0' = sn0) as -> by (unfold sn0; by rewrite Hsn0).
  destruct (initial_centers_eq clusters (clustering.call pts g1 out))
    as (s0' & Hs0' & E1 & _ & _ & _ & E5 & E6); [by destruct pts |].
  rewrite Hs0 in Hs0'. injection Hs0' as <-. simpl in E1, E6.
  destruct (np_initial_centers_eq clusters (length p0) (call pts g2 out))
    as (sn0' & ix & Hsn0' & _ & _ & _ & _ & F5 & _); [done | simpl; lia |].
  rewrite Hsn0 in Hsn0'. injection Hsn0' as <-. simpl in F5.
  assert (uniform (length p0) (clustering.set_iteration 0 s0)) as Hu.
  { split; simpl.
    - by rewrite E1.
    - eapply Forall_impl; [done |]. intros c Hc. simpl in Hc.
      by eapply Forall_forall in Hdim. }
  assert (valid clusters (length p0) (clustering.set_iteration 0 s0)) as Hv.
  { apply uniform_valid; [done | simpl; unfold len in *; lia |].
    simpl. intros Hnil. rewrite Hnil in E5. simpl in E5. lia. }
  assert (agree (clustering.set_iteration 0 s0) (set_iteration 0 sn0)) as Ha.
  { split; simpl; [by rewrite F5, E1 | done]. }
  destruct (passes_agree Max_iterations clusters (length p0) _ _ Hv Hu Ha
              (Z.to_nat (Max_iterations - 1)))
    as (Hvl & Hul & Hal).
  { intros j Hj. apply Hpop. lia. }
  rewrite <- Hlast, <- Hlastn in *.
  assert (populated clusters (length p0) s_last) as Hpl.
  { rewrite Hlast. apply Hpop. lia. }
  destruct (next_agree Max_iterations clusters (length p0) s_last sn_last)
    as [_ [_ Hcn]]; [done.. |].
  pose proof (allocation_agree _ _ _ _ Hvl Hul Hal) as Halloc.
  eexists _, _, _, _. split_and!; [done | done | done |].
  rewrite Hci, Hcin, Halloc.
  destruct Hal as [_ Hcl]. rewrite Hcl.
  destruct Hvl as (HKl & _). unfold len in HKl.
  destruct Hul as [Hps _]. rewrite Hpts in Hps.
  unfold recorded, np_recorded.
  apply Forall2_same_length_lookup. split.
  { by rewrite !length_imap, length_fmap. }
  intros i kd kdn Hkd Hkdn.
  apply list_lookup_imap_Some in Hkd as (c & Hc & ->).
  apply list_lookup_imap_Some in Hkdn as (cn & _ & ->). simpl.
  rewrite !center_of_entry, !members_entry. split_and!; [done | |].
  - simpl. f_equal. apply new_mean_new_center; [| done].
    rewrite <- Hpts. apply Hpl. apply lookup_lt_Some in Hc. lia.
  - apply select_fmap.
Qed.
End parity.

(** ** After a centre of [cluster_numpy] has become NaN *)

Section nan_passes.
Context {AR : Arith} {RN : Random} {ST : Str (option num)}.
Import clustering_numpy.

Lemma of_point_no_nan (q : list num) : None ∉ of_point q.
Proof.
  unfold of_point. intros (x & Hx & _)%list_elem_of_fmap. discriminate.
Qed.

Lemma row_cases (c : list (option num)) : None ∈ c ∨ ∃ q, c = of_point q.
Proof.
  induction c as [|[x|] c IH].
  - right. by exists [].
  - destruct IH as [Hin | [q ->]]; [left; by right |].
    right. by exists (x :: q).
  - left. by left.
Qed.

(** The first centre with a NaN coordinate. *)
Lemma first_nan (cs : list (list (option num))) :
  Exists (fun c => None ∈ c) cs →
  ∃ before c after, cs = (of_point <$> before) ++ c :: after ∧ None ∈ c.
Proof.
  induction cs as [|c cs IH]; intros Hex; [by apply Exists_nil in Hex |].
  destruct (row_cases c) as [Hc | [q ->]].
  - by exists [], c, cs.
  - apply Exists_cons in Hex as [Hq | Hex]; [by apply of_point_no_nan in Hq |].
    destruct (IH Hex) as (before & c & after & -> & Hc).
    by exists (q :: before), c, after.
Qed.

Lemma np_mean_nil dimension :
  np_mean [] dimension = replicate dimension (@None num).
Proof.
  unfold np_mean.
  transitivity (replicate (length (seq 0 dimension)) (@None num));
    [| by rewrite length_seq].
  induction (seq 0 dimension) as [|i l IH]; [done |].
  simpl. f_equal. apply IH.
Qed.

Lemma np_mean_length alloc_ps dimension :
  length (np_mean alloc_ps dimension) = dimension.
Proof. unfold np_mean. by rewrite length_fmap, length_seq. Qed.

Lemma select_replicate {A : Type} (l : list A) i j :
  i ≠ j → select l (replicate (length l) i) j = [].
Proof.
  intros Hij. unfold select. induction l as [|x l IH]; [done |].
  simpl. rewrite filter_cons_False by done. apply IH.
Qed.

(** One pass from a store with a NaN centre: every point goes to the first
    such centre, and every other centre is NaN after the update. *)
Lemma nan_pass Max_iterations clusters dimension (sn : store)
    (pts : list (list num)) :
  np_valid clusters sn → 2 ≤ clusters →
  Forall (fun p => length p = dimension) pts →
  points_array sn = of_point <$> pts →
  Forall (fun c => length c = dimension) (centers sn) →
  Exists (fun c => None ∈ c) (centers sn) →
  ∃ i, (i < Z.to_nat clusters)%nat ∧
    np_allocation sn = replicate (length pts) i ∧
    Forall (fun c => length c = dimension)
           (centers (np_next Max_iterations dimension sn)) ∧
    Exists (fun c => None ∈ c)
           (centers (np_next Max_iterations dimension sn)).
Proof.
  intros Hv HK2 Hps Harr Hcs Hex. pose proof Hv as [HK Hne]. unfold len in HK.
  destruct (first_nan _ Hex) as (before & c & after & Hdec & Hc).
  assert (Forall (fun b => length b = dimension) before ∧ length c = dimension)
    as [Hbs Hcl].
  { rewrite Hdec in Hcs. apply Forall_app in Hcs as [Hbs Hcs].
    apply Forall_cons in Hcs as [Hcl _]. split; [| done].
    apply Forall_fmap in Hbs. eapply Forall_impl; [done |].
    intros b Hb. simpl in Hb. unfold of_point in Hb.
    by rewrite length_fmap in Hb. }
  assert (1 ≤ dimension)%nat as Hdim.
  { rewrite <- Hcl. destruct c; [by apply elem_of_nil in Hc | simpl; lia]. }
  assert (np_allocation sn = replicate (length pts) (length before)) as Halloc.
  { destruct (np_assignment_eq clusters sn) as [_ HF]; [done |].
    rewrite Harr, Hdec in HF.
    apply list_eq_same_length with (length pts).
    - by rewrite length_replicate.
    - apply Forall2_length in HF. by rewrite length_fmap in HF.
    - intros n i j Hn Hi [-> _]%lookup_replicate.
      destruct (Forall2_lookup_r _ _ _ _ _ HF Hi) as (r & Hr & Hmin & _).
      apply list_lookup_fmap_Some in Hr as (p & -> & Hp).
      rewrite (argmin_first_nan_centre dimension) in Hmin; [congruence | | done..].
      eapply Forall_forall in Hps; [done |]. by eapply list_elem_of_lookup_2. }
  assert (length before < length (centers sn))%nat as Hlt.
  { rewrite Hdec, length_app, length_fmap. simpl. lia. }
  exists (length before). split_and!; [lia | done | |].
  - simpl. unfold np_updated_centers. apply Forall_lookup.
    intros j c' Hj. apply list_lookup_imap_Some in Hj as (c0 & _ & ->).
    apply np_mean_length.
  - simpl. unfold np_updated_centers. apply Exists_exists.
    set (j := if decide (length before = 0%nat) then 1%nat else 0%nat).
    assert (j ≠ length before ∧ j < length (centers sn))%nat as [Hj Hjlt].
    { unfold j. destruct (decide _); lia. }
    exists (replicate dimension None). split.
    + apply list_elem_of_lookup. exists j.
      destruct (lookup_lt_is_Some_2 (centers sn) j) as [cj Hcj]; [done |].
      rewrite list_lookup_imap, Hcj. simpl. f_equal.
      unfold new_mean. rewrite Halloc, Harr.
      replace (length pts) with (length (of_point <$> pts))
        by by rewrite length_fmap.
      rewrite select_replicate by done. apply np_mean_nil.
    + destruct dimension; [lia |]. by left.
Qed.

(** X18. [cluster_numpy] does not recover from a NaN centre (the centre an
    empty cluster gets).  With at least two clusters, from a store with a
    centre that has a NaN coordinate, any number of further passes succeed,
    and after them a centre has a NaN coordinate again and the assignment
    step gives all the points to one cluster. *)
Theorem nan_centre_never_recovers Max_iterations clusters dimension
    (sn : store) (pts : list (list num)) n :
  np_valid clusters sn → 2 ≤ clusters →
  Forall (fun p => length p = dimension) pts →
  points_array sn = of_point <$> pts →
  Forall (fun c => length c = dimension) (centers sn) →
  Exists (fun c => None ∈ c) (centers sn) →
  ∃ s_n i,
    repeat_ n (pass Max_iterations clusters dimension) sn = (Ok (), s_n) ∧
    (i < Z.to_nat clusters)%nat ∧
    assignment s_n = (Ok (replicate (length pts) i), s_n) ∧
    Exists (fun c => None ∈ c) (centers s_n).
Proof.
  intros Hv HK Hps Harr Hcs Hex.
  assert (np_valid clusters (Nat.iter n (np_next Max_iterations dimension) sn)
          ∧ points_array (Nat.iter n (np_next Max_iterations dimension) sn)
            = of_point <$> pts
          ∧ Forall (fun c => length c = dimension)
              (centers (Nat.iter n (np_next Max_iterations dimension) sn))
          ∧ Exists (fun c => None ∈ c)
              (centers (Nat.iter n (np_next Max_iterations dimension) sn)))
    as (Hvn & Harrn & Hcsn & Hexn).
  { induction n as [|n (IHv & IHa & IHc & IHe)]; [done |].
    cbn [Nat.iter].
    destruct (nan_pass Max_iterations clusters dimension _ pts IHv HK Hps IHa
                IHc IHe) as (i & _ & _ & Hc' & He').
    split_and!; [by eapply np_next_valid | done | done | done]. }
  destruct (nan_pass Max_iterations clusters dimension _ pts Hvn HK Hps Harrn
              Hcsn Hexn) as (i & Hi & Halloc & _).
  exists (Nat.iter n (np_next Max_iterations dimension) sn), i.
  split_and!; [| done | | done].
  - by apply np_repeat_next.
  - destruct (np_assignment_eq _ _ Hvn) as [-> _]. by rewrite Halloc.
Qed.
End nan_passes.

(** * Examples of the further properties *)

Module examples.
Import exact.

#[local] Instance Q_eq_dec : EqDecision Q.
Proof. solve_decision. Defined.

Lemma no_budget_empty_result_witness :
  (∃ s', clustering.cluster 0 2 false
           (clustering.call scenario.points [0; 2]%nat [])
         = (Ok (Some []), s') ∧
         length (clustering.centers s') = 2%nat ∧
         clustering.iteration s' = 0 ∧ clustering.stdout s' = []) ∧
  (∃ s', clustering_numpy.cluster_numpy 0 2 false
           (clustering_numpy.call scenario.points [0; 2]%nat [])
         = (Ok (Some []), s') ∧
         length (clustering_numpy.centers s') = 2%nat ∧
         clustering_numpy.iteration s' = 0 ∧
         clustering_numpy.stdout s' = []).
Proof.
  apply (no_budget_empty_result (AR := arith) (RN := random) scenario.points
           0 2 false [0; 2]%nat [] [0; 0]%Q);
    [reflexivity | repeat constructor | vm_compute; intuition discriminate
    | lia].
Defined.

Lemma no_clusters_ValueError_witness :
  clustering.cluster 5 0 false (clustering.call scenario.points [0; 2]%nat [])
  = (Raise ValueError, clustering.call scenario.points [0; 2]%nat []) ∧
  (clustering_numpy.cluster_numpy 5 0 false
     (clustering_numpy.call scenario.points [0; 2]%nat [])).1
  = Raise ValueError.
Proof.
  apply (no_clusters_ValueError (AR := arith) (RN := random) scenario.points
           5 0 false [0; 2]%nat []); [discriminate | lia | lia].
Defined.

Lemma no_points_IndexError_witness :
  clustering.cluster 5 0 false (clustering.call [] [0; 2]%nat [])
  = (Raise IndexError, clustering.call [] [0; 2]%nat []) ∧
  clustering_numpy.cluster_numpy 5 0 false
    (clustering_numpy.call [] [0; 2]%nat [])
  = (Raise IndexError, clustering_numpy.call [] [0; 2]%nat []).
Proof.
  apply (no_points_IndexError (AR := arith) (RN := random) 5 0 false
           [0; 2]%nat []); lia.
Defined.

Lemma centre_is_mean_of_members_witness :
  (∃ info s',
     clustering.cluster 5 2 false
       (clustering.call scenario.points [0; 2]%nat []) = (Ok (Some info), s') ∧
     ∀ k d, (k, d) ∈ info →
       center d = clustering.centers s' !! k ∧
       (members d ≠ [] → center d = Some (centroid (members d) 2))) ∧
  (∃ info s',
     clustering_numpy.cluster_numpy 5 2 false
       (clustering_numpy.call scenario.points [0; 2]%nat [])
     = (Ok (Some info), s') ∧
     ∀ k d, (k, d) ∈ info →
       center d = clustering_numpy.centers s' !! k ∧
       center d = Some (clustering_numpy.np_mean (members d) 2)).
Proof.
  apply (centre_is_mean_of_members (AR := arith) (RN := random)
           scenario.points 5 2 [0; 2]%nat [] [0; 0]%Q);
    [reflexivity | repeat constructor | vm_compute; intuition discriminate
    | lia].
Defined.

Lemma members_keep_input_order_witness :
  (∃ info s',
     clustering.cluster 5 2 false
       (clustering.call scenario.points [0; 2]%nat []) = (Ok (Some info), s') ∧
     ∀ k d, (k, d) ∈ info → members d `sublist_of` scenario.points) ∧
  (∃ info s',
     clustering_numpy.cluster_numpy 5 2 false
       (clustering_numpy.call scenario.points [0; 2]%nat [])
     = (Ok (Some info), s') ∧
     ∀ k d, (k, d) ∈ info →
       members d `sublist_of` (clustering_numpy.of_point <$> scenario.points)).
Proof.
  apply (members_keep_input_order (AR := arith) (RN := random)
           scenario.points 5 2 [0; 2]%nat [] [0; 0]%Q);
    [reflexivity | repeat constructor | vm_compute; intuition discriminate
    | lia].
Defined.

(** One centre [0], then a centre that is NaN: both points go to it. *)
Lemma nan_centre_takes_every_point_witness :
  clustering_numpy.Calculate_index
    (clustering_numpy.of_point <$> [[0]; [3]]%Q)
    ((clustering_numpy.of_point <$> [[0]]%Q) ++ [None] :: [])
  = Ok [1; 1]%nat.
Proof.
  apply (nan_centre_takes_every_point (AR := arith) 1 [[0]; [3]]%Q [[0]]%Q
           [None] []);
    [repeat constructor | repeat constructor | reflexivity | constructor].
Defined.

(** The stores of the example scenario once the centres are the means of the
    two groups. *)
Definition settled : clustering.store (AR := arith) (RN := random) :=
  clustering.Store scenario.points [] [] [[0; 1 # 2]; [10; 21 # 2]]%Q [] 0.

Definition settled_numpy
  : clustering_numpy.store (AR := arith) (RN := random) :=
  clustering_numpy.Store (AR := arith) (RN := random) scenario.points [] []
    (clustering_numpy.of_point (AR := arith) <$> scenario.points)
    (clustering_numpy.of_point (AR := arith)
       <$> [[0; 1 # 2]; [10; 21 # 2]]%Q) [] 0.

Lemma settled_assignment_fixes_centres_witness :
  (∃ s1 s',
     clustering.pass 5 2 2 settled = (Ok (), s1) ∧
     repeat_ 3 (clustering.pass 5 2 2) s1 = (Ok (), s') ∧
     clustering.centers s' = clustering.centers s1) ∧
  (∃ s1 s',
     clustering_numpy.pass 5 2 2 settled_numpy = (Ok (), s1) ∧
     repeat_ 3 (clustering_numpy.pass 5 2 2) s1 = (Ok (), s') ∧
     clustering_numpy.centers s' = clustering_numpy.centers s1).
Proof.
  apply (settled_assignment_fixes_centres (AR := arith) (RN := random)
           5 2 2 settled settled_numpy 3).
  - split_and!; [reflexivity | discriminate | repeat constructor
                | repeat constructor].
  - split; [reflexivity | discriminate].
  - vm_compute. reflexivity.
  - vm_compute. reflexivity.
Defined.

(** Four tracks with different features, and four of which the second
    repeats the first. *)
Definition four_tracks : list (tracks.SingleTrack (AR := arith)) :=
  [tracks.Track 1 1 1; tracks.Track 1 2 1;
   tracks.Track 10 10 10; tracks.Track 10 11 10]%Q.

Definition repeated_tracks : list (tracks.SingleTrack (AR := arith)) :=
  [tracks.Track 1 1 1; tracks.Track 1 1 1;
   tracks.Track 10 10 10; tracks.Track 10 11 10]%Q.

Lemma kmeans_groups_every_track_once_witness :
  ∃ groups s',
    tracks.kmeans four_tracks 5 2 [0; 1]%nat [] = (Ok groups, s') ∧
    length groups = 2%nat ∧
    concat groups ≡ₚ [0; 1; 2; 3]%nat ∧
    ∀ key group, groups !! key = Some group →
      ∃ info, clustering_numpy.clusters_information s' !! key
              = Some (key, info) ∧
        Forall2 (fun index p =>
                   clustering_numpy.of_point
                     <$> (tracks.features <$> four_tracks) !! index = Some p)
                group (members info).
Proof.
  apply (kmeans_groups_every_track_once (AR := arith) (RN := random)
           four_tracks 5 2 [0; 1]%nat []);
    [vm_compute; intuition discriminate | lia |].
  apply (bool_decide_unpack _). vm_compute. exact I.
Defined.

Lemma kmeans_lists_first_of_equal_tracks_witness :
  ∃ groups firsts s',
    tracks.kmeans repeated_tracks 5 2 [0; 1]%nat [] = (Ok groups, s') ∧
    concat groups ≡ₚ firsts ∧
    Forall2 (fun track index =>
               (∃ first, repeated_tracks !! index = Some first ∧
                         tracks.features first = tracks.features track) ∧
               ∀ j earlier, (j < index)%nat →
                 repeated_tracks !! j = Some earlier →
                 tracks.features earlier ≠ tracks.features track)
            repeated_tracks firsts.
Proof.
  apply (kmeans_lists_first_of_equal_tracks (AR := arith) (RN := random)
           repeated_tracks 5 2 [0; 1]%nat []);
    [vm_compute; intuition discriminate | lia].
Defined.

Lemma parity_while_clusters_populated_witness :
  ∃ info info_np s' sn',
    clustering.cluster 5 2 false
      (clustering.call scenario.points [0; 2]%nat []) = (Ok (Some info), s') ∧
    clustering_numpy.cluster_numpy 5 2 false
      (clustering_numpy.call scenario.points [0; 1]%nat [])
    = (Ok (Some info_np), sn') ∧
    clustering_numpy.centers sn'
    = clustering_numpy.of_point <$> clustering.centers s' ∧
    Forall2 (fun kd kdn =>
               kdn.1 = kd.1 ∧
               center kdn.2 = clustering_numpy.of_point <$> center kd.2 ∧
               members kdn.2 = clustering_numpy.of_point <$> members kd.2)
            info info_np.
Proof.
  apply (parity_while_clusters_populated (AR := arith) (RN := random)
           scenario.points 5 2 [0; 2]%nat [0; 1]%nat [] [0; 0]%Q);
    [reflexivity | repeat constructor | vm_compute; intuition discriminate
    | lia | vm_compute; reflexivity |].
  intros k Hk cid Hcid.
  do 5 (destruct k as [|k];
        [do 2 (destruct cid as [|cid]; [vm_compute; discriminate |]);
         simpl in Hcid; lia |]).
  simpl in Hk. lia.
Defined.
(** The points [0], [0] and [3] with the centres [0] and NaN. *)
Definition with_nan : clustering_numpy.store (AR := arith) (RN := random) :=
  clustering_numpy.Store (AR := arith) (RN := random) scenario.line [] []
    (clustering_numpy.of_point (AR := arith) <$> scenario.line)
    [[Some 0%Q]; [None]] [] 0.

Lemma nan_centre_never_recovers_witness :
  ∃ s_n i,
    repeat_ 2 (clustering_numpy.pass 5 2 1) with_nan = (Ok (), s_n) ∧
    (i < 2)%nat ∧
    clustering_numpy.assignment s_n = (Ok [i; i; i], s_n) ∧
    Exists (fun c => None ∈ c) (clustering_numpy.centers s_n).
Proof.
  apply (nan_centre_never_recovers (AR := arith) (RN := random) 5 2 1
           with_nan scenario.line 2).
  - split; [reflexivity | discriminate].
  - lia.
  - repeat constructor.
  - reflexivity.
  - repeat constructor.
  - right. left. left.
Defined.
(** The second point lacks a coordinate. *)
Definition ragged : list (list Q) := [[0; 0]; [1]; [2; 2]]%Q.

Lemma short_point_IndexError_witness :
  ∃ s', clustering.cluster 1 2 false (clustering.call ragged [0; 2]%nat [])
        = (Raise IndexError, s') ∧
        clustering.stdout s' = [] ∧
        clustering.clusters_information s' = [] ∧
        clustering.iteration s' = 0.
Proof.
  apply (short_point_IndexError (AR := arith) (RN := random) ragged 1 2 false
           [0; 2]%nat [] [0; 0]%Q [1]%Q);
    [reflexivity | right; left | simpl; lia
    | vm_compute; intuition discriminate | lia].
Defined.
End examples.
